(** * Sports-poetry configuration builder: a shallow embedding of
    [config_builder.py] and the properties of its specification.

    - Python values are the tree type [pyval]: [None], booleans, integers,
      strings, lists and dictionaries with string keys, that is, what a JSON
      document is made of.  Floats are left out.  A dictionary keeps its
      insertion order (an association list); a string is a sequence of code
      points below 256 (Rocq's 8-bit [ascii], read as Latin-1), on which
      [strip], [lower] and the JSON escapes are those of Python.
    - A method of [ConfigBuilder] is written statement by statement in a
      state-and-exception monad over a [world]: the [config] attribute of
      every live builder, by address, and the text of every file, by path.
      What a method raises comes with the world it leaves behind.
    - [json.dumps(_, indent=2)] and [json.loads] are a printer and a parser
      on text; a file can always be written.
    - [create_config_interactive] and the command line are programs over
      a console as well: the lines of standard input still to be read and
      the text written to standard output.
    - Where it matters which dictionary is which, the class is embedded a
      second time, in [Shared], over a heap of lists and dictionaries known
      by their address.
    - The second half proves, first, that each method computes a plain
      function of the document, then the properties of the specification,
      one theorem per claim, and last further properties of the code. *)

From stdpp Require Import gmap strings list.
From Stdlib Require Import Ascii ZArith.
From Stdlib Require Import DecimalString DecimalNat DecimalN DecimalPos DecimalFacts.

(** Appending to a string that starts with known characters computes. *)
#[local] Arguments String.append !s1 s2 : simpl nomatch.

(* ================================================================== *)
(** ** Python strings *)
(* ================================================================== *)

Module PyStr.

(** [str.isspace] on one code point below 256: TAB..CR, FS..US, space,
    NEL (0x85) and NBSP (0xA0). *)
Definition isspace (c : ascii) : bool :=
  let n := nat_of_ascii c in
  ((9 <=? n) && (n <=? 13)) || ((28 <=? n) && (n <=? 31))
  || (n =? 32) || (n =? 133) || (n =? 160).

(** [str.lower] on one code point below 256: A..Z and the Latin-1 capitals
    0xC0..0xDE (the multiplication sign 0xD7 apart) move up by 32. *)
Definition lower_char (c : ascii) : ascii :=
  let n := nat_of_ascii c in
  if ((65 <=? n) && (n <=? 90))
     || ((192 <=? n) && (n <=? 222) && negb (n =? 215))
  then ascii_of_nat (n + 32) else c.

Fixpoint lower (s : string) : string :=
  match s with
  | EmptyString => EmptyString
  | String c s' => String (lower_char c) (lower s')
  end.

Fixpoint lstrip (s : string) : string :=
  match s with
  | EmptyString => EmptyString
  | String c s' => if isspace c then lstrip s' else s
  end.

Fixpoint rstrip (s : string) : string :=
  match s with
  | EmptyString => EmptyString
  | String c s' =>
      match rstrip s' with
      | EmptyString => if isspace c then EmptyString else String c EmptyString
      | r => String c r
      end
  end.

(** [s.strip()] *)
Definition strip (s : string) : string := rstrip (lstrip s).

(** [s.strip().lower()], the normal form of a sport name. *)
Definition normalize (s : string) : string := lower (strip s).

(** [sub in s] for two strings. *)
Fixpoint contains (sub s : string) : bool :=
  String.prefix sub s
  || match s with
     | EmptyString => false
     | String _ s' => contains sub s'
     end.

(** [str(n)] for a non-negative integer. *)
Definition of_nat (n : nat) : string :=
  NilEmpty.string_of_uint (Nat.to_uint n).

(** [sep.join(l)] *)
Fixpoint join (sep : string) (l : list string) : string :=
  match l with
  | [] => ""
  | [x] => x
  | x :: l' => x +:+ sep +:+ join sep l'
  end.

End PyStr.

(* ================================================================== *)
(** ** Python values, exceptions and the built-in operations used *)
(* ================================================================== *)

(** The values a configuration document is made of: what [json] reads and
    writes.  A [PDict] lists its items in insertion order. *)
#[warnings="-register-all"]
Inductive pyval : Type :=
| PNone
| PBool (b : bool)
| PInt (z : Z)
| PStr (s : string)
| PList (l : list pyval)
| PDict (d : list (string * pyval)).

(** The exceptions met in the module.  [InvalidReference] is the model's
    own: a method called on an address that holds no builder, which Python
    cannot express. *)
Inductive exn : Type :=
| ConfigValidationError (msg : string)
| AttributeError
| TypeError
| KeyError (key : string)
| FileNotFoundError (msg : string)
| JSONDecodeError
| InvalidReference.

Inductive outcome (A : Type) : Type :=
| Returns (a : A)
| Raises (e : exn).
Arguments Returns {A} a.
Arguments Raises {A} e.

Definition is_validation_error {A} (o : outcome A) : bool :=
  match o with
  | Raises (ConfigValidationError _) => true
  | _ => false
  end.

Module Dict.

Definition t := list (string * pyval).

Definition keys (d : t) : list string := map fst d.

(** [d.get(k)], as an option *)
Fixpoint lookup (k : string) (d : t) : option pyval :=
  match d with
  | [] => None
  | (k', v) :: d' => if String.eqb k k' then Some v else lookup k d'
  end.

(** [k in d] *)
Definition mem (k : string) (d : t) : bool :=
  match lookup k d with Some _ => true | None => false end.

(** [d[k] = v]: an existing key keeps its place, a new one goes last. *)
Fixpoint set (k : string) (v : pyval) (d : t) : t :=
  match d with
  | [] => [(k, v)]
  | (k', v') :: d' =>
      if String.eqb k k' then (k, v) :: d' else (k', v') :: set k v d'
  end.

End Dict.

(** [bool(v)] *)
Definition py_truthy (v : pyval) : bool :=
  match v with
  | PNone => false
  | PBool b => b
  | PInt z => negb (z =? 0)%Z
  | PStr s => negb (String.eqb s "")
  | PList l => match l with [] => false | _ => true end
  | PDict d => match d with [] => false | _ => true end
  end.

Definition int_of_bool (b : bool) : Z := if b then 1%Z else 0%Z.

(** [v == w]: booleans compare as the integers 0 and 1, lists item by item,
    dictionaries by their items whatever the order. *)
Fixpoint py_eqb (v w : pyval) {struct v} : bool :=
  match v, w with
  | PNone, PNone => true
  | PBool a, PBool b => Bool.eqb a b
  | PBool a, PInt z => (int_of_bool a =? z)%Z
  | PInt z, PBool b => (z =? int_of_bool b)%Z
  | PInt a, PInt b => (a =? b)%Z
  | PStr a, PStr b => String.eqb a b
  | PList l, PList m =>
      (fix all2 (l : list pyval) (m : list pyval) {struct l} : bool :=
         match l, m with
         | [], [] => true
         | x :: l', y :: m' => py_eqb x y && all2 l' m'
         | _, _ => false
         end) l m
  | PDict d, PDict e =>
      (length d =? length e)
      && (fix all (d : list (string * pyval)) : bool :=
            match d with
            | [] => true
            | (k, x) :: d' =>
                match Dict.lookup k e with
                | Some y => py_eqb x y
                | None => false
                end && all d'
            end) d
  | _, _ => false
  end.

(** [k in c] for a string [k]: a key of a dictionary, an item of a list, a
    substring of a string; the other values are not containers. *)
Definition py_contains (k : string) (c : pyval) : outcome bool :=
  match c with
  | PDict d => Returns (Dict.mem k d)
  | PList l => Returns (existsb (py_eqb (PStr k)) l)
  | PStr s => Returns (PyStr.contains k s)
  | _ => Raises TypeError
  end.

(** [c[k]] for a string [k] *)
Definition py_getitem (c : pyval) (k : string) : outcome pyval :=
  match c with
  | PDict d =>
      match Dict.lookup k d with
      | Some v => Returns v
      | None => Raises (KeyError k)
      end
  | _ => Raises TypeError
  end.

(** [c[k] = v] for a string [k]; the result is the container after the
    assignment. *)
Definition py_setitem (c : pyval) (k : string) (v : pyval) : outcome pyval :=
  match c with
  | PDict d => Returns (PDict (Dict.set k v d))
  | _ => Raises TypeError
  end.

(** [c.get(k)] *)
Definition py_get (c : pyval) (k : string) : outcome pyval :=
  match c with
  | PDict d =>
      match Dict.lookup k d with
      | Some v => Returns v
      | None => Returns PNone
      end
  | _ => Raises AttributeError
  end.

(** [c.copy()]: defined on dictionaries and lists. *)
Definition py_copy (c : pyval) : outcome pyval :=
  match c with
  | PDict _ | PList _ => Returns c
  | _ => Raises AttributeError
  end.

(** [sport.strip().lower()]: only a string has [strip]. *)
Definition py_strip_lower (v : pyval) : outcome string :=
  match v with
  | PStr s => Returns (PyStr.normalize s)
  | _ => Raises AttributeError
  end.

(** A list comprehension whose body may raise: the first failure ends it. *)
Fixpoint comprehension {A B} (f : A -> outcome B) (l : list A)
  : outcome (list B) :=
  match l with
  | [] => Returns []
  | x :: l' =>
      match f x with
      | Raises e => Raises e
      | Returns y =>
          match comprehension f l' with
          | Raises e => Raises e
          | Returns ys => Returns (y :: ys)
          end
      end
  end.

(* ================================================================== *)
(** ** The [json] module: [json.dumps(v, indent=2)] and [json.loads] *)
(* ================================================================== *)

Module Json.

Definition quote : ascii := ascii_of_nat 34.
Definition backslash : ascii := ascii_of_nat 92.
Definition newline : ascii := ascii_of_nat 10.

(** *** Encoder.  Every function takes the text [k] that follows. *)

Definition hex (n : nat) : ascii :=
  ascii_of_nat (if n <? 10 then 48 + n else 87 + n).

(** [ensure_ascii]: the quote, the backslash and everything outside
    [0x20..0x7E] is escaped. *)
Definition escape_char (c : ascii) (k : string) : string :=
  let n := nat_of_ascii c in
  if n =? 34 then String backslash (String quote k)
  else if n =? 92 then String backslash (String backslash k)
  else if n =? 10 then String backslash (String "n" k)
  else if n =? 13 then String backslash (String "r" k)
  else if n =? 9 then String backslash (String "t" k)
  else if n =? 12 then String backslash (String "f" k)
  else if n =? 8 then String backslash (String "b" k)
  else if (n <? 32) || (126 <? n) then
    String backslash (String "u" (String "0" (String "0"
      (String (hex (n / 16)) (String (hex (n mod 16)) k)))))
  else String c k.

Fixpoint escape (s k : string) : string :=
  match s with
  | EmptyString => k
  | String c s' => escape_char c (escape s' k)
  end.

Definition encode_str (s k : string) : string :=
  String quote (escape s (String quote k)).

Definition encode_int (z : Z) (k : string) : string :=
  match z with
  | Z0 => String "0" k
  | Zpos p => NilEmpty.string_of_uint (Pos.to_uint p) +:+ k
  | Zneg p => String "-" (NilEmpty.string_of_uint (Pos.to_uint p) +:+ k)
  end.

Fixpoint indent (n : nat) (k : string) : string :=
  match n with
  | 0 => k
  | S n' => String " " (String " " (indent n' k))
  end.

Definition newline_indent (n : nat) (k : string) : string :=
  String newline (indent n k).

Section Containers.
(** The encoder of the items, one level down. *)
Variable enc : pyval -> string -> string.

(** The items of a list after the first, and the closing bracket. *)
Fixpoint encode_items (lvl : nat) (l : list pyval) (k : string) : string :=
  match l with
  | [] => newline_indent lvl (String "]" k)
  | y :: l' =>
      String "," (newline_indent (S lvl) (enc y (encode_items lvl l' k)))
  end.

Definition encode_member (kv : string * pyval) (k : string) : string :=
  encode_str (fst kv) (String ":" (String " " (enc (snd kv) k))).

(** The members of a dictionary after the first, and the closing brace. *)
Fixpoint encode_members (lvl : nat) (d : list (string * pyval)) (k : string)
  : string :=
  match d with
  | [] => newline_indent lvl (String "}" k)
  | kv :: d' =>
      String "," (newline_indent (S lvl)
        (encode_member kv (encode_members lvl d' k)))
  end.
End Containers.

(** [lvl] is the nesting depth of [v]; an empty container is written without
    a line break, a non-empty one with an item per line. *)
Fixpoint encode (lvl : nat) (v : pyval) (k : string) {struct v} : string :=
  match v with
  | PNone => "null" +:+ k
  | PBool true => "true" +:+ k
  | PBool false => "false" +:+ k
  | PInt z => encode_int z k
  | PStr s => encode_str s k
  | PList [] => "[]" +:+ k
  | PList (x :: l) =>
      String "[" (newline_indent (S lvl)
        (encode (S lvl) x (encode_items (encode (S lvl)) lvl l k)))
  | PDict [] => "{}" +:+ k
  | PDict ((key, x) :: d) =>
      String "{" (newline_indent (S lvl)
        (encode_str key (String ":" (String " "
          (encode (S lvl) x (encode_members (encode (S lvl)) lvl d k))))))
  end.

(** [json.dumps(v, indent=2)] *)
Definition dumps (v : pyval) : string := encode 0 v "".

(** *** Decoder *)

Definition is_ws (c : ascii) : bool :=
  let n := nat_of_ascii c in
  (n =? 32) || (n =? 9) || (n =? 10) || (n =? 13).

Fixpoint skip_ws (s : string) : string :=
  match s with
  | EmptyString => EmptyString
  | String c s' => if is_ws c then skip_ws s' else s
  end.

Fixpoint strip_prefix (p s : string) : option string :=
  match p with
  | EmptyString => Some s
  | String a p' =>
      match s with
      | EmptyString => None
      | String b s' => if Ascii.eqb a b then strip_prefix p' s' else None
      end
  end.

Definition hexval (c : ascii) : option nat :=
  let n := nat_of_ascii c in
  if (48 <=? n) && (n <=? 57) then Some (n - 48)
  else if (97 <=? n) && (n <=? 102) then Some (n - 87)
  else if (65 <=? n) && (n <=? 70) then Some (n - 55)
  else None.

Definition cons_char (c : ascii) (r : option (string * string))
  : option (string * string) :=
  match r with
  | Some (t, rest) => Some (String c t, rest)
  | None => None
  end.

(** The body of a string, after its opening quote.  A code point of 256 or
    more has no image in [ascii]: it is refused. *)
Fixpoint parse_str (s : string) : option (string * string) :=
  match s with
  | EmptyString => None
  | String c r =>
      if Ascii.eqb c quote then Some (EmptyString, r)
      else if Ascii.eqb c backslash then
        match r with
        | EmptyString => None
        | String e r1 =>
            if Ascii.eqb e quote then cons_char quote (parse_str r1)
            else if Ascii.eqb e backslash then cons_char backslash (parse_str r1)
            else if Ascii.eqb e "/" then cons_char "/" (parse_str r1)
            else if Ascii.eqb e "b" then cons_char (ascii_of_nat 8) (parse_str r1)
            else if Ascii.eqb e "f" then cons_char (ascii_of_nat 12) (parse_str r1)
            else if Ascii.eqb e "n" then cons_char (ascii_of_nat 10) (parse_str r1)
            else if Ascii.eqb e "r" then cons_char (ascii_of_nat 13) (parse_str r1)
            else if Ascii.eqb e "t" then cons_char (ascii_of_nat 9) (parse_str r1)
            else if Ascii.eqb e "u" then
              match r1 with
              | String h1 (String h2 (String h3 (String h4 r2))) =>
                  match hexval h1, hexval h2, hexval h3, hexval h4 with
                  | Some a, Some b, Some c', Some d =>
                      let n := ((a * 16 + b) * 16 + c') * 16 + d in
                      if n <? 256 then cons_char (ascii_of_nat n) (parse_str r2)
                      else None
                  | _, _, _, _ => None
                  end
              | _ => None
              end
            else None
        end
      else if nat_of_ascii c <? 32 then None
      else cons_char c (parse_str r)
  end.

Definition is_digit (c : ascii) : bool :=
  let n := nat_of_ascii c in (48 <=? n) && (n <=? 57).

Fixpoint span_digits (s : string) : string * string :=
  match s with
  | EmptyString => (EmptyString, EmptyString)
  | String c r =>
      if is_digit c
      then let (d, r') := span_digits r in (String c d, r')
      else (EmptyString, s)
  end.

(** [0|[1-9][0-9]*] *)
Definition parse_nat (s : string) : option (N * string) :=
  match s with
  | EmptyString => None
  | String c r =>
      if Ascii.eqb c "0" then Some (0%N, r)
      else if is_digit c then
        let (d, r') := span_digits s in
        match NilEmpty.uint_of_string d with
        | Some u => Some (N.of_uint u, r')
        | None => None
        end
      else None
  end.

(** A fraction or an exponent would make the number a float, which [pyval]
    does not have: such a text is refused. *)
Definition float_follows (s : string) : bool :=
  match s with
  | EmptyString => false
  | String c _ => Ascii.eqb c "." || Ascii.eqb c "e" || Ascii.eqb c "E"
  end.

Definition parse_number (s : string) : option (pyval * string) :=
  let '(neg, s1) :=
    match s with
    | String c r => if Ascii.eqb c "-" then (true, r) else (false, s)
    | EmptyString => (false, s)
    end in
  match parse_nat s1 with
  | Some (n, r) =>
      if float_follows r then None
      else Some (PInt (if neg then (- Z.of_N n)%Z else Z.of_N n), r)
  | None => None
  end.

Section Loops.
Variable parse_val : string -> option (pyval * string).

(** The items of an array, after [[] and the white space. *)
Fixpoint parse_items (n : nat) (s : string)
  : option (list pyval * string) :=
  match n with
  | 0 => None
  | S n' =>
      match parse_val s with
      | None => None
      | Some (v, s1) =>
          match skip_ws s1 with
          | EmptyString => None
          | String c s2 =>
              if Ascii.eqb c "," then
                match parse_items n' (skip_ws s2) with
                | Some (vs, s3) => Some (v :: vs, s3)
                | None => None
                end
              else if Ascii.eqb c "]" then Some ([v], s2)
              else None
          end
      end
  end.

(** The members of an object, after [{] and the white space. *)
Fixpoint parse_members (n : nat) (s : string)
  : option (list (string * pyval) * string) :=
  match n with
  | 0 => None
  | S n' =>
      match s with
      | EmptyString => None
      | String q s0 =>
          if negb (Ascii.eqb q quote) then None else
          match parse_str s0 with
          | None => None
          | Some (key, s1) =>
              match skip_ws s1 with
              | EmptyString => None
              | String c s2 =>
                  if negb (Ascii.eqb c ":") then None else
                  match parse_val (skip_ws s2) with
                  | None => None
                  | Some (v, s3) =>
                      match skip_ws s3 with
                      | EmptyString => None
                      | String c' s4 =>
                          if Ascii.eqb c' "," then
                            match parse_members n' (skip_ws s4) with
                            | Some (ms, s5) => Some ((key, v) :: ms, s5)
                            | None => None
                            end
                          else if Ascii.eqb c' "}" then Some ([(key, v)], s4)
                          else None
                      end
                  end
              end
          end
      end
  end.
End Loops.

(** A Python dictionary built from the members in the order read: a key that
    comes again replaces the value and keeps the first place. *)
Definition dict_of_members (ms : list (string * pyval)) : Dict.t :=
  fold_left (fun d kv => Dict.set (fst kv) (snd kv) d) ms [].

Fixpoint parse_value (fuel : nat) (s : string) : option (pyval * string) :=
  match fuel with
  | 0 => None
  | S fuel' =>
      match s with
      | EmptyString => None
      | String c r =>
          if Ascii.eqb c quote then
            match parse_str r with
            | Some (t, r') => Some (PStr t, r')
            | None => None
            end
          else if Ascii.eqb c "[" then
            match skip_ws r with
            | EmptyString => None
            | String c1 r1 =>
                if Ascii.eqb c1 "]" then Some (PList [], r1)
                else
                  match parse_items (parse_value fuel') fuel' (skip_ws r) with
                  | Some (vs, r') => Some (PList vs, r')
                  | None => None
                  end
            end
          else if Ascii.eqb c "{" then
            match skip_ws r with
            | EmptyString => None
            | String c1 r1 =>
                if Ascii.eqb c1 "}" then Some (PDict [], r1)
                else
                  match parse_members (parse_value fuel') fuel' (skip_ws r) with
                  | Some (ms, r') => Some (PDict (dict_of_members ms), r')
                  | None => None
                  end
            end
          else
            match strip_prefix "null" s with
            | Some r' => Some (PNone, r')
            | None =>
            match strip_prefix "true" s with
            | Some r' => Some (PBool true, r')
            | None =>
            match strip_prefix "false" s with
            | Some r' => Some (PBool false, r')
            | None => parse_number s
            end end end
      end
  end.

(** [json.loads(s)]: one value, white space around it, nothing else. *)
Definition loads (s : string) : outcome pyval :=
  match parse_value (S (String.length s)) (skip_ws s) with
  | Some (v, r) =>
      match skip_ws r with
      | EmptyString => Returns v
      | _ => Raises JSONDecodeError
      end
  | None => Raises JSONDecodeError
  end.

End Json.

(* ================================================================== *)
(** ** The world and the monad of methods *)
(* ================================================================== *)

(** A builder object is known by its address; [builders] holds the value of
    the [config] attribute of every live builder, [files] the text of every
    file, by path. *)
Definition loc := nat.

Record world : Type := World {
  builders : gmap loc pyval;
  files : gmap string string
}.

Definition M (A : Type) : Type := world -> outcome A * world.

Definition ret {A} (a : A) : M A := fun w => (Returns a, w).

Definition raise {A} (e : exn) : M A := fun w => (Raises e, w).

Definition bind {A B} (m : M A) (f : A -> M B) : M B :=
  fun w =>
    match m w with
    | (Returns a, w') => f a w'
    | (Raises e, w') => (Raises e, w')
    end.

(** A built-in that returns or raises without touching the world. *)
Definition lift {A} (o : outcome A) : M A := fun w => (o, w).

Notation "x <- m ;; k" := (bind m (fun x => k))
  (at level 100, m at next level, k at level 200, right associativity).

(** [self.config] *)
Definition get_config (self : loc) : M pyval :=
  fun w =>
    match builders w !! self with
    | Some c => (Returns c, w)
    | None => (Raises InvalidReference, w)
    end.

(** [self.config = c] *)
Definition set_config (self : loc) (c : pyval) : M unit :=
  fun w => (Returns tt, World (<[self := c]> (builders w)) (files w)).

(** A new object whose [config] attribute is [c]. *)
Definition new_builder (c : pyval) : M loc :=
  fun w =>
    let self := fresh (dom (builders w)) in
    (Returns self, World (<[self := c]> (builders w)) (files w)).

(** [self.config[k]] *)
Definition config_getitem (self : loc) (k : string) : M pyval :=
  c <- get_config self ;; lift (py_getitem c k).

(** [k in self.config] *)
Definition config_contains (self : loc) (k : string) : M bool :=
  c <- get_config self ;; lift (py_contains k c).

(** [self.config[k] = v] *)
Definition config_setitem (self : loc) (k : string) (v : pyval) : M unit :=
  c <- get_config self ;;
  c' <- lift (py_setitem c k v) ;;
  set_config self c'.

(** [self.config[k1][k2] = v]: the inner object is changed in place, which is
    seen through the outer one. *)
Definition config_setitem2 (self : loc) (k1 k2 : string) (v : pyval)
  : M unit :=
  c <- get_config self ;;
  inner <- lift (py_getitem c k1) ;;
  inner' <- lift (py_setitem inner k2 v) ;;
  c' <- lift (py_setitem c k1 inner') ;;
  set_config self c'.

(** [open(path, "w")] and a write of the whole text. *)
Definition write_file (path text : string) : M unit :=
  fun w => (Returns tt, World (builders w) (<[path := text]> (files w))).

(** [open(path, "r")] and a read of the whole text. *)
Definition read_file (path : string) : M string :=
  fun w =>
    match files w !! path with
    | Some text => (Returns text, w)
    | None => (Raises (FileNotFoundError path), w)
    end.

(** [Path(path).exists()] *)
Definition path_exists (path : string) : M bool :=
  fun w => (Returns (bool_decide (is_Some (files w !! path))), w).

(* ================================================================== *)
(** ** [class ConfigBuilder] *)
(* ================================================================== *)

Module ConfigBuilder.

Definition VALID_GENERATION_MODES : list string := ["template"; "llm"].
Definition VALID_LLM_PROVIDERS : list string := ["together"; "huggingface"].
Definition MIN_SPORTS : nat := 3.
Definition MAX_SPORTS : nat := 5.

Definition DEFAULT_LLM_CONFIG : pyval :=
  PDict [("provider", PStr "together");
         ("model", PStr "meta-llama/Llama-3.3-70B-Instruct-Turbo-Free")].

(** [__init__] *)
Definition init_config : pyval :=
  PDict [("sports", PList []);
         ("retry_enabled", PBool true);
         ("generation_mode", PStr "template")].

(** [ConfigBuilder()] *)
Definition new : M loc := new_builder init_config.

Definition too_few_msg (n : nat) : string :=
  "Must specify at least " +:+ PyStr.of_nat MIN_SPORTS
  +:+ " sports (got " +:+ PyStr.of_nat n +:+ ")".

Definition too_many_msg (n : nat) : string :=
  "Cannot specify more than " +:+ PyStr.of_nat MAX_SPORTS
  +:+ " sports (got " +:+ PyStr.of_nat n +:+ ")".

Definition with_sports (self : loc) (sports : pyval) : M loc :=
  match sports with
  | PList l =>
      if length l <? MIN_SPORTS then
        raise (ConfigValidationError (too_few_msg (length l)))
      else if MAX_SPORTS <? length l then
        raise (ConfigValidationError (too_many_msg (length l)))
      else
        normalized_sports <- lift (comprehension py_strip_lower l) ;;
        if negb (length normalized_sports
                 =? size (list_to_set normalized_sports : gset string)) then
          raise (ConfigValidationError "Sports list contains duplicates")
        else if existsb (fun sport => negb (py_truthy (PStr sport)))
                        normalized_sports then
          raise (ConfigValidationError "Sports list contains empty values")
        else
          _ <- config_setitem self "sports" (PList (map PStr normalized_sports)) ;;
          ret self
  | _ => raise (ConfigValidationError "Sports must be a list")
  end.

Definition with_retry (self : loc) (enabled : bool) : M loc :=
  _ <- config_setitem self "retry_enabled" (PBool enabled) ;;
  ret self.

Definition with_generation_mode (self : loc) (mode : string) : M loc :=
  if negb (existsb (String.eqb mode) VALID_GENERATION_MODES) then
    raise (ConfigValidationError
             ("Invalid generation mode: " +:+ mode +:+ ". "
              +:+ "Must be one of: "
              +:+ PyStr.join ", " VALID_GENERATION_MODES))
  else
    _ <- config_setitem self "generation_mode" (PStr mode) ;;
    _ <- (if String.eqb mode "llm" then
       has_llm <- config_contains self "llm" ;;
       if negb has_llm then config_setitem self "llm" DEFAULT_LLM_CONFIG
       else ret tt
     else ret tt) ;;
    ret self.

Definition with_llm_provider (self : loc) (provider : string) : M loc :=
  if negb (existsb (String.eqb provider) VALID_LLM_PROVIDERS) then
    raise (ConfigValidationError
             ("Invalid LLM provider: " +:+ provider +:+ ". "
              +:+ "Must be one of: "
              +:+ PyStr.join ", " VALID_LLM_PROVIDERS))
  else
    has_llm <- config_contains self "llm" ;;
    _ <- (if negb has_llm then config_setitem self "llm" DEFAULT_LLM_CONFIG
          else ret tt) ;;
    _ <- config_setitem2 self "llm" "provider" (PStr provider) ;;
    _ <- config_setitem self "generation_mode" (PStr "llm") ;;
    ret self.

Definition with_llm_model (self : loc) (model : string) : M loc :=
  has_llm <- config_contains self "llm" ;;
  _ <- (if negb has_llm then config_setitem self "llm" DEFAULT_LLM_CONFIG
        else ret tt) ;;
  _ <- config_setitem2 self "llm" "model" (PStr model) ;;
  _ <- config_setitem self "generation_mode" (PStr "llm") ;;
  ret self.

(** The value returned is the [config] attribute itself. *)
Definition validate (self : loc) : M pyval :=
  sports <- config_getitem self "sports" ;;
  if negb (py_truthy sports) then
    raise (ConfigValidationError "Sports list is required")
  else
    mode <- config_getitem self "generation_mode" ;;
    _ <- (if py_eqb mode (PStr "llm") then
       has_llm <- config_contains self "llm" ;;
       if negb has_llm then
         raise (ConfigValidationError "LLM configuration required for LLM mode")
       else
         llm <- config_getitem self "llm" ;;
         provider <- lift (py_get llm "provider") ;;
         if negb (py_truthy provider) then
           raise (ConfigValidationError "LLM provider is required for LLM mode")
         else
           llm' <- config_getitem self "llm" ;;
           model <- lift (py_get llm' "model") ;;
           if negb (py_truthy model) then
             raise (ConfigValidationError "LLM model is required for LLM mode")
           else ret tt
     else ret tt) ;;
    get_config self.

(** The path returned stands for [Path(path)]. *)
Definition save (self : loc) (path : string) : M string :=
  config <- validate self ;;
  _ <- write_file path (Json.dumps config) ;;
  ret path.

Definition from_dict (data : pyval) : M loc :=
  builder <- new ;;
  c <- lift (py_copy data) ;;
  _ <- set_config builder c ;;
  ret builder.

Definition load (path : string) : M loc :=
  text <- read_file path ;;
  data <- lift (Json.loads text) ;;
  from_dict data.

Definition load_default (path : string) : M loc :=
  found <- path_exists path ;;
  if negb found then
    raise (FileNotFoundError
             ("Default config not found: " +:+ path
              +:+ String Json.newline
                    "Repository may be corrupted. This file must exist."))
  else load path.

End ConfigBuilder.

(* ================================================================== *)
(** ** [compute_changes_from_default] *)
(* ================================================================== *)

(** [d[k]] for a key the loop has just taken from [d]. *)
Definition dict_item (d : Dict.t) (k : string) : pyval :=
  default PNone (Dict.lookup k d).

(** [d.get(k)] *)
Definition dict_get (d : Dict.t) (k : string) : pyval :=
  default PNone (Dict.lookup k d).

Definition change_entry (old new : pyval) : pyval :=
  PDict [("old", old); ("new", new)].

(** One turn of the loop, on the pair [(changed_fields, changes)]. *)
Definition changes_step (default_config new_config : Dict.t)
    (acc : list string * Dict.t) (key : string) : list string * Dict.t :=
  let default_value := dict_get default_config key in
  let new_value := dict_item new_config key in
  if negb (py_eqb default_value new_value) then
    (fst acc ++ [key],
     Dict.set key (change_entry default_value new_value) (snd acc))
  else acc.

Definition compute_changes_from_default (default_config new_config : Dict.t)
  : list string * Dict.t :=
  fold_left (changes_step default_config new_config)
            (Dict.keys new_config) ([], []).

(* ================================================================== *)
(** ** Sequences of setter calls *)
(* ================================================================== *)

(** The five setters of a builder, as data, so that statements can range over
    every sequence of calls. *)
Inductive setter : Type :=
| WithSports (sports : pyval)
| WithRetry (enabled : bool)
| WithGenerationMode (mode : string)
| WithLlmProvider (provider : string)
| WithLlmModel (model : string).

Definition call (self : loc) (op : setter) : M loc :=
  match op with
  | WithSports sports => ConfigBuilder.with_sports self sports
  | WithRetry enabled => ConfigBuilder.with_retry self enabled
  | WithGenerationMode mode => ConfigBuilder.with_generation_mode self mode
  | WithLlmProvider provider => ConfigBuilder.with_llm_provider self provider
  | WithLlmModel model => ConfigBuilder.with_llm_model self model
  end.

(** [reached allowed w0 self w]: in [w], [self] is a builder made by
    [ConfigBuilder()] in [w0] and then taken through successful setter calls,
    each of them [allowed] on the document it found. *)
Inductive reached (allowed : pyval -> setter -> Prop) (w0 : world)
  : loc -> world -> Prop :=
| reached_new self w :
    ConfigBuilder.new w0 = (Returns self, w) ->
    reached allowed w0 self w
| reached_call self w op cfg r w' :
    reached allowed w0 self w ->
    builders w !! self = Some cfg ->
    allowed cfg op ->
    call self op w = (Returns r, w') ->
    reached allowed w0 self w'.

Definition any_call (cfg : pyval) (op : setter) : Prop := True.




(** The world after [self.config = c]. *)
Definition with_config (self : loc) (c : pyval) (w : world) : world :=
  World (<[self := c]> (builders w)) (files w).

(** The strings of a list of strings; [None] for any other value. *)
Fixpoint strings_of (l : list pyval) : option (list string) :=
  match l with
  | [] => Some []
  | PStr s :: l' =>
      match strings_of l' with
      | Some ss => Some (s :: ss)
      | None => None
      end
  | _ :: _ => None
  end.

Definition str_list (v : pyval) : option (list string) :=
  match v with
  | PList l => strings_of l
  | _ => None
  end.

(** What the data model asks of a sports list. *)
Definition valid_sports (l : list string) : Prop :=
  3 <= length l <= 5
  /\ NoDup (map PyStr.normalize l)
  /\ Forall (fun s => PyStr.normalize s <> EmptyString) l.

(** All dictionaries inside a value have distinct keys, as those of Python
    have. *)
Fixpoint wf_val (v : pyval) : Prop :=
  match v with
  | PList l =>
      (fix all (l : list pyval) : Prop :=
         match l with
         | [] => True
         | x :: l' => wf_val x /\ all l'
         end) l
  | PDict d =>
      NoDup (map fst d)
      /\ (fix all (d : list (string * pyval)) : Prop :=
            match d with
            | [] => True
            | (_, x) :: d' => wf_val x /\ all d'
            end) d
  | _ => True
  end.

(* ================================================================== *)
(** ** The script generator *)
(* ================================================================== *)

Module SkillHelpers.

Definition q : string := String Json.quote EmptyString.

Definition provider_call (provider : string) : string :=
  "builder.with_llm_provider(" +:+ q +:+ provider +:+ q +:+ ")".

Definition model_call (model : string) : string :=
  "builder.with_llm_model(" +:+ q +:+ model +:+ q +:+ ")".

(** The list as [repr] writes it when no item has a quote or a character to
    escape: items between single quotes. *)
Definition sports_literal (sports : list string) : string :=
  "[" +:+ PyStr.join ", " (map (fun s => "'" +:+ s +:+ "'") sports) +:+ "]".

(** Modelled from the spec: [create_generator_script] of [skill_helpers.py],
    which is not among the sources; only its tests are.  The script is the
    list of its lines: a fixed head, the sports as a literal list, the three
    LLM calls only when the mode is ["llm"] (provider and model interpolated
    as they are), the retry call only when retry is off, and a save under a
    time stamp computed when the script runs.  The documentation time stamp
    goes into a comment. *)
Definition generator_lines (sports : list string) (mode provider model : string)
    (retry : bool) (timestamp : string) : list string :=
  ["#!/usr/bin/env python3";
   "# Generated: " +:+ timestamp;
   "from datetime import datetime";
   "from config_builder import ConfigBuilder";
   "builder = ConfigBuilder.load_default()";
   "builder.with_sports(" +:+ sports_literal sports +:+ ")"]
  ++ (if String.eqb mode "llm" then
        ["builder.with_generation_mode(" +:+ q +:+ "llm" +:+ q +:+ ")";
         provider_call provider;
         model_call model]
      else [])
  ++ (if retry then [] else ["builder.with_retry(False)"])
  ++ ["timestamp = datetime.now().strftime(" +:+ q +:+ "%Y%m%d_%H%M%S"
        +:+ q +:+ ")";
      "new_config_path = f" +:+ q +:+ "output/configs/config_{timestamp}.json"
        +:+ q;
      "builder.save(new_config_path)"].

(** Modelled from the spec: the text of the script, its lines joined. *)
Definition create_generator_script (sports : list string)
    (mode provider model : string) (retry : bool) (timestamp : string)
  : string :=
  PyStr.join (String Json.newline EmptyString)
             (generator_lines sports mode provider model retry timestamp).

(** A call of the provider setter, of the model setter, in the script: a line
    that begins with the call on [builder]. *)
Definition is_provider_call (line : string) : bool :=
  String.prefix "builder.with_llm_provider(" line.

Definition is_model_call (line : string) : bool :=
  String.prefix "builder.with_llm_model(" line.

End SkillHelpers.

(* ================================================================== *)
(** ** The methods as functions of the document *)
(* ================================================================== *)

(** A second reading of each method, as a function of the dictionary the
    builder holds.  The lemmas [run_validate] and [run_call] prove that the
    methods above compute exactly these functions; the statements about
    sequences of calls are then proved on them. *)

(** The checks of [validate] on the [llm] block. *)
Definition check_llm (d : Dict.t) : outcome unit :=
  if negb (Dict.mem "llm" d) then
    Raises (ConfigValidationError "LLM configuration required for LLM mode")
  else
    match py_getitem (PDict d) "llm" with
    | Raises e => Raises e
    | Returns llm =>
        match py_get llm "provider" with
        | Raises e => Raises e
        | Returns provider =>
            if negb (py_truthy provider) then
              Raises (ConfigValidationError
                        "LLM provider is required for LLM mode")
            else
              match py_get llm "model" with
              | Raises e => Raises e
              | Returns model =>
                  if negb (py_truthy model) then
                    Raises (ConfigValidationError
                              "LLM model is required for LLM mode")
                  else Returns tt
              end
        end
    end.

(** [validate] *)
Definition check_document (d : Dict.t) : outcome pyval :=
  match py_getitem (PDict d) "sports" with
  | Raises e => Raises e
  | Returns sports =>
      if negb (py_truthy sports) then
        Raises (ConfigValidationError "Sports list is required")
      else
        match py_getitem (PDict d) "generation_mode" with
        | Raises e => Raises e
        | Returns mode =>
            if py_eqb mode (PStr "llm") then
              match check_llm d with
              | Raises e => Raises e
              | Returns _ => Returns (PDict d)
              end
            else Returns (PDict d)
        end
  end.

(** The [llm] block is put in if it is missing. *)
Definition ensure_llm (d : Dict.t) : Dict.t :=
  if Dict.mem "llm" d then d
  else Dict.set "llm" ConfigBuilder.DEFAULT_LLM_CONFIG d.

(** [with_llm_provider] and [with_llm_model] after the check of the
    argument: the field [f] of the block and the mode are written. *)
Definition set_llm_field (f : string) (v : pyval) (d : Dict.t)
  : outcome Dict.t :=
  match Dict.lookup "llm" (ensure_llm d) with
  | Some (PDict e) =>
      Returns (Dict.set "generation_mode" (PStr "llm")
                 (Dict.set "llm" (PDict (Dict.set f v e)) (ensure_llm d)))
  | _ => Raises TypeError
  end.

(** The checks of [with_sports] and the list it stores. *)
Definition check_sports (sports : pyval) : outcome (list string) :=
  match sports with
  | PList l =>
      if length l <? 3 then
        Raises (ConfigValidationError (ConfigBuilder.too_few_msg (length l)))
      else if 5 <? length l then
        Raises (ConfigValidationError (ConfigBuilder.too_many_msg (length l)))
      else
        match comprehension py_strip_lower l with
        | Raises e => Raises e
        | Returns ns =>
            if negb (length ns =? size (list_to_set ns : gset string)) then
              Raises (ConfigValidationError "Sports list contains duplicates")
            else if existsb (fun sport => negb (py_truthy (PStr sport))) ns
            then
              Raises (ConfigValidationError "Sports list contains empty values")
            else Returns ns
        end
  | _ => Raises (ConfigValidationError "Sports must be a list")
  end.

Definition apply_setter (op : setter) (d : Dict.t) : outcome Dict.t :=
  match op with
  | WithSports sports =>
      match check_sports sports with
      | Raises e => Raises e
      | Returns ns => Returns (Dict.set "sports" (PList (map PStr ns)) d)
      end
  | WithRetry enabled => Returns (Dict.set "retry_enabled" (PBool enabled) d)
  | WithGenerationMode mode =>
      if String.eqb mode "template" then
        Returns (Dict.set "generation_mode" (PStr mode) d)
      else if String.eqb mode "llm" then
        Returns (ensure_llm (Dict.set "generation_mode" (PStr mode) d))
      else
        Raises (ConfigValidationError
                  ("Invalid generation mode: " +:+ mode +:+ ". "
                   +:+ "Must be one of: "
                   +:+ PyStr.join ", " ConfigBuilder.VALID_GENERATION_MODES))
  | WithLlmProvider provider =>
      if String.eqb provider "together" || String.eqb provider "huggingface"
      then set_llm_field "provider" (PStr provider) d
      else
        Raises (ConfigValidationError
                  ("Invalid LLM provider: " +:+ provider +:+ ". "
                   +:+ "Must be one of: "
                   +:+ PyStr.join ", " ConfigBuilder.VALID_LLM_PROVIDERS))
  | WithLlmModel model => set_llm_field "model" (PStr model) d
  end.

(* ================================================================== *)
(** ** Vocabulary of the statements *)
(* ================================================================== *)

(** The inputs the specification says [with_sports] rejects with a validation
    error: whatever is not a list of strings, and the lists of strings of a
    wrong length, with two equal items or with an empty one (after [strip]
    and [lower]). *)
Definition spec_rejects (sports : pyval) : Prop :=
  match str_list sports with
  | None => True
  | Some ss =>
      length ss < 3 \/ 5 < length ss
      \/ ~ NoDup (map PyStr.normalize ss)
      \/ Exists (fun s => PyStr.normalize s = EmptyString) ss
  end.

(** The inputs [with_sports] does reject with a validation error. *)
Definition code_rejects (sports : pyval) : Prop :=
  match sports with
  | PList l =>
      length l < 3 \/ 5 < length l
      \/ exists ss, strings_of l = Some ss
           /\ (~ NoDup (map PyStr.normalize ss)
               \/ Exists (fun s => PyStr.normalize s = EmptyString) ss)
  | _ => True
  end.

(** The shape the data model gives a document: a list of sports, a mode, and
    an [llm] block that is a mapping when there is one. *)
Definition doc_shape (d : Dict.t) : Prop :=
  (exists l, Dict.lookup "sports" d = Some (PList l))
  /\ is_Some (Dict.lookup "generation_mode" d)
  /\ (forall v, Dict.lookup "llm" d = Some v -> exists e, v = PDict e).

Definition mode_is_llm (d : Dict.t) : Prop :=
  Dict.lookup "generation_mode" d = Some (PStr "llm").

(** The field [f] of the [llm] block is missing or false as a condition. *)
Definition llm_field_falsy (d : Dict.t) (f : string) : Prop :=
  exists e, Dict.lookup "llm" d = Some (PDict e)
            /\ py_truthy (dict_get e f) = false.

(** The four reasons for [validate] to refuse a document. *)
Definition must_fail (d : Dict.t) : Prop :=
  Dict.lookup "sports" d = Some (PList [])
  \/ (mode_is_llm d /\ Dict.lookup "llm" d = None)
  \/ (mode_is_llm d /\ llm_field_falsy d "provider")
  \/ (mode_is_llm d /\ llm_field_falsy d "model").

(** The top-level field a setter is there to write, and the field of the
    [llm] block it writes, if any. *)
Definition written_key (op : setter) : string :=
  match op with
  | WithSports _ => "sports"
  | WithRetry _ => "retry_enabled"
  | _ => "generation_mode"
  end.

Definition llm_field (op : setter) : option string :=
  match op with
  | WithLlmProvider _ => Some "provider"
  | WithLlmModel _ => Some "model"
  | _ => None
  end.

(** What a setter may do to the [llm] block: a block that is there keeps
    every field but the setter's own; a block that is not there stays away or
    is the default one, the setter's own field apart. *)
Definition llm_frame (op : setter) (d d' : Dict.t) : Prop :=
  (forall block, Dict.lookup "llm" d = Some block ->
     exists block',
       Dict.lookup "llm" d' = Some block'
       /\ forall f, llm_field op <> Some f -> py_get block' f = py_get block f)
  /\ (Dict.lookup "llm" d = None ->
      Dict.lookup "llm" d' = None
      \/ exists block',
           Dict.lookup "llm" d' = Some block'
           /\ forall f, llm_field op <> Some f ->
                py_get block' f = py_get ConfigBuilder.DEFAULT_LLM_CONFIG f).

(** The value of [key] differs between the two documents. *)
Definition differs (base cand : Dict.t) (key : string) : bool :=
  negb (py_eqb (dict_get base key) (dict_item cand key)).

(** The entry of [key] in the mapping of changes. *)
Definition change_of (base cand : Dict.t) (key : string) : string * pyval :=
  (key, change_entry (dict_get base key) (dict_item cand key)).

(** The text after a number does not go on as a number. *)
Definition ends_number (k : string) : bool :=
  match k with
  | EmptyString => true
  | String c _ => negb (Json.is_digit c) && negb (Json.float_follows k)
  end.

(** The first character of an encoded value is not white space and closes no
    container. *)
Definition starts_value (s : string) : bool :=
  match s with
  | EmptyString => false
  | String c _ =>
      negb (Json.is_ws c) && negb (Ascii.eqb c "]") && negb (Ascii.eqb c "}")
  end.

(** The number of nodes of a value, a bound on the fuel its text needs. *)
Fixpoint val_size (v : pyval) : nat :=
  match v with
  | PList l =>
      S ((fix sum (l : list pyval) : nat :=
            match l with
            | [] => 0
            | x :: l' => val_size x + sum l'
            end) l)
  | PDict d =>
      S ((fix sum (d : list (string * pyval)) : nat :=
            match d with
            | [] => 0
            | (_, x) :: d' => val_size x + sum d'
            end) d)
  | _ => 1
  end.

(* ================================================================== *)
(** ** Sample worlds and documents *)
(* ================================================================== *)

(** No builder and no file. *)
Definition w_empty : world := World ∅ ∅.

(** What a program returns or raises when run where nothing exists yet. *)
Definition result_of {A} (m : M A) : outcome A := fst (m w_empty).

(** The three sports of most tests. *)
Definition three_sports : pyval :=
  PList [PStr "basketball"; PStr "soccer"; PStr "tennis"].

(** One builder, as [ConfigBuilder()] makes it. *)
Definition w_new : world := World {[ 0 := ConfigBuilder.init_config ]} ∅.

Definition sample_sports : list string := [" Basketball"; "SOCCER "; "tennis"].

(** A builder in ["llm"] mode whose block has lost its model. *)
Definition llm_no_model : Dict.t :=
  [("sports", PList [PStr "golf"; PStr "chess"; PStr "polo"]);
   ("generation_mode", PStr "llm");
   ("llm", PDict [("provider", PStr "together"); ("model", PNone)])].

Definition w_llm_no_model : world := World {[ 0 := PDict llm_no_model ]} ∅.

(** The document of a new builder after [with_llm_provider("huggingface")]. *)
Definition doc_provider : pyval :=
  PDict [("sports", PList []);
         ("retry_enabled", PBool true);
         ("generation_mode", PStr "llm");
         ("llm", PDict [("provider", PStr "huggingface");
                        ("model",
                         PStr "meta-llama/Llama-3.3-70B-Instruct-Turbo-Free")])].

Definition w_provider : world := World {[ 0 := doc_provider ]} ∅.

(** The document of a new builder after [with_sports] on three sports. *)
Definition doc_ready : pyval :=
  PDict [("sports", PList [PStr "golf"; PStr "chess"; PStr "polo"]);
         ("retry_enabled", PBool true);
         ("generation_mode", PStr "template")].

Definition w_ready : world := World {[ 0 := doc_ready ]} ∅.

(** Three integers where sports are expected. *)
Definition three_integers : pyval := PList [PInt 1; PInt 2; PInt 3].

(** A document with one sport only. *)
Definition one_sport_doc : pyval :=
  PDict [("sports", PList [PStr "golf"]);
         ("retry_enabled", PBool true);
         ("generation_mode", PStr "template")].

(** A default document and a candidate that changes the mode and adds a
    field. *)
Definition base_doc : Dict.t :=
  [("sports", PList [PStr "golf"; PStr "chess"; PStr "polo"]);
   ("generation_mode", PStr "template");
   ("session_id", PStr "s1")].

Definition cand_doc : Dict.t :=
  [("generation_mode", PStr "llm");
   ("sports", PList [PStr "golf"; PStr "chess"; PStr "polo"]);
   ("retry_enabled", PBool true)].

(* ================================================================== *)
(** ** Vocabulary of the further statements *)
(* ================================================================== *)

(** What a setter of the [llm] block does to a dictionary [d]: with no block
    the default one is put in first, a block that is a dictionary gets the
    field, any other block makes the call fail before anything is written. *)
Definition llm_setter_effect (f : string) (v : pyval) (self : loc)
    (d : Dict.t) (w : world) (result : outcome loc * world) : Prop :=
  match Dict.lookup "llm" d with
  | None =>
      exists e d',
        ConfigBuilder.DEFAULT_LLM_CONFIG = PDict e
        /\ result = (Returns self, with_config self (PDict d') w)
        /\ Dict.lookup "llm" d' = Some (PDict (Dict.set f v e))
        /\ Dict.lookup "generation_mode" d' = Some (PStr "llm")
  | Some (PDict e) =>
      exists d',
        result = (Returns self, with_config self (PDict d') w)
        /\ Dict.lookup "llm" d' = Some (PDict (Dict.set f v e))
        /\ Dict.lookup "generation_mode" d' = Some (PStr "llm")
  | Some _ => result = (Raises TypeError, w)
  end.

(** What every document made by [ConfigBuilder()] and setter calls looks
    like. *)
Definition built_shape (d : Dict.t) : Prop :=
  (exists ss,
     Dict.lookup "sports" d = Some (PList (map PStr ss))
     /\ (ss = [] \/ valid_sports ss))
  /\ (Dict.lookup "generation_mode" d = Some (PStr "template")
      \/ (Dict.lookup "generation_mode" d = Some (PStr "llm")
          /\ is_Some (Dict.lookup "llm" d)))
  /\ (forall v, Dict.lookup "llm" d = Some v ->
        exists p m,
          v = PDict [("provider", PStr p); ("model", PStr m)]
          /\ p ∈ ConfigBuilder.VALID_LLM_PROVIDERS).

(** [obtained w0 self w]: in [w], [self] is a builder made in [w0] by
    [ConfigBuilder()] or by [load], and then taken through successful setter
    calls. *)
Inductive obtained (w0 : world) : loc -> world -> Prop :=
| obtained_new self w :
    ConfigBuilder.new w0 = (Returns self, w) -> obtained w0 self w
| obtained_load path self w :
    ConfigBuilder.load path w0 = (Returns self, w) -> obtained w0 self w
| obtained_call self w op r w' :
    obtained w0 self w ->
    call self op w = (Returns r, w') ->
    obtained w0 self w'.

(** *** The text [save] writes *)

(** A printable ASCII character or a line feed. *)
Definition is_plain (c : ascii) : bool :=
  let n := nat_of_ascii c in
  (n =? 10) || ((32 <=? n) && (n <=? 126)).

Fixpoint plain_text (s : string) : bool :=
  match s with
  | EmptyString => true
  | String c s' => is_plain c && plain_text s'
  end.

(* ================================================================== *)
(** ** The console: [create_config_interactive] and the command line *)
(* ================================================================== *)

(** [s.split(sep)] for a separator of one character. *)
Fixpoint str_split (sep : ascii) (s : string) : list string :=
  match s with
  | EmptyString => [EmptyString]
  | String c s' =>
      if Ascii.eqb c sep then EmptyString :: str_split sep s'
      else
        match str_split sep s' with
        | field :: fields => String c field :: fields
        | [] => [String c EmptyString]
        end
  end.

(** [s * n] *)
Fixpoint str_times (s : string) (n : nat) : string :=
  match n with
  | 0 => EmptyString
  | S n' => s +:+ str_times s n'
  end.

(** Standard input is the lines still to be read, without their line ends;
    standard output is the text written so far (the two marks of the command
    line, outside ASCII, are the bytes of their UTF-8 form). *)
Record console : Type := Console {
  stdin : list string;
  stdout : string
}.

(** How a program that talks ends: with a value, with an exception of the
    module that nothing has caught, with the [EOFError] of [input], or with
    [sys.exit]. *)
Inductive ending (A : Type) : Type :=
| Done (a : A)
| Failed (e : exn)
| EOFError
| SystemExit (code : Z).
Arguments Done {A} a.
Arguments Failed {A} e.
Arguments EOFError {A}.
Arguments SystemExit {A} code.

(** A program that talks: from the console and the world to how it ends and
    what it leaves. *)
Definition IO (A : Type) : Type :=
  console -> world -> ending A * console * world.

Definition io_ret {A} (a : A) : IO A := fun c w => (Done a, c, w).

Definition io_bind {A B} (m : IO A) (f : A -> IO B) : IO B :=
  fun c w =>
    match m c w with
    | (Done a, c', w') => f a c' w'
    | (Failed e, c', w') => (Failed e, c', w')
    | (EOFError, c', w') => (EOFError, c', w')
    | (SystemExit code, c', w') => (SystemExit code, c', w')
    end.

Declare Scope io_scope.
Delimit Scope io_scope with io.
Notation "x <- m ;; k" := (io_bind m (fun x => k))
  (at level 100, m at next level, k at level 200, right associativity)
  : io_scope.

(** A method of the builder, run from a program that talks. *)
Definition run {A} (m : M A) : IO A :=
  fun c w =>
    match m w with
    | (Returns a, w') => (Done a, c, w')
    | (Raises e, w') => (Failed e, c, w')
    end.

(** [print(s)] *)
Definition print (s : string) : IO unit :=
  fun c w =>
    (Done tt,
     Console (stdin c) (stdout c +:+ s +:+ String Json.newline EmptyString),
     w).

(** [input(prompt)]: the prompt is written, then a line is read. *)
Definition input (prompt : string) : IO string :=
  fun c w =>
    match stdin c with
    | line :: rest => (Done line, Console rest (stdout c +:+ prompt), w)
    | [] => (EOFError, Console [] (stdout c +:+ prompt), w)
    end.

(** [sys.exit(code)] *)
Definition sys_exit {A} (code : Z) : IO A := fun c w => (SystemExit code, c, w).

(** [try: body / except ConfigValidationError as e: handler] *)
Definition try_except {A} (body : IO A) (handler : string -> IO A) : IO A :=
  fun c w =>
    match body c w with
    | (Failed (ConfigValidationError msg), c', w') => handler msg c' w'
    | r => r
    end.

(** The line feed, as a string. *)
Definition nl : string := String Json.newline EmptyString.

Local Open Scope io_scope.

Definition create_config_interactive : IO loc :=
  _ <- print "Sports Poetry Configuration Builder" ;;
  _ <- print (str_times "=" 40) ;;
  _ <- print (nl +:+ "Enter 3-5 sports (comma-separated):") ;;
  line <- input "> " ;;
  let sports_input := PyStr.strip line in
  let sports := map PyStr.strip (str_split "," sports_input) in
  _ <- print (nl +:+ "Generation mode:") ;;
  _ <- print "  1. template (fast, deterministic)" ;;
  _ <- print "  2. llm (creative, requires API key)" ;;
  line <- input "> " ;;
  let mode_choice := PyStr.strip line in
  let mode := if String.eqb mode_choice "2" then "llm" else "template" in
  builder <- run (ConfigBuilder.load_default "config.default.json") ;;
  _ <- run (ConfigBuilder.with_sports builder (PList (map PStr sports))) ;;
  _ <- (if negb (String.eqb mode "template") then
          _ <- run (ConfigBuilder.with_generation_mode builder mode) ;;
          io_ret tt
        else io_ret tt) ;;
  _ <- (if String.eqb mode "llm" then
          _ <- print (nl +:+ "LLM Provider:") ;;
          _ <- print "  1. together (recommended)" ;;
          _ <- print "  2. huggingface" ;;
          line <- input "> " ;;
          let provider_choice := PyStr.strip line in
          let provider :=
            if String.eqb provider_choice "2" then "huggingface"
            else "together" in
          _ <- run (ConfigBuilder.with_llm_provider builder provider) ;;
          io_ret tt
        else io_ret tt) ;;
  io_ret builder.

(** The block under [if __name__ == "__main__"], on [sys.argv]. *)
Definition main (argv : list string) : IO unit :=
  if (1 <? length argv) && String.eqb (nth 1 argv "") "interactive" then
    try_except
      (builder <- create_config_interactive ;;
       path <- run (ConfigBuilder.save builder "config.json") ;;
       print (nl +:+ "✓ Config saved to: " +:+ path))
      (fun e =>
         _ <- print (nl +:+ "✗ Error: " +:+ e) ;;
         sys_exit 1)
  else
    _ <- print "Usage:" ;;
    _ <- print "  python3 config_builder.py interactive" ;;
    _ <- print (nl +:+ "Or use programmatically:") ;;
    _ <- print "  from config_builder import ConfigBuilder" ;;
    _ <- print "  builder = ConfigBuilder()" ;;
    _ <- print "  builder.with_sports(['basketball', 'soccer', 'tennis'])" ;;
    _ <- print "  builder.with_generation_mode('llm')" ;;
    print "  builder.save('config.json')".

Local Close Scope io_scope.

(** The sports typed on a line, as [create_config_interactive] reads them. *)
Definition typed_sports (line : string) : pyval :=
  PList (map PStr (map PyStr.strip (str_split "," (PyStr.strip line)))).


(** The provider an answer stands for. *)
Definition chosen_provider (line : string) : string :=
  if String.eqb (PyStr.strip line) "2" then "huggingface" else "together".

(* ================================================================== *)
(** ** Objects by reference *)
(* ================================================================== *)

(** A second embedding of the class, for the properties that depend on which
    dictionary is which: lists and dictionaries live in a heap and a value
    holds their address, so that two names may stand for one object. *)
Module Shared.

Definition addr := nat.

Inductive value : Type :=
| VNone
| VBool (b : bool)
| VInt (z : Z)
| VStr (s : string)
| VRef (a : addr).

Inductive object : Type :=
| OList (items : list value)
| ODict (items : list (string * value)).

(** [heap] holds every list and dictionary, [configs] the [config] attribute
    of every builder. *)
Record store : Type := Store {
  heap : gmap addr object;
  configs : gmap loc value
}.

(** The five setters with their arguments. *)
Inductive setter_call : Type :=
| SetSports (sports : value)
| SetRetry (enabled : bool)
| SetGenerationMode (mode : string)
| SetLlmProvider (provider : string)
| SetLlmModel (model : string).

(** The monad of the methods, over the store. *)
Definition H (A : Type) : Type := store -> outcome A * store.

Definition ret {A} (a : A) : H A := fun s => (Returns a, s).

Definition raise {A} (e : exn) : H A := fun s => (Raises e, s).

Definition bind {A B} (m : H A) (f : A -> H B) : H B :=
  fun s =>
    match m s with
    | (Returns a, s') => f a s'
    | (Raises e, s') => (Raises e, s')
    end.

Declare Scope heap_scope.
Delimit Scope heap_scope with heap.
Notation "x <- m ;; k" := (bind m (fun x => k))
  (at level 100, m at next level, k at level 200, right associativity)
  : heap_scope.
Local Open Scope heap_scope.

(** The items of a dictionary object, in insertion order. *)
Fixpoint lookup (k : string) (d : list (string * value)) : option value :=
  match d with
  | [] => None
  | (k', v) :: d' => if String.eqb k k' then Some v else lookup k d'
  end.

Fixpoint set (k : string) (v : value) (d : list (string * value))
  : list (string * value) :=
  match d with
  | [] => [(k, v)]
  | (k', v') :: d' =>
      if String.eqb k k' then (k, v) :: d' else (k', v') :: set k v d'
  end.

(** A new object. *)
Definition alloc (o : object) : H value :=
  fun s =>
    let a := fresh (dom (heap s)) in
    (Returns (VRef a), Store (<[a := o]> (heap s)) (configs s)).

(** The object a value refers to, if it is a list or a dictionary. *)
Definition object_of (v : value) : H (option (addr * object)) :=
  fun s =>
    match v with
    | VRef a =>
        match heap s !! a with
        | Some o => (Returns (Some (a, o)), s)
        | None => (Raises InvalidReference, s)
        end
    | _ => (Returns None, s)
    end.

(** The object at [a] becomes [o]. *)
Definition put (a : addr) (o : object) : H unit :=
  fun s => (Returns tt, Store (<[a := o]> (heap s)) (configs s)).

(** [c[k]] for a string [k] *)
Definition getitem (c : value) (k : string) : H value :=
  o <- object_of c ;;
  match o with
  | Some (_, ODict d) =>
      match lookup k d with
      | Some v => ret v
      | None => raise (KeyError k)
      end
  | _ => raise TypeError
  end.

(** [c[k] = v] for a string [k]: the object [c] refers to is changed. *)
Definition setitem (c : value) (k : string) (v : value) : H unit :=
  o <- object_of c ;;
  match o with
  | Some (a, ODict d) => put a (ODict (set k v d))
  | _ => raise TypeError
  end.

(** [k in c] for a string [k] *)
Definition contains (k : string) (c : value) : H bool :=
  o <- object_of c ;;
  match o with
  | Some (_, ODict d) =>
      ret (match lookup k d with Some _ => true | None => false end)
  | Some (_, OList l) =>
      ret (existsb (fun v => match v with
                             | VStr s => String.eqb s k
                             | _ => false
                             end) l)
  | None =>
      match c with
      | VStr s => ret (PyStr.contains k s)
      | _ => raise TypeError
      end
  end.

(** [c.get(k)] *)
Definition get (c : value) (k : string) : H value :=
  o <- object_of c ;;
  match o with
  | Some (_, ODict d) => ret (default VNone (lookup k d))
  | _ => raise AttributeError
  end.

(** [c.copy()]: a new object with the same items. *)
Definition copy (c : value) : H value :=
  o <- object_of c ;;
  match o with
  | Some (_, o) => alloc o
  | None => raise AttributeError
  end.

(** [bool(v)] *)
Definition truthy (v : value) : H bool :=
  o <- object_of v ;;
  match o with
  | Some (_, OList l) => ret (match l with [] => false | _ => true end)
  | Some (_, ODict d) => ret (match d with [] => false | _ => true end)
  | None =>
      ret (match v with
           | VBool b => b
           | VInt z => negb (z =? 0)%Z
           | VStr s => negb (String.eqb s "")
           | _ => false
           end)
  end.

(** [v == s] for a string [s] *)
Definition eq_str (v : value) (s : string) : bool :=
  match v with
  | VStr t => String.eqb t s
  | _ => false
  end.

(** [self.config] *)
Definition get_config (self : loc) : H value :=
  fun s =>
    match configs s !! self with
    | Some c => (Returns c, s)
    | None => (Raises InvalidReference, s)
    end.

(** [self.config = c] *)
Definition set_config (self : loc) (c : value) : H unit :=
  fun s => (Returns tt, Store (heap s) (<[self := c]> (configs s))).

(** The address of a new builder, which has no [config] yet. *)
Definition new_builder : H loc :=
  fun s => (Returns (fresh (dom (configs s))), s).

(** The class attribute [DEFAULT_LLM_CONFIG] is one dictionary, made when
    the class is: its address. *)
Definition DEFAULT_LLM_CONFIG : addr := 0.

Definition default_llm_items : list (string * value) :=
  [("provider", VStr "together");
   ("model", VStr "meta-llama/Llama-3.3-70B-Instruct-Turbo-Free")].

(** The store once the module is imported. *)
Definition store0 : store :=
  Store {[ DEFAULT_LLM_CONFIG := ODict default_llm_items ]} ∅.

(** [sport.strip().lower()] *)
Definition strip_lower (v : value) : outcome string :=
  match v with
  | VStr s => Returns (PyStr.normalize s)
  | _ => Raises AttributeError
  end.

(** A built-in that returns or raises without touching the store. *)
Definition lift {A} (o : outcome A) : H A := fun s => (o, s).

(** [self.config[k]] *)
Definition config_getitem (self : loc) (k : string) : H value :=
  c <- get_config self ;; getitem c k.

(** [k in self.config] *)
Definition config_contains (self : loc) (k : string) : H bool :=
  c <- get_config self ;; contains k c.

(** [self.config[k] = v] *)
Definition config_setitem (self : loc) (k : string) (v : value) : H unit :=
  c <- get_config self ;; setitem c k v.

(** [self.config[k1][k2] = v] *)
Definition config_setitem2 (self : loc) (k1 k2 : string) (v : value)
  : H unit :=
  c <- get_config self ;;
  inner <- getitem c k1 ;;
  setitem inner k2 v.

(** [ConfigBuilder()] *)
Definition new : H loc :=
  self <- new_builder ;;
  sports <- alloc (OList []) ;;
  config <- alloc (ODict [("sports", sports);
                          ("retry_enabled", VBool true);
                          ("generation_mode", VStr "template")]) ;;
  _ <- set_config self config ;;
  ret self.

Definition with_sports (self : loc) (sports : value) : H loc :=
  o <- object_of sports ;;
  match o with
  | Some (_, OList l) =>
      if length l <? ConfigBuilder.MIN_SPORTS then
        raise (ConfigValidationError (ConfigBuilder.too_few_msg (length l)))
      else if ConfigBuilder.MAX_SPORTS <? length l then
        raise (ConfigValidationError (ConfigBuilder.too_many_msg (length l)))
      else
        names <- lift (comprehension strip_lower l) ;;
        normalized_sports <- alloc (OList (map VStr names)) ;;
        if negb (length names =? size (list_to_set names : gset string)) then
          raise (ConfigValidationError "Sports list contains duplicates")
        else if existsb (fun sport => String.eqb sport "") names then
          raise (ConfigValidationError "Sports list contains empty values")
        else
          _ <- config_setitem self "sports" normalized_sports ;;
          ret self
  | _ => raise (ConfigValidationError "Sports must be a list")
  end.

Definition with_retry (self : loc) (enabled : bool) : H loc :=
  _ <- config_setitem self "retry_enabled" (VBool enabled) ;;
  ret self.

Definition with_generation_mode (self : loc) (mode : string) : H loc :=
  if negb (existsb (String.eqb mode) ConfigBuilder.VALID_GENERATION_MODES) then
    raise (ConfigValidationError
             ("Invalid generation mode: " +:+ mode +:+ ". "
              +:+ "Must be one of: "
              +:+ PyStr.join ", " ConfigBuilder.VALID_GENERATION_MODES))
  else
    _ <- config_setitem self "generation_mode" (VStr mode) ;;
    _ <- (if String.eqb mode "llm" then
            has_llm <- config_contains self "llm" ;;
            if negb has_llm then
              block <- copy (VRef DEFAULT_LLM_CONFIG) ;;
              config_setitem self "llm" block
            else ret tt
          else ret tt) ;;
    ret self.

Definition with_llm_provider (self : loc) (provider : string) : H loc :=
  if negb (existsb (String.eqb provider) ConfigBuilder.VALID_LLM_PROVIDERS) then
    raise (ConfigValidationError
             ("Invalid LLM provider: " +:+ provider +:+ ". "
              +:+ "Must be one of: "
              +:+ PyStr.join ", " ConfigBuilder.VALID_LLM_PROVIDERS))
  else
    has_llm <- config_contains self "llm" ;;
    _ <- (if negb has_llm then
            block <- copy (VRef DEFAULT_LLM_CONFIG) ;;
            config_setitem self "llm" block
          else ret tt) ;;
    _ <- config_setitem2 self "llm" "provider" (VStr provider) ;;
    _ <- config_setitem self "generation_mode" (VStr "llm") ;;
    ret self.

Definition with_llm_model (self : loc) (model : string) : H loc :=
  has_llm <- config_contains self "llm" ;;
  _ <- (if negb has_llm then
          block <- copy (VRef DEFAULT_LLM_CONFIG) ;;
          config_setitem self "llm" block
        else ret tt) ;;
  _ <- config_setitem2 self "llm" "model" (VStr model) ;;
  _ <- config_setitem self "generation_mode" (VStr "llm") ;;
  ret self.

(** The value returned is the [config] attribute: the dictionary object
    itself, not a copy. *)
Definition validate (self : loc) : H value :=
  sports <- config_getitem self "sports" ;;
  filled <- truthy sports ;;
  if negb filled then
    raise (ConfigValidationError "Sports list is required")
  else
    mode <- config_getitem self "generation_mode" ;;
    _ <- (if eq_str mode "llm" then
            has_llm <- config_contains self "llm" ;;
            if negb has_llm then
              raise (ConfigValidationError
                       "LLM configuration required for LLM mode")
            else
              block <- config_getitem self "llm" ;;
              provider <- get block "provider" ;;
              has_provider <- truthy provider ;;
              if negb has_provider then
                raise (ConfigValidationError
                         "LLM provider is required for LLM mode")
              else
                block <- config_getitem self "llm" ;;
                model <- get block "model" ;;
                has_model <- truthy model ;;
                if negb has_model then
                  raise (ConfigValidationError
                           "LLM model is required for LLM mode")
                else ret tt
          else ret tt) ;;
    get_config self.

(** [builder.config = data.copy()]: the top level is copied, what it holds
    is not. *)
Definition from_dict (data : value) : H loc :=
  builder <- new ;;
  config <- copy data ;;
  _ <- set_config builder config ;;
  ret builder.

(** The heap after [heap[a] = o]. *)
Definition update (a : addr) (o : object) (s : store) : store :=
  Store (<[a := o]> (heap s)) (configs s).

(** A setter call, as data. *)
Definition call (self : loc) (op : setter_call) : H loc :=
  match op with
  | SetSports sports => with_sports self sports
  | SetRetry enabled => with_retry self enabled
  | SetGenerationMode mode => with_generation_mode self mode
  | SetLlmProvider provider => with_llm_provider self provider
  | SetLlmModel model => with_llm_model self model
  end.

(** [reached s0 self s]: in [s], [self] is a builder made by
    [ConfigBuilder()] in [s0] and then taken through successful setter
    calls. *)
Inductive reached (s0 : store) : loc -> store -> Prop :=
| reached_by_new self s :
    new s0 = (Returns self, s) -> reached s0 self s
| reached_by_call self s op r s' :
    reached s0 self s ->
    call self op s = (Returns r, s') ->
    reached s0 self s'.

End Shared.

(** *** What a call changes in the store *)

(** [s'] has every object of [s], as it was. *)
Definition extends (s s' : Shared.store) : Prop :=
  forall x o, Shared.heap s !! x = Some o -> Shared.heap s' !! x = Some o.

(** The items of a new builder's document, its list of sports at
    [sports]. *)
Definition init_items (sports : Shared.addr) : list (string * Shared.value) :=
  [("sports", Shared.VRef sports);
   ("retry_enabled", Shared.VBool true);
   ("generation_mode", Shared.VStr "template")].

(** The [llm] entry of the document [d] of a builder, when there is one, is
    the address of a dictionary that is not the document itself. *)
Definition block_ok (s : Shared.store) (c : Shared.addr)
    (d : list (string * Shared.value)) : Prop :=
  forall v, Shared.lookup "llm" d = Some v ->
    exists l e,
      v = Shared.VRef l /\ l <> c
      /\ Shared.heap s !! l = Some (Shared.ODict e).

(** From [s] to [s'] only the document at [c] and the block it holds have
    changed, and objects have been made. *)
Definition touches_own (c : Shared.addr) (d : list (string * Shared.value))
    (s s' : Shared.store) : Prop :=
  forall x o,
    Shared.heap s !! x = Some o ->
    x <> c ->
    Shared.lookup "llm" d <> Some (Shared.VRef x) ->
    Shared.heap s' !! x = Some o.

(** The document after a call: a dictionary still, whose block is the one it
    had or a new object. *)
Definition step_ok (c : Shared.addr) (d : list (string * Shared.value))
    (s s' : Shared.store) : Prop :=
  Shared.configs s' = Shared.configs s
  /\ touches_own c d s s'
  /\ exists d',
       Shared.heap s' !! c = Some (Shared.ODict d')
       /\ forall v, Shared.lookup "llm" d' = Some v ->
            exists l e,
              v = Shared.VRef l /\ l <> c
              /\ Shared.heap s' !! l = Some (Shared.ODict e)
              /\ (Shared.lookup "llm" d = Some v \/ Shared.heap s !! l = None).

(** A computation that leaves the store as it found it. *)
Definition reads_only {A} (m : Shared.H A) : Prop := forall s, snd (m s) = s.

(* ================================================================== *)
(** ** More sample worlds, sessions and stores *)
(* ================================================================== *)

(** The items of [doc_ready]. *)
Definition ready_items : Dict.t :=
  [("sports", PList [PStr "golf"; PStr "chess"; PStr "polo"]);
   ("retry_enabled", PBool true);
   ("generation_mode", PStr "template")].

(** The items of a new builder's document. *)
Definition new_items : Dict.t :=
  [("sports", PList []);
   ("retry_enabled", PBool true);
   ("generation_mode", PStr "template")].

(** A default file as the tests write it, and nothing else. *)
Definition w_installed : world :=
  World ∅ {[ "config.default.json" := Json.dumps ConfigBuilder.init_config ]}.

(** A session at the command line: three sports, then template mode. *)
Definition session_argv : list string := ["config_builder.py"; "interactive"].

Definition session_console : console :=
  Console [" Golf, chess ,POLO"; "1"] "".

Definition session : ending unit * console * world :=
  main session_argv session_console w_installed.

(** The store once the caller has a list of three sports, at address 1. *)
Definition store_sports : Shared.store :=
  Shared.update 1
    (Shared.OList [Shared.VStr "Golf"; Shared.VStr " chess";
                   Shared.VStr "POLO "])
    Shared.store0.

(** A new builder in [store0]: builder 0, whose document is at address 2. *)
Definition store_new : Shared.store := snd (Shared.new Shared.store0).

(** A builder with its sports set: builder 0, whose document is at
    address 3. *)
Definition store_ready : Shared.store :=
  snd (Shared.with_sports 0 (Shared.VRef 1) (snd (Shared.new store_sports))).

(** A dictionary at address 1 whose [llm] entry is the class attribute. *)
Definition store_data : Shared.store :=
  Shared.update 1
    (Shared.ODict [("generation_mode", Shared.VStr "template");
                   ("llm", Shared.VRef Shared.DEFAULT_LLM_CONFIG)])
    Shared.store0.

(* ================================================================== *)
(** * Lemmas *)
(* ================================================================== *)

(** ** Dictionaries *)

Lemma dict_lookup_set_eq k v d : Dict.lookup k (Dict.set k v d) = Some v.
Proof.
  induction d as [|[k' v'] d IH]; simpl.
  - by rewrite String.eqb_refl.
  - destruct (String.eqb k k') eqn:E; simpl.
    + by rewrite String.eqb_refl.
    + by rewrite E.
Qed.

Lemma dict_lookup_set_ne k k' v d :
  k <> k' -> Dict.lookup k' (Dict.set k v d) = Dict.lookup k' d.
Proof.
  intros Hne. induction d as [|[k0 v0] d IH]; simpl.
  - destruct (String.eqb k' k) eqn:E; [|done].
    apply String.eqb_eq in E. congruence.
  - destruct (String.eqb k k0) eqn:E; simpl.
    + apply String.eqb_eq in E. subst k0.
      destruct (String.eqb k' k) eqn:E'; [|done].
      apply String.eqb_eq in E'. congruence.
    + by rewrite IH.
Qed.

Lemma dict_set_same k v d : Dict.lookup k d = Some v -> Dict.set k v d = d.
Proof.
  induction d as [|[k' v'] d IH]; simpl; [done|].
  destruct (String.eqb k k') eqn:E.
  - apply String.eqb_eq in E. by intros [= ->]; subst.
  - intros H. by rewrite IH.
Qed.

Lemma dict_set_fresh k v d :
  Dict.lookup k d = None -> Dict.set k v d = d ++ [(k, v)].
Proof.
  induction d as [|[k' v'] d IH]; simpl; [done|].
  destruct (String.eqb k k'); [done|]. intros H. by rewrite IH.
Qed.

(** ** Running the monad *)

Lemma with_config_lookup self c w :
  builders (with_config self c w) !! self = Some c.
Proof. unfold with_config; simpl. apply lookup_insert_eq. Qed.

Lemma with_config_twice self c c' w :
  with_config self c (with_config self c' w) = with_config self c w.
Proof. unfold with_config; simpl. by rewrite insert_insert_eq. Qed.

Lemma with_config_same self c w :
  builders w !! self = Some c -> with_config self c w = w.
Proof.
  destruct w as [bs fs]; unfold with_config; simpl. intros H.
  by rewrite insert_id.
Qed.

Lemma run_config_setitem self k v d w :
  builders w !! self = Some (PDict d) ->
  config_setitem self k v w
  = (Returns tt, with_config self (PDict (Dict.set k v d)) w).
Proof.
  intros H. unfold config_setitem, bind, get_config, lift, set_config.
  by rewrite H.
Qed.

Lemma run_config_contains self k d w :
  builders w !! self = Some (PDict d) ->
  config_contains self k w = (Returns (Dict.mem k d), w).
Proof.
  intros H. unfold config_contains, bind, get_config, lift. by rewrite H.
Qed.

Lemma run_config_getitem self k c w :
  builders w !! self = Some c ->
  config_getitem self k w = (py_getitem c k, w).
Proof.
  intros H. unfold config_getitem, bind, get_config, lift. rewrite H.
  by destruct (py_getitem c k).
Qed.

Lemma run_config_setitem2 self k1 k2 v d e w :
  builders w !! self = Some (PDict d) ->
  Dict.lookup k1 d = Some (PDict e) ->
  config_setitem2 self k1 k2 v w
  = (Returns tt,
     with_config self (PDict (Dict.set k1 (PDict (Dict.set k2 v e)) d)) w).
Proof.
  intros H He. unfold config_setitem2, bind, get_config, lift, set_config.
  rewrite H; simpl. by rewrite He.
Qed.

Lemma bind_returns {A B} (m : M A) (f : A -> M B) a w w' :
  m w = (Returns a, w') -> bind m f w = f a w'.
Proof. intros H. unfold bind. by rewrite H. Qed.

(** ** [with_sports] *)

Lemma comprehension_strs ss :
  comprehension py_strip_lower (map PStr ss)
  = Returns (map PyStr.normalize ss).
Proof. induction ss as [|s ss IH]; simpl; [done|]. by rewrite IH. Qed.

Lemma strings_of_Some l ss : strings_of l = Some ss -> l = map PStr ss.
Proof.
  revert ss. induction l as [|x l IH]; intros ss; simpl.
  - by intros [= <-].
  - destruct x; try done. destruct (strings_of l) eqn:E; [|done].
    intros [= <-]. simpl. by rewrite (IH l0).
Qed.

Lemma comprehension_not_strs l :
  strings_of l = None ->
  comprehension py_strip_lower l = Raises AttributeError.
Proof.
  induction l as [|x l IH]; simpl; [done|].
  destruct x; simpl; try done.
  destruct (strings_of l) eqn:E; [done|]. intros _. by rewrite IH.
Qed.

Lemma size_list_to_set_le (l : list string) :
  size (list_to_set l : gset string) <= length l.
Proof.
  induction l as [|x l IH].
  - by rewrite list_to_set_nil, size_empty.
  - rewrite list_to_set_cons, size_union_alt, size_singleton. simpl length.
    assert (size (list_to_set l ∖ {[x]} : gset string)
            <= size (list_to_set l : gset string)).
    { apply subseteq_size, subseteq_difference_l. done. }
    lia.
Qed.

Lemma len_set_NoDup (l : list string) :
  (length l =? size (list_to_set l : gset string)) = true <-> NoDup l.
Proof.
  rewrite Nat.eqb_eq. split.
  - induction l as [|x l IH]; [constructor|].
    rewrite list_to_set_cons. simpl length. intros H.
    destruct (decide (x ∈ l)) as [Hin|Hni].
    + exfalso.
      assert (({[x]} ∪ list_to_set l : gset string) = list_to_set l) as E.
      { apply subseteq_union_1_L, singleton_subseteq_l.
        by apply elem_of_list_to_set. }
      rewrite E in H. pose proof (size_list_to_set_le l). lia.
    + constructor; [done|]. apply IH.
      rewrite size_union in H
        by (apply disjoint_singleton_l; by rewrite elem_of_list_to_set).
      rewrite size_singleton in H. lia.
  - intros H. symmetry. by apply size_list_to_set.
Qed.

Lemma existsb_empty (l : list string) :
  existsb (fun sport => negb (py_truthy (PStr sport))) l = true
  <-> Exists (fun s => s = EmptyString) l.
Proof.
  rewrite existsb_exists, Exists_exists. simpl.
  split; intros (s & Hin & H); exists s; (split; [by apply list_elem_of_In || done|]).
  - rewrite negb_involutive in H. by apply String.eqb_eq in H.
  - subst s. done.
Qed.

(** The checks of [with_sports] on a list of strings, as one expression. *)
Lemma run_with_sports_strs self ss w :
  ConfigBuilder.with_sports self (PList (map PStr ss)) w
  = if length ss <? 3 then
      (Raises (ConfigValidationError (ConfigBuilder.too_few_msg (length ss))), w)
    else if 5 <? length ss then
      (Raises (ConfigValidationError (ConfigBuilder.too_many_msg (length ss))), w)
    else if negb (length ss
                  =? size (list_to_set (map PyStr.normalize ss) : gset string))
    then (Raises (ConfigValidationError "Sports list contains duplicates"), w)
    else if existsb (fun sport => negb (py_truthy (PStr sport)))
                    (map PyStr.normalize ss)
    then (Raises (ConfigValidationError "Sports list contains empty values"), w)
    else bind (config_setitem self "sports"
                 (PList (map PStr (map PyStr.normalize ss))))
              (fun _ => ret self) w.
Proof.
  unfold ConfigBuilder.with_sports, ConfigBuilder.MIN_SPORTS,
    ConfigBuilder.MAX_SPORTS.
  rewrite length_map.
  destruct (length ss <? 3); [done|].
  destruct (5 <? length ss); [done|].
  unfold bind at 1, lift. rewrite comprehension_strs, length_map.
  destruct (negb _); [done|]. by destruct (existsb _ _).
Qed.

Lemma valid_sports_checks ss :
  valid_sports ss ->
  (length ss <? 3) = false /\ (5 <? length ss) = false
  /\ negb (length ss
           =? size (list_to_set (map PyStr.normalize ss) : gset string)) = false
  /\ existsb (fun sport => negb (py_truthy (PStr sport)))
             (map PyStr.normalize ss) = false.
Proof.
  intros ([Hlo Hhi] & Hnd & Hne). repeat split.
  - apply Nat.ltb_ge. lia.
  - apply Nat.ltb_ge. lia.
  - apply negb_false_iff. rewrite <- (length_map PyStr.normalize ss).
    by apply len_set_NoDup.
  - apply not_true_is_false. rewrite existsb_empty, Exists_exists.
    intros (s & Hin & ->). apply list_elem_of_fmap in Hin as (t & Ht & Hin).
    rewrite Forall_forall in Hne. by apply (Hne t).
Qed.

(** ** Strings *)

Lemma append_assoc (a b c : string) : (a +:+ b) +:+ c = a +:+ (b +:+ c).
Proof. induction a as [|x a IH]; simpl; [done|]. by f_equal. Qed.

Lemma prefix_append (a b : string) : String.prefix a (a +:+ b) = true.
Proof.
  induction a as [|x a IH]; simpl; [by destruct b|].
  destruct (ascii_dec x x); [done|congruence].
Qed.

Lemma contains_prefix (sub s : string) :
  String.prefix sub s = true -> PyStr.contains sub s = true.
Proof. intros H. destruct s; simpl in *; by rewrite H. Qed.

Lemma contains_middle (a sub b : string) :
  PyStr.contains sub (a +:+ sub +:+ b) = true.
Proof.
  induction a as [|x a IH].
  - change ("" +:+ sub +:+ b) with (sub +:+ b).
    apply contains_prefix, prefix_append.
  - change (String x a +:+ sub +:+ b) with (String x (a +:+ sub +:+ b)).
    simpl PyStr.contains. rewrite IH. apply orb_true_r.
Qed.

(** ** [with_sports]: the errors *)

Lemma too_few_msg_count n :
  PyStr.contains (PyStr.of_nat n) (ConfigBuilder.too_few_msg n) = true.
Proof.
  unfold ConfigBuilder.too_few_msg.
  rewrite <- !append_assoc, (append_assoc _ (PyStr.of_nat n) ")").
  apply contains_middle.
Qed.

Lemma too_many_msg_count n :
  PyStr.contains (PyStr.of_nat n) (ConfigBuilder.too_many_msg n) = true.
Proof.
  unfold ConfigBuilder.too_many_msg.
  rewrite <- !append_assoc, (append_assoc _ (PyStr.of_nat n) ")").
  apply contains_middle.
Qed.

Lemma config_setitem_no_validation_error self k v w :
  is_validation_error (fst (config_setitem self k v w)) = false.
Proof.
  unfold config_setitem, bind, get_config, lift, set_config.
  destruct (builders w !! self) as [c|]; [|done]. by destruct c.
Qed.

Lemma Exists_normalize_empty ss :
  Exists (fun s => s = EmptyString) (map PyStr.normalize ss)
  <-> Exists (fun s => PyStr.normalize s = EmptyString) ss.
Proof.
  induction ss as [|s ss IH]; simpl.
  - by rewrite !Exists_nil.
  - by rewrite !Exists_cons, IH.
Qed.

(** ** [validate] *)

Lemma run_validate self d w :
  builders w !! self = Some (PDict d) ->
  ConfigBuilder.validate self w = (check_document d, w).
Proof.
  intros H. unfold ConfigBuilder.validate, check_document, check_llm.
  unfold bind at 1. rewrite (run_config_getitem _ _ _ _ H).
  destruct (py_getitem (PDict d) "sports") as [sports|e]; [|reflexivity].
  destruct (negb (py_truthy sports)); [reflexivity|].
  unfold bind at 1. rewrite (run_config_getitem _ _ _ _ H).
  destruct (py_getitem (PDict d) "generation_mode") as [mode|e]; [|reflexivity].
  unfold bind at 1.
  destruct (py_eqb mode (PStr "llm")).
  - unfold bind at 1. rewrite (run_config_contains _ _ _ _ H). cbv beta iota.
    destruct (negb (Dict.mem "llm" d)); [reflexivity|].
    unfold bind at 1. rewrite (run_config_getitem _ _ _ _ H).
    destruct (py_getitem (PDict d) "llm") as [llm|e] eqn:E; [|reflexivity].
    unfold bind at 1, lift at 1.
    destruct (py_get llm "provider") as [provider|e]; [|reflexivity].
    destruct (negb (py_truthy provider)); [reflexivity|].
    unfold bind at 1. rewrite (run_config_getitem _ _ _ _ H), E.
    unfold bind at 1, lift at 1.
    destruct (py_get llm "model") as [model|e]; [|reflexivity].
    destruct (negb (py_truthy model)); [reflexivity|].
    unfold ret, get_config. by rewrite H.
  - unfold ret, get_config. by rewrite H.
Qed.

Lemma validate_world self w : snd (ConfigBuilder.validate self w) = w.
Proof.
  destruct (builders w !! self) as [c|] eqn:H.
  - destruct c as [| | | |l|d];
      try (unfold ConfigBuilder.validate, config_getitem, get_config,
             lift, bind; simpl; rewrite H; reflexivity).
    by rewrite (run_validate _ _ _ H).
  - unfold ConfigBuilder.validate, config_getitem, get_config, lift, bind.
    simpl. by rewrite H.
Qed.

Lemma py_eqb_str v s : py_eqb v (PStr s) = true <-> v = PStr s.
Proof.
  destruct v; simpl; try (split; [done|intros [=]]).
  rewrite String.eqb_eq. split; congruence.
Qed.

Lemma py_get_dict e f : py_get (PDict e) f = Returns (dict_get e f).
Proof. unfold py_get, dict_get. by destruct (Dict.lookup f e). Qed.

(** ** The setters as functions of the document *)

Lemma run_ensure_llm self d w :
  builders w !! self = Some (PDict d) ->
  bind (config_contains self "llm")
       (fun has_llm =>
          if negb has_llm
          then config_setitem self "llm" ConfigBuilder.DEFAULT_LLM_CONFIG
          else ret tt) w
  = (Returns tt, with_config self (PDict (ensure_llm d)) w).
Proof.
  intros H. unfold bind. rewrite (run_config_contains _ _ _ _ H).
  unfold ensure_llm. destruct (Dict.mem "llm" d); simpl.
  - unfold ret. by rewrite with_config_same.
  - by rewrite (run_config_setitem _ _ _ _ _ H).
Qed.

Lemma run_ensure_llm_then {A} self d w (k : unit -> M A) :
  builders w !! self = Some (PDict d) ->
  bind (config_contains self "llm")
       (fun has_llm =>
          bind (if negb has_llm
                then config_setitem self "llm" ConfigBuilder.DEFAULT_LLM_CONFIG
                else ret tt) k) w
  = k tt (with_config self (PDict (ensure_llm d)) w).
Proof.
  intros H. unfold bind at 1. rewrite (run_config_contains _ _ _ _ H).
  unfold ensure_llm. destruct (Dict.mem "llm" d); simpl.
  - unfold bind, ret. by rewrite with_config_same.
  - unfold bind. by rewrite (run_config_setitem _ _ _ _ _ H).
Qed.

Lemma lookup_ensure_llm_other k d :
  k <> "llm" -> Dict.lookup k (ensure_llm d) = Dict.lookup k d.
Proof.
  intros Hk. unfold ensure_llm. destruct (Dict.mem "llm" d); [done|].
  by apply dict_lookup_set_ne.
Qed.

Lemma lookup_ensure_llm d :
  Dict.lookup "llm" (ensure_llm d)
  = Some (default ConfigBuilder.DEFAULT_LLM_CONFIG (Dict.lookup "llm" d)).
Proof.
  unfold ensure_llm, Dict.mem.
  destruct (Dict.lookup "llm" d) as [v|] eqn:E; simpl; [done|].
  apply dict_lookup_set_eq.
Qed.

Lemma run_set_llm_field self f v d w :
  builders w !! self = Some (PDict d) ->
  bind (config_contains self "llm")
       (fun has_llm =>
          bind (if negb has_llm
                then config_setitem self "llm" ConfigBuilder.DEFAULT_LLM_CONFIG
                else ret tt)
            (fun _ =>
               bind (config_setitem2 self "llm" f v)
                 (fun _ =>
                    bind (config_setitem self "generation_mode" (PStr "llm"))
                      (fun _ => ret self)))) w
  = match set_llm_field f v d with
    | Returns d' => (Returns self, with_config self (PDict d') w)
    | Raises e => (Raises e, w)
    end.
Proof.
  intros H. rewrite (run_ensure_llm_then _ _ _ _ H).
  unfold set_llm_field.
  destruct (Dict.lookup "llm" (ensure_llm d)) as [llm|] eqn:El;
    [|by rewrite lookup_ensure_llm in El].
  destruct llm as [|b|z|s|l|e];
    try (rewrite lookup_ensure_llm in El; injection El as El;
         unfold ensure_llm, Dict.mem;
         destruct (Dict.lookup "llm" d) as [v0|] eqn:E0; simpl in El;
         [subst v0|discriminate El];
         rewrite (with_config_same _ _ _ H);
         unfold config_setitem2, get_config, lift, bind; simpl;
         rewrite H; simpl; rewrite E0; reflexivity).
  unfold bind at 1.
  rewrite (run_config_setitem2 _ _ _ _ _ e _ (with_config_lookup _ _ _) El).
  rewrite with_config_twice. unfold bind at 1.
  rewrite (run_config_setitem _ _ _ _ _ (with_config_lookup _ _ _)).
  by rewrite with_config_twice.
Qed.

Lemma run_call self op d w :
  builders w !! self = Some (PDict d) ->
  call self op w
  = match apply_setter op d with
    | Returns d' => (Returns self, with_config self (PDict d') w)
    | Raises e => (Raises e, w)
    end.
Proof.
  intros H. destruct op as [sports|enabled|mode|provider|model]; simpl.
  - unfold ConfigBuilder.with_sports, check_sports,
      ConfigBuilder.MIN_SPORTS, ConfigBuilder.MAX_SPORTS.
    destruct sports as [| | | |l|]; try reflexivity.
    destruct (length l <? 3); [reflexivity|].
    destruct (5 <? length l); [reflexivity|].
    unfold bind at 1, lift.
    destruct (comprehension py_strip_lower l) as [ns|e]; [|reflexivity].
    destruct (negb _); [reflexivity|].
    destruct (existsb _ ns); [reflexivity|].
    by rewrite (bind_returns _ _ _ _ _ (run_config_setitem _ _ _ _ _ H)).
  - unfold ConfigBuilder.with_retry.
    by rewrite (bind_returns _ _ _ _ _ (run_config_setitem _ _ _ _ _ H)).
  - unfold ConfigBuilder.with_generation_mode. simpl.
    destruct (String.eqb mode "template") eqn:Et; simpl.
    + apply String.eqb_eq in Et as ->. simpl.
      rewrite (bind_returns _ _ _ _ _ (run_config_setitem _ _ _ _ _ H)).
      reflexivity.
    + destruct (String.eqb mode "llm") eqn:El; simpl; [|reflexivity].
      rewrite (bind_returns _ _ _ _ _ (run_config_setitem _ _ _ _ _ H)).
      unfold bind at 1.
      rewrite (run_ensure_llm _ _ _ (with_config_lookup _ _ _)).
      by rewrite with_config_twice.
  - unfold ConfigBuilder.with_llm_provider. simpl.
    rewrite orb_false_r.
    destruct (String.eqb provider "together" || String.eqb provider "huggingface");
      simpl; [|reflexivity].
    apply (run_set_llm_field _ _ _ _ _ H).
  - apply (run_set_llm_field _ _ _ _ _ H).
Qed.

(** ** Atomicity and frame of the setters *)

Ltac run_prims :=
  unfold ConfigBuilder.with_sports, ConfigBuilder.with_retry,
    ConfigBuilder.with_generation_mode, ConfigBuilder.with_llm_provider,
    ConfigBuilder.with_llm_model, config_setitem2, config_setitem,
    config_contains, config_getitem, get_config, set_config, lift, raise,
    ret, bind; simpl.

Lemma call_raises_dict self op d e w w' :
  builders w !! self = Some (PDict d) ->
  call self op w = (Raises e, w') -> w' = w.
Proof.
  intros H. rewrite (run_call _ _ _ _ H).
  destruct (apply_setter op d); congruence.
Qed.

Lemma call_raises_other self op e w w' :
  (forall d, builders w !! self <> Some (PDict d)) ->
  call self op w = (Raises e, w') -> w' = w.
Proof.
  intros Hnd.
  destruct op as [sports|enabled|mode|provider|model]; simpl.
  - unfold ConfigBuilder.with_sports.
    destruct sports as [| | | |l|]; try (unfold raise; congruence).
    destruct (length l <? _); [unfold raise; congruence|].
    destruct (_ <? length l); [unfold raise; congruence|].
    unfold bind at 1, lift.
    destruct (comprehension py_strip_lower l) as [ns|e0]; [|congruence].
    destruct (negb _); [unfold raise; congruence|].
    destruct (existsb _ ns); [unfold raise; congruence|].
    run_prims. destruct (builders w !! self) as [[]|]; simpl; congruence.
  - run_prims. destruct (builders w !! self) as [[]|]; simpl; congruence.
  - run_prims. destruct (negb _); [congruence|].
    destruct (builders w !! self) as [[]|] eqn:E; simpl; congruence.
  - run_prims. destruct (negb _); [congruence|].
    destruct (builders w !! self) as [[]|] eqn:E; simpl; try congruence;
      try (by destruct (Hnd d));
      destruct (negb _); simpl; rewrite ?E; simpl; congruence.
  - run_prims.
    destruct (builders w !! self) as [[]|] eqn:E; simpl; try congruence;
      try (by destruct (Hnd d));
      destruct (negb _); simpl; rewrite ?E; simpl; congruence.
Qed.

Lemma call_raises self op e w w' :
  call self op w = (Raises e, w') -> w' = w.
Proof.
  destruct (builders w !! self) as [c|] eqn:H.
  - destruct c; try (apply call_raises_other; intros d'; congruence).
    by apply (call_raises_dict _ _ d).
  - apply call_raises_other. intros d'; congruence.
Qed.

Lemma set_llm_field_frame f v d d' :
  set_llm_field f v d = Returns d' ->
  (forall k, k <> "generation_mode" -> k <> "llm" ->
     Dict.lookup k d' = Dict.lookup k d)
  /\ exists e,
       default ConfigBuilder.DEFAULT_LLM_CONFIG (Dict.lookup "llm" d) = PDict e
       /\ Dict.lookup "llm" d' = Some (PDict (Dict.set f v e))
       /\ Dict.lookup "generation_mode" d' = Some (PStr "llm").
Proof.
  unfold set_llm_field. rewrite lookup_ensure_llm.
  destruct (default _ _) as [| | | | |e] eqn:E; try done.
  intros [= <-]. split.
  - intros k Hm Hl. rewrite !dict_lookup_set_ne by done.
    by apply lookup_ensure_llm_other.
  - exists e. split; [done|]. split; [|apply dict_lookup_set_eq].
    rewrite dict_lookup_set_ne by done. apply dict_lookup_set_eq.
Qed.

Lemma py_get_set_ne f f' v e :
  f <> f' -> py_get (PDict (Dict.set f v e)) f' = py_get (PDict e) f'.
Proof. intros H. simpl. by rewrite dict_lookup_set_ne. Qed.

Lemma llm_frame_same op d d' :
  Dict.lookup "llm" d' = Dict.lookup "llm" d -> llm_frame op d d'.
Proof.
  intros H. split.
  - intros block Hb. exists block. by rewrite H.
  - intros Hn. left. by rewrite H.
Qed.

Lemma llm_frame_field op f v d d' :
  llm_field op = Some f ->
  set_llm_field f v d = Returns d' -> llm_frame op d d'.
Proof.
  intros Hop H.
  destruct (set_llm_field_frame _ _ _ _ H) as (_ & e & He & Hl & _).
  split.
  - intros block Hb. rewrite Hb in He. simpl in He. subst block.
    eexists. split; [done|]. intros f' Hf. apply py_get_set_ne. congruence.
  - intros Hn. rewrite Hn in He. simpl in He. right.
    eexists. split; [done|]. intros f' Hf. rewrite He.
    apply py_get_set_ne. congruence.
Qed.

Lemma apply_setter_frame op d d' :
  apply_setter op d = Returns d' ->
  (forall k, k <> written_key op -> k <> "llm" ->
     Dict.lookup k d' = Dict.lookup k d)
  /\ llm_frame op d d'.
Proof.
  destruct op as [sports|enabled|mode|provider|model]; simpl.
  - destruct (check_sports sports); [|done]. intros [= <-]. split.
    + intros k Hk _. by apply dict_lookup_set_ne.
    + apply llm_frame_same. by apply dict_lookup_set_ne.
  - intros [= <-]. split.
    + intros k Hk _. by apply dict_lookup_set_ne.
    + apply llm_frame_same. by apply dict_lookup_set_ne.
  - destruct (String.eqb mode "template"); [|destruct (String.eqb mode "llm")];
      [intros [= <-]|intros [= <-]|done].
    + split; [intros k Hk _; by apply dict_lookup_set_ne|].
      apply llm_frame_same. by apply dict_lookup_set_ne.
    + split.
      * intros k Hk Hl. rewrite lookup_ensure_llm_other by done.
        by apply dict_lookup_set_ne.
      * split.
        -- intros block Hb. exists block.
           by rewrite lookup_ensure_llm, dict_lookup_set_ne, Hb.
        -- intros Hn. right. eexists.
           by rewrite lookup_ensure_llm, dict_lookup_set_ne, Hn.
  - destruct (_ || _); [|done]. intros H. split.
    + by destruct (set_llm_field_frame _ _ _ _ H) as (Hk & _).
    + by apply (llm_frame_field _ "provider" (PStr provider)).
  - intros H. split.
    + by destruct (set_llm_field_frame _ _ _ _ H) as (Hk & _).
    + by apply (llm_frame_field _ "model" (PStr model)).
Qed.

Lemma save_builders self path w :
  builders (snd (ConfigBuilder.save self path w)) = builders w.
Proof.
  unfold ConfigBuilder.save, bind.
  pose proof (validate_world self w) as H.
  destruct (ConfigBuilder.validate self w) as [[c|e] w']; simpl in *;
    by subst w'.
Qed.

(** ** The default [llm] block *)

Lemma run_with_generation_mode self mode d w :
  builders w !! self = Some (PDict d) ->
  ConfigBuilder.with_generation_mode self mode w
  = match apply_setter (WithGenerationMode mode) d with
    | Returns d' => (Returns self, with_config self (PDict d') w)
    | Raises e => (Raises e, w)
    end.
Proof. apply (run_call self (WithGenerationMode mode)). Qed.

Lemma run_with_llm_provider self provider d w :
  builders w !! self = Some (PDict d) ->
  ConfigBuilder.with_llm_provider self provider w
  = match apply_setter (WithLlmProvider provider) d with
    | Returns d' => (Returns self, with_config self (PDict d') w)
    | Raises e => (Raises e, w)
    end.
Proof. apply (run_call self (WithLlmProvider provider)). Qed.

Lemma run_new w :
  ConfigBuilder.new w
  = (Returns (fresh (dom (builders w))),
     with_config (fresh (dom (builders w))) ConfigBuilder.init_config w).
Proof. reflexivity. Qed.

Lemma ensure_llm_idem d : ensure_llm (ensure_llm d) = ensure_llm d.
Proof.
  unfold ensure_llm at 1. unfold Dict.mem. by rewrite lookup_ensure_llm.
Qed.

Lemma ensure_llm_present d v :
  Dict.lookup "llm" d = Some v -> ensure_llm d = d.
Proof. intros H. unfold ensure_llm, Dict.mem. by rewrite H. Qed.

Lemma save_raises self path e w w' :
  ConfigBuilder.save self path w = (Raises e, w') -> w' = w.
Proof.
  unfold ConfigBuilder.save, bind.
  pose proof (validate_world self w) as H.
  destruct (ConfigBuilder.validate self w) as [[c|e0] w0]; simpl in *; subst w0.
  - discriminate.
  - congruence.
Qed.

(** ** Normal forms of sport names *)

Ltac by_cases_on_char c :=
  destruct c as [[] [] [] [] [] [] [] []]; reflexivity.

Lemma isspace_lower_char c : PyStr.isspace (PyStr.lower_char c) = PyStr.isspace c.
Proof. by_cases_on_char c. Qed.

Lemma lower_char_idem c :
  PyStr.lower_char (PyStr.lower_char c) = PyStr.lower_char c.
Proof. by_cases_on_char c. Qed.

Lemma lower_idem s : PyStr.lower (PyStr.lower s) = PyStr.lower s.
Proof.
  induction s as [|c s IH]; simpl; [done|]. by rewrite lower_char_idem, IH.
Qed.

Lemma lstrip_lower s : PyStr.lstrip (PyStr.lower s) = PyStr.lower (PyStr.lstrip s).
Proof.
  induction s as [|c s IH]; simpl; [done|]. rewrite isspace_lower_char.
  by destruct (PyStr.isspace c).
Qed.

Lemma rstrip_lower s : PyStr.rstrip (PyStr.lower s) = PyStr.lower (PyStr.rstrip s).
Proof.
  induction s as [|c s IH]; simpl; [done|]. rewrite IH, isspace_lower_char.
  destruct (PyStr.rstrip s); simpl; [|done]. by destruct (PyStr.isspace c).
Qed.

Lemma lstrip_idem s : PyStr.lstrip (PyStr.lstrip s) = PyStr.lstrip s.
Proof.
  induction s as [|c s IH]; simpl; [done|].
  destruct (PyStr.isspace c) eqn:E; [done|]. simpl. by rewrite E.
Qed.

Lemma rstrip_idem s : PyStr.rstrip (PyStr.rstrip s) = PyStr.rstrip s.
Proof.
  induction s as [|c s IH]; simpl; [done|].
  destruct (PyStr.rstrip s) as [|c' r] eqn:E.
  - destruct (PyStr.isspace c) eqn:Ec; simpl; [done|]. by rewrite Ec.
  - simpl in *. by rewrite IH.
Qed.

Lemma lstrip_rstrip s :
  PyStr.lstrip (PyStr.rstrip s) = PyStr.rstrip (PyStr.lstrip s).
Proof.
  induction s as [|c s IH]; simpl; [done|].
  destruct (PyStr.isspace c) eqn:Ec.
  - destruct (PyStr.rstrip s) as [|c' r] eqn:E; simpl.
    + by rewrite <- IH.
    + rewrite Ec. by rewrite <- IH.
  - simpl. destruct (PyStr.rstrip s) as [|c' r] eqn:E; simpl; by rewrite Ec.
Qed.

Lemma strip_idem s : PyStr.strip (PyStr.strip s) = PyStr.strip s.
Proof.
  unfold PyStr.strip.
  by rewrite lstrip_rstrip, lstrip_idem, rstrip_idem.
Qed.

Lemma normalize_idem s :
  PyStr.normalize (PyStr.normalize s) = PyStr.normalize s.
Proof.
  unfold PyStr.normalize, PyStr.strip.
  by rewrite lstrip_lower, rstrip_lower, lower_idem, lstrip_rstrip,
    lstrip_idem, rstrip_idem.
Qed.

Lemma map_normalize_idem ss :
  map PyStr.normalize (map PyStr.normalize ss) = map PyStr.normalize ss.
Proof.
  induction ss as [|s ss IH]; simpl; [done|]. by rewrite normalize_idem, IH.
Qed.

(** What [with_sports] stores is a valid sports list. *)
Lemma check_sports_valid sports ns :
  check_sports sports = Returns ns -> valid_sports ns.
Proof.
  unfold check_sports. destruct sports as [| | | |l|]; try done.
  destruct (length l <? 3) eqn:Hlo; [done|].
  destruct (5 <? length l) eqn:Hhi; [done|].
  destruct (strings_of l) as [ss|] eqn:Hss.
  - apply strings_of_Some in Hss as ->.
    rewrite comprehension_strs. rewrite length_map in Hlo, Hhi.
    destruct (length _ =? _) eqn:Hdup; [|done]. cbn [negb].
    destruct (existsb _ _) eqn:Hemp; [done|]. intros [= <-].
    apply len_set_NoDup in Hdup.
    apply Nat.ltb_ge in Hlo, Hhi. unfold valid_sports.
    rewrite map_normalize_idem, length_map. split; [lia|]. split; [done|].
    apply Forall_forall. intros s Hin Hs.
    apply list_elem_of_fmap in Hin as (t & -> & Hin).
    rewrite normalize_idem in Hs.
    assert (existsb (fun sport => negb (py_truthy (PStr sport)))
              (map PyStr.normalize ss) = true); [|congruence].
    apply existsb_empty, Exists_exists. exists (PyStr.normalize t).
    split; [|done]. apply list_elem_of_fmap. eauto.
  - by rewrite (comprehension_not_strs l Hss).
Qed.

(** ** Builders made by [ConfigBuilder()] and setter calls *)

Lemma reached_invariant (allowed : pyval -> setter -> Prop)
    (P : Dict.t -> Prop) w0 self w :
  (forall d, ConfigBuilder.init_config = PDict d -> P d) ->
  (forall op d d',
     allowed (PDict d) op -> P d -> apply_setter op d = Returns d' -> P d') ->
  reached allowed w0 self w ->
  exists d, builders w !! self = Some (PDict d) /\ P d.
Proof.
  intros Hinit Hstep Hr. induction Hr as [self w Hnew|self w op cfg r w' Hr IH Hcfg Hal Hcall].
  - rewrite run_new in Hnew. injection Hnew as <- <-.
    eexists. split; [apply with_config_lookup|]. by apply Hinit.
  - destruct IH as (d & Hd & HP). rewrite Hd in Hcfg. injection Hcfg as <-.
    rewrite (run_call _ _ _ _ Hd) in Hcall.
    destruct (apply_setter op d) as [d'|e] eqn:E; [|done].
    injection Hcall as <- <-. exists d'. split; [apply with_config_lookup|].
    by apply (Hstep op d d').
Qed.

(** ** [compute_changes_from_default] *)

Lemma dict_lookup_snoc_ne k k' v (m : Dict.t) :
  k <> k' -> Dict.lookup k' (m ++ [(k, v)]) = Dict.lookup k' m.
Proof.
  intros Hne. induction m as [|[k0 v0] m IH]; simpl.
  - destruct (String.eqb k' k) eqn:E; [|done].
    apply String.eqb_eq in E. congruence.
  - by rewrite IH.
Qed.

Lemma changes_fold base cand ks c (m : Dict.t) :
  NoDup ks ->
  (forall k, k ∈ ks -> Dict.lookup k m = None) ->
  fold_left (changes_step base cand) ks (c, m)
  = (c ++ List.filter (differs base cand) ks,
     m ++ map (change_of base cand) (List.filter (differs base cand) ks)).
Proof.
  intros Hnd. revert c m.
  induction Hnd as [|k ks Hk Hnd IH]; intros c m Hm; simpl.
  - by rewrite !List.app_nil_r.
  - change (changes_step base cand (c, m) k)
      with (if differs base cand k
            then (c ++ [k], Dict.set k (snd (change_of base cand k)) m)
            else (c, m)).
    destruct (differs base cand k) eqn:E; simpl.
    + rewrite dict_set_fresh by (apply Hm; left).
      rewrite IH.
      * by rewrite <- !List.app_assoc.
      * intros k' Hk'. rewrite dict_lookup_snoc_ne by (intros ->; done).
        apply Hm. by right.
    + apply IH. intros k' Hk'. apply Hm. by right.
Qed.

(** ** The script generator *)

Import SkillHelpers.

(** ** [json]: what is written is read back *)

Import Json.

(** *** Strings *)

Lemma parse_str_escape_char c rest :
  parse_str (escape_char c rest) = cons_char c (parse_str rest).
Proof. by_cases_on_char c. Qed.

Lemma parse_str_escape s k :
  parse_str (escape s (String quote k)) = Some (s, k).
Proof.
  induction s as [|c s IH]; simpl; [done|].
  by rewrite parse_str_escape_char, IH.
Qed.

(** *** Integers *)

Lemma span_digits_uint d k :
  span_digits (NilEmpty.string_of_uint d +:+ k)
  = let (ds, r) := span_digits k in (NilEmpty.string_of_uint d +:+ ds, r).
Proof.
  induction d; simpl; try (rewrite IHd; by destruct (span_digits k)).
  by destruct (span_digits k).
Qed.

Lemma span_digits_end k : ends_number k = true -> span_digits k = (EmptyString, k).
Proof.
  destruct k as [|c k]; simpl; [done|].
  destruct (is_digit c); [done|done].
Qed.

Lemma float_follows_end k : ends_number k = true -> float_follows k = false.
Proof.
  destruct k as [|c k]; [done|]. unfold ends_number.
  destruct (is_digit c); [done|]. simpl negb at 1. rewrite andb_true_l.
  by intros ->%negb_true_iff.
Qed.

Lemma append_empty_r (s : string) : s +:+ "" = s.
Proof. induction s as [|c s IH]; simpl; [done|]. by rewrite IH. Qed.

Lemma pos_to_uint_head p :
  exists c r,
    NilEmpty.string_of_uint (Pos.to_uint p) = String c r
    /\ is_digit c = true /\ Ascii.eqb c "0" = false.
Proof.
  pose proof (Unsigned.to_of (Pos.to_uint p)) as H.
  rewrite Unsigned.of_to in H. simpl in H.
  pose proof (Unsigned.to_uint_nonzero p) as Hnz.
  pose proof (nzhead_nonzero (Pos.to_uint p)) as Hh.
  unfold Decimal.unorm in H.
  destruct (Pos.to_uint p) as [|u|u|u|u|u|u|u|u|u|u] eqn:E; simpl.
  1: { exfalso. by apply (Unsigned.to_uint_nonnil p). }
  1: { exfalso. destruct (Decimal.nzhead (Decimal.D0 u)) eqn:E'; try done.
       by apply (Hh u0). }
  all: by eexists _, _.
Qed.

Lemma parse_nat_pos p k :
  ends_number k = true ->
  parse_nat (NilEmpty.string_of_uint (Pos.to_uint p) +:+ k) = Some (Npos p, k).
Proof.
  intros Hk. destruct (pos_to_uint_head p) as (c & r & E & Hd & H0).
  unfold parse_nat. pose proof (span_digits_uint (Pos.to_uint p) k) as Hs.
  rewrite (span_digits_end k Hk), append_empty_r in Hs.
  rewrite E in *. simpl. simpl in Hs. rewrite H0, Hd.
  rewrite Hd in Hs. rewrite Hs. rewrite <- E, NilEmpty.usu.
  unfold N.of_uint. by rewrite Unsigned.of_to.
Qed.

Lemma parse_number_encode_int z k :
  ends_number k = true ->
  parse_number (encode_int z k) = Some (PInt z, k).
Proof.
  intros Hk. destruct z as [|p|p]; simpl.
  - unfold parse_number. simpl. by rewrite (float_follows_end k Hk).
  - unfold parse_number.
    destruct (pos_to_uint_head p) as (c & r & E & Hd & H0).
    assert (Ascii.eqb c "-" = false) as Hc.
    { destruct c as [[] [] [] [] [] [] [] []]; done. }
    rewrite E. change (String c r +:+ k) with (String c (r +:+ k)).
    cbv beta iota. rewrite Hc.
    change (String c (r +:+ k)) with (String c r +:+ k).
    rewrite <- E, (parse_nat_pos p k Hk). by rewrite (float_follows_end k Hk).
  - unfold parse_number. simpl. rewrite (parse_nat_pos p k Hk).
    by rewrite (float_follows_end k Hk).
Qed.

(** *** Values *)

Lemma pyval_nested_ind (P : pyval -> Prop) :
  P PNone -> (forall b, P (PBool b)) -> (forall z, P (PInt z)) ->
  (forall s, P (PStr s)) ->
  (forall l, Forall P l -> P (PList l)) ->
  (forall d, Forall (fun kv => P (snd kv)) d -> P (PDict d)) ->
  forall v, P v.
Proof.
  intros HNone HBool HInt HStr HList HDict. fix IH 1.
  intros [|b|z|s|l|d]; [done|done|done|done| |].
  - apply HList. induction l as [|x l IHl]; constructor; [apply IH|exact IHl].
  - apply HDict. induction d as [|[k x] d IHd]; constructor;
      [apply IH|exact IHd].
Qed.

Lemma val_size_pos v : 1 <= val_size v.
Proof. destruct v; simpl; lia. Qed.

Lemma val_size_list_cons x l : val_size (PList (x :: l)) = val_size x + val_size (PList l).
Proof. simpl. lia. Qed.

Lemma val_size_dict_cons k x d :
  val_size (PDict ((k, x) :: d)) = val_size x + val_size (PDict d).
Proof. simpl. lia. Qed.

Lemma val_size_list_length l : length l < val_size (PList l).
Proof.
  induction l as [|x l IH]; [simpl; lia|].
  rewrite val_size_list_cons. pose proof (val_size_pos x). simpl length. lia.
Qed.

Lemma val_size_dict_length d : length d < val_size (PDict d).
Proof.
  induction d as [|[k x] d IH]; [simpl; lia|].
  rewrite val_size_dict_cons. pose proof (val_size_pos x). simpl length. lia.
Qed.

Lemma val_size_list_elem x l : x ∈ l -> val_size x < val_size (PList l).
Proof.
  induction 1 as [x l|x y l Hin IH]; rewrite val_size_list_cons.
  - pose proof (val_size_pos (PList l)). lia.
  - pose proof (val_size_pos y). lia.
Qed.

Lemma val_size_dict_elem k x d : (k, x) ∈ d -> val_size x < val_size (PDict d).
Proof.
  remember (k, x) as kv eqn:E. induction 1 as [kv d|kv [k' y] d Hin IH];
    subst; rewrite val_size_dict_cons.
  - pose proof (val_size_pos (PDict d)). lia.
  - pose proof (val_size_pos y). specialize (IH eq_refl). lia.
Qed.

Lemma wf_val_list l : wf_val (PList l) <-> Forall wf_val l.
Proof.
  induction l as [|x l IH]; simpl.
  - split; [constructor|done].
  - rewrite Forall_cons. simpl in IH. by rewrite IH.
Qed.

Lemma wf_val_dict d :
  wf_val (PDict d)
  <-> NoDup (map fst d) /\ Forall (fun kv => wf_val (snd kv)) d.
Proof.
  change (wf_val (PDict d)) with
    (NoDup (map fst d)
     /\ (fix all (d : list (string * pyval)) : Prop :=
           match d with
           | [] => True
           | (_, x) :: d' => wf_val x /\ all d'
           end) d).
  apply and_iff_compat_l.
  induction d as [|[k x] d IH]; simpl.
  - split; [constructor|done].
  - rewrite Forall_cons. simpl. by rewrite IH.
Qed.

Lemma digit_starts_value c r : is_digit c = true -> starts_value (String c r) = true.
Proof. destruct c as [[] [] [] [] [] [] [] []]; done. Qed.

Lemma encode_int_starts z k : starts_value (encode_int z k) = true.
Proof.
  destruct z as [|p|p]; simpl; [done| |done].
  destruct (pos_to_uint_head p) as (c & r & -> & Hd & _).
  by apply digit_starts_value.
Qed.

Lemma encode_starts lvl v k : starts_value (encode lvl v k) = true.
Proof.
  destruct v as [|[]|z|s|[|x l]|[|[key x] d]]; try done.
  apply encode_int_starts.
Qed.

Lemma skip_ws_starts s : starts_value s = true -> skip_ws s = s.
Proof.
  destruct s as [|c s]; simpl; [done|]. by destruct (is_ws c).
Qed.

Lemma skip_ws_indent n s : skip_ws (indent n s) = skip_ws s.
Proof. induction n as [|n IH]; simpl; [done|]. exact IH. Qed.

Lemma skip_ws_newline_indent n s : skip_ws (newline_indent n s) = skip_ws s.
Proof. unfold newline_indent. simpl. apply skip_ws_indent. Qed.

Lemma dict_of_members_acc ms (acc : Dict.t) :
  NoDup (map fst ms) ->
  (forall k, k ∈ map fst ms -> Dict.lookup k acc = None) ->
  fold_left (fun d kv => Dict.set (fst kv) (snd kv) d) ms acc = acc ++ ms.
Proof.
  revert acc. induction ms as [|[k v] ms IH]; intros acc Hnd Hacc; simpl.
  - by rewrite List.app_nil_r.
  - apply NoDup_cons in Hnd as [Hk Hnd].
    rewrite dict_set_fresh by (apply Hacc; left).
    rewrite IH; [by rewrite <- List.app_assoc|done|].
    intros k' Hk'. rewrite dict_lookup_snoc_ne by (intros ->; done).
    apply Hacc. by right.
Qed.

Lemma dict_of_members_NoDup ms :
  NoDup (map fst ms) -> dict_of_members ms = ms.
Proof.
  intros Hnd. unfold dict_of_members. by rewrite dict_of_members_acc.
Qed.

Lemma parse_items_encode f lvl l x k n :
  (forall y, y ∈ x :: l -> forall k', ends_number k' = true ->
     parse_value f (encode (S lvl) y k') = Some (y, k')) ->
  length l < n ->
  parse_items (parse_value f) n
    (encode (S lvl) x (encode_items (encode (S lvl)) lvl l k))
  = Some (x :: l, k).
Proof.
  revert x n. induction l as [|y l IH]; intros x n Hpv Hn;
    (destruct n as [|n]; [simpl in Hn; lia|]); simpl parse_items.
  - rewrite (Hpv x) by (left || done). simpl encode_items.
    rewrite skip_ws_newline_indent. reflexivity.
  - rewrite (Hpv x) by (left || reflexivity).
    simpl. rewrite skip_ws_indent.
    rewrite skip_ws_starts by apply encode_starts.
    rewrite IH; [done| |simpl in Hn; lia].
    intros z Hz. apply Hpv. by right.
Qed.

Lemma parse_members_encode f lvl d kv k n :
  (forall key y, (key, y) ∈ kv :: d -> forall k', ends_number k' = true ->
     parse_value f (encode (S lvl) y k') = Some (y, k')) ->
  length d < n ->
  parse_members (parse_value f) n
    (encode_member (encode (S lvl)) kv
       (encode_members (encode (S lvl)) lvl d k))
  = Some (kv :: d, k).
Proof.
  revert kv n. induction d as [|kv' d IH]; intros [key x] n Hpv Hn;
    (destruct n as [|n]; [simpl in Hn; lia|]);
    unfold encode_member, encode_str; simpl parse_members;
    rewrite parse_str_escape; simpl.
  - rewrite skip_ws_starts by apply encode_starts.
    rewrite (Hpv key x) by (left || done).
    rewrite skip_ws_newline_indent. reflexivity.
  - rewrite skip_ws_starts by apply encode_starts.
    rewrite (Hpv key x) by (left || reflexivity).
    simpl. rewrite skip_ws_indent.
    change (skip_ws (encode_member (encode (S lvl)) kv'
                       (encode_members (encode (S lvl)) lvl d k)))
      with (encode_member (encode (S lvl)) kv'
              (encode_members (encode (S lvl)) lvl d k)).
    rewrite IH; [done| |simpl in Hn; lia].
    intros key' z Hz. apply (Hpv key'). by right.
Qed.

Lemma parse_value_digit fuel c r :
  is_digit c = true ->
  parse_value (S fuel) (String c r) = parse_number (String c r).
Proof. destruct c as [[] [] [] [] [] [] [] []]; done. Qed.

Lemma parse_value_encode_int fuel z k :
  ends_number k = true ->
  parse_value (S fuel) (encode_int z k) = Some (PInt z, k).
Proof.
  intros Hk. rewrite <- (parse_number_encode_int z k Hk).
  destruct z as [|p|p]; [done| |done]. simpl.
  destruct (pos_to_uint_head p) as (c & r & -> & Hd & _).
  by apply parse_value_digit.
Qed.

Lemma parse_value_encode v :
  wf_val v ->
  forall lvl k fuel,
    val_size v < fuel -> ends_number k = true ->
    parse_value fuel (encode lvl v k) = Some (v, k).
Proof.
  induction v as [|b|z|s|l IH|d IH] using pyval_nested_ind;
    intros Hwf lvl k fuel Hfuel Hk;
    (destruct fuel as [|fuel]; [lia|]).
  - reflexivity.
  - by destruct b.
  - by apply parse_value_encode_int.
  - simpl. unfold encode_str. simpl. by rewrite parse_str_escape.
  - destruct l as [|x l]; [reflexivity|].
    apply wf_val_list in Hwf.
    change (encode lvl (PList (x :: l)) k)
      with (String "[" (newline_indent (S lvl)
              (encode (S lvl) x (encode_items (encode (S lvl)) lvl l k)))).
    assert (parse_items (parse_value fuel) fuel
              (encode (S lvl) x (encode_items (encode (S lvl)) lvl l k))
            = Some (x :: l, k)) as Hitems.
    { apply parse_items_encode.
      - intros y Hy k' Hk'.
        rewrite Forall_forall in IH. apply IH; [done| |  |done].
        + rewrite Forall_forall in Hwf. by apply Hwf.
        + apply val_size_list_elem in Hy. lia.
      - pose proof (val_size_list_length (x :: l)). simpl length in *. lia. }
    simpl parse_value. rewrite skip_ws_indent.
    rewrite skip_ws_starts by apply encode_starts.
    pose proof (encode_starts (S lvl) x
                  (encode_items (encode (S lvl)) lvl l k)) as Hs.
    destruct (encode (S lvl) x _) as [|c r] eqn:E; [done|].
    simpl in Hs. destruct (Ascii.eqb c "]"); [by rewrite andb_false_r in Hs|].
    by rewrite Hitems.
  - destruct d as [|[key x] d]; [reflexivity|].
    apply wf_val_dict in Hwf as [Hnd Hwf].
    change (encode lvl (PDict ((key, x) :: d)) k)
      with (String "{" (newline_indent (S lvl)
              (encode_member (encode (S lvl)) (key, x)
                 (encode_members (encode (S lvl)) lvl d k)))).
    assert (parse_members (parse_value fuel) fuel
              (encode_member (encode (S lvl)) (key, x)
                 (encode_members (encode (S lvl)) lvl d k))
            = Some ((key, x) :: d, k)) as Hmembers.
    { apply parse_members_encode.
      - intros key' y Hy k' Hk'.
        rewrite Forall_forall in IH. apply (IH (key', y)); [done| | |done].
        + rewrite Forall_forall in Hwf. by apply (Hwf (key', y)).
        + apply val_size_dict_elem in Hy. simpl snd. lia.
      - pose proof (val_size_dict_length ((key, x) :: d)). simpl length in *. lia. }
    simpl parse_value. rewrite skip_ws_indent.
    change (skip_ws (encode_member (encode (S lvl)) (key, x)
                       (encode_members (encode (S lvl)) lvl d k)))
      with (encode_member (encode (S lvl)) (key, x)
              (encode_members (encode (S lvl)) lvl d k)).
    rewrite Hmembers. by rewrite dict_of_members_NoDup.
Qed.

(** *** The fuel [loads] takes is enough *)

Lemma length_append (a b : string) :
  String.length (a +:+ b) = String.length a + String.length b.
Proof. induction a as [|c a IH]; simpl; [done|]. by rewrite IH. Qed.

Lemma length_escape_char c k : String.length k < String.length (escape_char c k).
Proof.
  destruct c as [[] [] [] [] [] [] [] []]; simpl; lia.
Qed.

Lemma length_escape s k : String.length k <= String.length (escape s k).
Proof.
  induction s as [|c s IH]; simpl; [done|].
  pose proof (length_escape_char c (escape s k)). lia.
Qed.

Lemma length_encode_str s k :
  String.length k + 2 <= String.length (encode_str s k).
Proof.
  unfold encode_str. simpl. pose proof (length_escape s (String quote k)).
  simpl in *. lia.
Qed.

Lemma length_encode_int z k :
  String.length k + 1 <= String.length (encode_int z k).
Proof.
  destruct z as [|p|p]; simpl; [lia| |];
    destruct (pos_to_uint_head p) as (c & r & E & _);
    rewrite length_append, E; simpl; lia.
Qed.

Lemma length_indent n k : String.length k <= String.length (indent n k).
Proof. induction n as [|n IH]; simpl; lia. Qed.

Lemma length_newline_indent n k :
  String.length k + 1 <= String.length (newline_indent n k).
Proof. unfold newline_indent. simpl. pose proof (length_indent n k). lia. Qed.

Ltac len :=
  change (val_size (PList [])) with 1 in *;
  change (val_size (PDict [])) with 1 in *;
  simpl String.length in *;
  repeat match goal with
         | |- context [String.length (indent ?n ?s)] =>
             lazymatch goal with
             | _ : String.length s <= String.length (indent n s) |- _ => fail
             | _ => pose proof (length_indent n s)
             end
         end;
  lia.

Lemma val_size_le_length v :
  forall lvl k, val_size v + String.length k <= String.length (encode lvl v k).
Proof.
  induction v as [|b|z|s|l IH|d IH] using pyval_nested_ind; intros lvl k.
  - simpl. lia.
  - destruct b; simpl; lia.
  - pose proof (length_encode_int z k). simpl in *. lia.
  - pose proof (length_encode_str s k). simpl in *. lia.
  - destruct l as [|x l]; [simpl; lia|].
    change (encode lvl (PList (x :: l)) k)
      with (String "[" (newline_indent (S lvl)
              (encode (S lvl) x (encode_items (encode (S lvl)) lvl l k)))).
    apply Forall_cons in IH as [IHx IHl].
    assert (val_size (PList l) + String.length k
            <= String.length (encode_items (encode (S lvl)) lvl l k)) as Hl.
    { clear IHx. induction l as [|y l IHl']; simpl encode_items.
      - pose proof (length_newline_indent lvl (String "]" k)). len.
      - apply Forall_cons in IHl as [IHy IHl]. specialize (IHl' IHl).
        rewrite val_size_list_cons.
        pose proof (length_newline_indent (S lvl)
          (encode (S lvl) y (encode_items (encode (S lvl)) lvl l k))).
        specialize (IHy (S lvl) (encode_items (encode (S lvl)) lvl l k)).
        len. }
    rewrite val_size_list_cons.
    pose proof (length_newline_indent (S lvl)
      (encode (S lvl) x (encode_items (encode (S lvl)) lvl l k))).
    specialize (IHx (S lvl) (encode_items (encode (S lvl)) lvl l k)).
    len.
  - destruct d as [|[key x] d]; [simpl; lia|].
    change (encode lvl (PDict ((key, x) :: d)) k)
      with (String "{" (newline_indent (S lvl)
              (encode_member (encode (S lvl)) (key, x)
                 (encode_members (encode (S lvl)) lvl d k)))).
    apply Forall_cons in IH as [IHx IHd]. simpl in IHx.
    assert (forall y k', (forall lvl k, val_size y + String.length k
                            <= String.length (encode lvl y k)) ->
              forall key', val_size y + String.length k'
              <= String.length (encode_member (encode (S lvl)) (key', y) k'))
      as Hmember.
    { intros y k' Hy key'. unfold encode_member. simpl fst; simpl snd.
      pose proof (length_encode_str key'
        (String ":" (String " " (encode (S lvl) y k')))).
      specialize (Hy (S lvl) k'). simpl String.length in *. lia. }
    assert (val_size (PDict d) + String.length k
            <= String.length (encode_members (encode (S lvl)) lvl d k)) as Hd.
    { clear IHx. induction d as [|[key' y] d IHd']; simpl encode_members.
      - pose proof (length_newline_indent lvl (String "}" k)). len.
      - apply Forall_cons in IHd as [IHy IHd]. specialize (IHd' IHd).
        rewrite val_size_dict_cons.
        pose proof (length_newline_indent (S lvl)
          (encode_member (encode (S lvl)) (key', y)
             (encode_members (encode (S lvl)) lvl d k))).
        pose proof (Hmember y (encode_members (encode (S lvl)) lvl d k)
                      IHy key').
        len. }
    rewrite val_size_dict_cons.
    pose proof (length_newline_indent (S lvl)
      (encode_member (encode (S lvl)) (key, x)
         (encode_members (encode (S lvl)) lvl d k))).
    pose proof (Hmember x (encode_members (encode (S lvl)) lvl d k) IHx key).
    len.
Qed.

(** A well-formed value written by [dumps] is read back by [loads]. *)
Lemma loads_dumps v : wf_val v -> loads (dumps v) = Returns v.
Proof.
  intros Hwf. unfold loads, dumps.
  rewrite skip_ws_starts by apply encode_starts.
  rewrite (parse_value_encode v Hwf); [done| |done].
  pose proof (val_size_le_length v 0 ""). lia.
Qed.

(** ** Saving and loading *)

Lemma check_document_returns d doc :
  check_document d = Returns doc -> doc = PDict d.
Proof.
  unfold check_document.
  destruct (py_getitem (PDict d) "sports") as [sports|]; [|done].
  destruct (negb (py_truthy sports)); [done|].
  destruct (py_getitem (PDict d) "generation_mode") as [mode|]; [|done].
  destruct (py_eqb mode (PStr "llm")); [|congruence].
  destruct (check_llm d); congruence.
Qed.

Lemma validate_returns self w doc w' :
  ConfigBuilder.validate self w = (Returns doc, w') ->
  exists d, doc = PDict d
            /\ builders w !! self = Some (PDict d)
            /\ w' = w
            /\ check_document d = Returns doc.
Proof.
  intros Hv. pose proof (validate_world self w) as Hw. rewrite Hv in Hw.
  simpl in Hw. subst w'.
  destruct (builders w !! self) as [c|] eqn:H.
  - destruct c as [| | | |l|d];
      try (exfalso; revert Hv;
           unfold ConfigBuilder.validate, config_getitem, get_config,
             lift, bind; simpl; rewrite H; discriminate).
    rewrite (run_validate _ _ _ H) in Hv. injection Hv as Hv.
    pose proof (check_document_returns _ _ Hv) as ->. by exists d.
  - exfalso. revert Hv.
    unfold ConfigBuilder.validate, config_getitem, get_config, lift, bind.
    simpl. rewrite H. discriminate.
Qed.

Lemma run_save self path d w :
  builders w !! self = Some (PDict d) ->
  check_document d = Returns (PDict d) ->
  ConfigBuilder.save self path w
  = (Returns path,
     World (builders w) (<[path := Json.dumps (PDict d)]> (files w))).
Proof.
  intros H Hc. unfold ConfigBuilder.save, bind.
  by rewrite (run_validate _ _ _ H), Hc.
Qed.

Lemma run_from_dict d w :
  let b := fresh (dom (builders w)) in
  ConfigBuilder.from_dict (PDict d) w = (Returns b, with_config b (PDict d) w).
Proof.
  unfold ConfigBuilder.from_dict, bind. rewrite run_new. simpl.
  unfold set_config, ret. simpl. unfold with_config. simpl.
  by rewrite insert_insert_eq.
Qed.

(* ================================================================== *)
(** * Tests of the repository, replayed on the embedding *)
(* ================================================================== *)

(** [test_with_sports_normalizes_case] *)
Example test_with_sports_normalizes_case :
  result_of (b <- ConfigBuilder.new ;;
             _ <- ConfigBuilder.with_sports b
                    (PList [PStr "BASKETBALL"; PStr "Soccer"; PStr "TenNis"]) ;;
             config_getitem b "sports")
  = Returns three_sports.
Proof. vm_compute. reflexivity. Qed.

(** [test_with_sports_strips_whitespace] *)
Example test_with_sports_strips_whitespace :
  result_of (b <- ConfigBuilder.new ;;
             _ <- ConfigBuilder.with_sports b
                    (PList [PStr " basketball "; PStr "  soccer";
                            PStr "tennis  "]) ;;
             config_getitem b "sports")
  = Returns three_sports.
Proof. vm_compute. reflexivity. Qed.

(** [test_with_sports_too_few] *)
Example test_with_sports_too_few :
  result_of (b <- ConfigBuilder.new ;;
             ConfigBuilder.with_sports b
               (PList [PStr "basketball"; PStr "soccer"]))
  = Raises (ConfigValidationError "Must specify at least 3 sports (got 2)").
Proof. vm_compute. reflexivity. Qed.

(** [test_with_sports_too_many] *)
Example test_with_sports_too_many :
  result_of (b <- ConfigBuilder.new ;;
             ConfigBuilder.with_sports b
               (PList [PStr "a"; PStr "b"; PStr "c"; PStr "d"; PStr "e";
                       PStr "f"]))
  = Raises (ConfigValidationError "Cannot specify more than 5 sports (got 6)").
Proof. vm_compute. reflexivity. Qed.

(** [test_with_sports_duplicates], with the list of the specification. *)
Example test_with_sports_duplicates :
  result_of (b <- ConfigBuilder.new ;;
             ConfigBuilder.with_sports b
               (PList [PStr "Basketball"; PStr "basketball"; PStr "tennis"]))
  = Raises (ConfigValidationError "Sports list contains duplicates").
Proof. vm_compute. reflexivity. Qed.

(** [test_with_sports_empty_string] *)
Example test_with_sports_empty_string :
  result_of (b <- ConfigBuilder.new ;;
             ConfigBuilder.with_sports b
               (PList [PStr "basketball"; PStr ""; PStr "tennis"]))
  = Raises (ConfigValidationError "Sports list contains empty values").
Proof. vm_compute. reflexivity. Qed.

(** [test_with_sports_not_list] *)
Example test_with_sports_not_list :
  result_of (b <- ConfigBuilder.new ;;
             ConfigBuilder.with_sports b (PStr "basketball,soccer,tennis"))
  = Raises (ConfigValidationError "Sports must be a list").
Proof. vm_compute. reflexivity. Qed.

(** [test_with_generation_mode_invalid] *)
Example test_with_generation_mode_invalid :
  result_of (b <- ConfigBuilder.new ;;
             ConfigBuilder.with_generation_mode b "invalid")
  = Raises (ConfigValidationError
              "Invalid generation mode: invalid. Must be one of: template, llm").
Proof. vm_compute. reflexivity. Qed.

(** [test_with_llm_provider_invalid] *)
Example test_with_llm_provider_invalid :
  result_of (b <- ConfigBuilder.new ;;
             ConfigBuilder.with_llm_provider b "openai")
  = Raises (ConfigValidationError
              ("Invalid LLM provider: openai. "
               +:+ "Must be one of: together, huggingface")).
Proof. vm_compute. reflexivity. Qed.

(** [test_with_llm_model] *)
Example test_with_llm_model :
  result_of (b <- ConfigBuilder.new ;;
             _ <- ConfigBuilder.with_llm_model b "custom-model-name" ;;
             get_config b)
  = Returns (PDict [("sports", PList []);
                    ("retry_enabled", PBool true);
                    ("generation_mode", PStr "llm");
                    ("llm", PDict [("provider", PStr "together");
                                   ("model", PStr "custom-model-name")])]).
Proof. vm_compute. reflexivity. Qed.

(** [test_validate_missing_sports] *)
Example test_validate_missing_sports :
  result_of (b <- ConfigBuilder.new ;; ConfigBuilder.validate b)
  = Raises (ConfigValidationError "Sports list is required").
Proof. vm_compute. reflexivity. Qed.

(** [test_validate_llm_mode_requires_config]: the test writes the mode into
    the document itself. *)
Example test_validate_llm_mode_requires_config :
  result_of (b <- ConfigBuilder.new ;;
             _ <- ConfigBuilder.with_sports b three_sports ;;
             _ <- config_setitem b "generation_mode" (PStr "llm") ;;
             ConfigBuilder.validate b)
  = Raises (ConfigValidationError "LLM configuration required for LLM mode").
Proof. vm_compute. reflexivity. Qed.

(** [test_validate_llm_mode_requires_provider] *)
Example test_validate_llm_mode_requires_provider :
  result_of (b <- ConfigBuilder.new ;;
             _ <- ConfigBuilder.with_sports b three_sports ;;
             _ <- ConfigBuilder.with_generation_mode b "llm" ;;
             _ <- config_setitem2 b "llm" "provider" PNone ;;
             ConfigBuilder.validate b)
  = Raises (ConfigValidationError "LLM provider is required for LLM mode").
Proof. vm_compute. reflexivity. Qed.

(** [test_validate_llm_mode_requires_model] *)
Example test_validate_llm_mode_requires_model :
  result_of (b <- ConfigBuilder.new ;;
             _ <- ConfigBuilder.with_sports b three_sports ;;
             _ <- ConfigBuilder.with_generation_mode b "llm" ;;
             _ <- config_setitem2 b "llm" "model" PNone ;;
             ConfigBuilder.validate b)
  = Raises (ConfigValidationError "LLM model is required for LLM mode").
Proof. vm_compute. reflexivity. Qed.

(** [test_save_creates_file]: the file read back as JSON is the document in
    ["template"] mode, without an [llm] block. *)
Example test_save_creates_file :
  result_of (b <- ConfigBuilder.new ;;
             _ <- ConfigBuilder.with_sports b three_sports ;;
             path <- ConfigBuilder.save b "test_config.json" ;;
             text <- read_file path ;;
             lift (Json.loads text))
  = Returns (PDict [("sports", three_sports);
                    ("retry_enabled", PBool true);
                    ("generation_mode", PStr "template")]).
Proof. vm_compute. reflexivity. Qed.

(** The text [save] writes for that document, line by line. *)
Example test_save_text :
  result_of (b <- ConfigBuilder.new ;;
             _ <- ConfigBuilder.with_sports b three_sports ;;
             path <- ConfigBuilder.save b "test_config.json" ;;
             read_file path)
  = Returns
      (PyStr.join (String Json.newline EmptyString)
         ["{";
          "  " +:+ SkillHelpers.q +:+ "sports" +:+ SkillHelpers.q +:+ ": [";
          "    " +:+ SkillHelpers.q +:+ "basketball" +:+ SkillHelpers.q +:+ ",";
          "    " +:+ SkillHelpers.q +:+ "soccer" +:+ SkillHelpers.q +:+ ",";
          "    " +:+ SkillHelpers.q +:+ "tennis" +:+ SkillHelpers.q;
          "  ],";
          "  " +:+ SkillHelpers.q +:+ "retry_enabled" +:+ SkillHelpers.q
            +:+ ": true,";
          "  " +:+ SkillHelpers.q +:+ "generation_mode" +:+ SkillHelpers.q
            +:+ ": " +:+ SkillHelpers.q +:+ "template" +:+ SkillHelpers.q;
          "}"]).
Proof. vm_compute. reflexivity. Qed.

(** [test_modify_and_resave]: save, load, change the mode and the provider,
    save again and load. *)
Example test_modify_and_resave :
  result_of (b1 <- ConfigBuilder.new ;;
             _ <- ConfigBuilder.with_sports b1 three_sports ;;
             _ <- ConfigBuilder.save b1 "config.json" ;;
             b2 <- ConfigBuilder.load "config.json" ;;
             _ <- ConfigBuilder.with_generation_mode b2 "llm" ;;
             _ <- ConfigBuilder.with_llm_provider b2 "together" ;;
             _ <- ConfigBuilder.save b2 "config.json" ;;
             b3 <- ConfigBuilder.load "config.json" ;;
             get_config b3)
  = Returns (PDict [("sports", three_sports);
                    ("retry_enabled", PBool true);
                    ("generation_mode", PStr "llm");
                    ("llm", ConfigBuilder.DEFAULT_LLM_CONFIG)]).
Proof. vm_compute. reflexivity. Qed.

(** Beyond the data model: on a document without a ["sports"] key, as
    [from_dict] may wrap, [validate] fails with Python's own [KeyError]. *)
Example validate_without_sports_key :
  result_of (b <- ConfigBuilder.from_dict
                    (PDict [("generation_mode", PStr "llm")]) ;;
             ConfigBuilder.validate b)
  = Raises (KeyError "sports").
Proof. vm_compute. reflexivity. Qed.

(** Beyond the tests: a builder taken to ["llm"] mode and back to
    ["template"] keeps its [llm] block; [validate] accepts the document,
    [save] writes it and [load] reads it back. *)
Example template_mode_after_llm_mode :
  result_of (b1 <- ConfigBuilder.new ;;
             _ <- ConfigBuilder.with_sports b1 three_sports ;;
             _ <- ConfigBuilder.with_generation_mode b1 "llm" ;;
             _ <- ConfigBuilder.with_generation_mode b1 "template" ;;
             _ <- ConfigBuilder.validate b1 ;;
             _ <- ConfigBuilder.save b1 "config.json" ;;
             b2 <- ConfigBuilder.load "config.json" ;;
             get_config b2)
  = Returns (PDict [("sports", three_sports);
                    ("retry_enabled", PBool true);
                    ("generation_mode", PStr "template");
                    ("llm", ConfigBuilder.DEFAULT_LLM_CONFIG)]).
Proof. vm_compute. reflexivity. Qed.

(** [test_load_default_missing] *)
Example test_load_default_missing :
  exists msg,
    result_of (ConfigBuilder.load_default "nonexistent.json")
    = Raises (FileNotFoundError msg)
    /\ PyStr.contains "Default config not found" msg = true.
Proof. eexists. split; vm_compute; reflexivity. Qed.

(** [test_no_changes] and [test_single_change] *)
Example test_no_changes :
  compute_changes_from_default base_doc base_doc = ([], []).
Proof. vm_compute. reflexivity. Qed.

Example test_single_change :
  compute_changes_from_default base_doc
    (Dict.set "generation_mode" (PStr "llm") base_doc)
  = (["generation_mode"],
     [("generation_mode", change_entry (PStr "template") (PStr "llm"))]).
Proof. vm_compute. reflexivity. Qed.

(** [test_create_generator_script_llm_mode] and
    [test_complete_template_mode_workflow]: what the tests look for in the
    script of the model. *)
Example test_create_generator_script_llm_mode :
  let script :=
    SkillHelpers.create_generator_script ["hockey"; "swimming"; "volleyball"]
      "llm" "together" "meta-llama/Llama-3.3-70B-Instruct-Turbo-Free" true
      "20251115_130000" in
  forallb (fun part => PyStr.contains part script)
    ["#!/usr/bin/env python3";
     "from config_builder import ConfigBuilder";
     "builder = ConfigBuilder.load_default()";
     "with_sports(['hockey', 'swimming', 'volleyball'])";
     "with_generation_mode(" +:+ SkillHelpers.q +:+ "llm" +:+ SkillHelpers.q
       +:+ ")";
     "with_llm_provider(" +:+ SkillHelpers.q +:+ "together" +:+ SkillHelpers.q
       +:+ ")";
     "with_llm_model(" +:+ SkillHelpers.q
       +:+ "meta-llama/Llama-3.3-70B-Instruct-Turbo-Free" +:+ SkillHelpers.q
       +:+ ")";
     "datetime.now().strftime";
     "new_config_path = ";
     "builder.save("]
  = true.
Proof. vm_compute. reflexivity. Qed.

Example test_create_generator_script_template_mode :
  PyStr.contains "with_generation_mode"
    (SkillHelpers.create_generator_script ["basketball"; "soccer"; "tennis"]
       "template" "together" "meta-llama/Llama-3.3-70B-Instruct-Turbo-Free"
       true "20251115_120000")
  = false.
Proof. vm_compute. reflexivity. Qed.

(* ================================================================== *)
(** * The claims *)
(* ================================================================== *)

(** C1.  A list of three to five strings, pairwise distinct and none empty
    once stripped and lower-cased, is accepted by [with_sports]: the call
    returns the builder it was made on, the ["sports"] field of that builder's
    document then holds exactly the normalized strings in the order given, and
    the other fields are as they were. *)
Theorem with_sports_stores_normalized w self d ss :
  builders w !! self = Some (PDict d) ->
  valid_sports ss ->
  exists w' d',
    ConfigBuilder.with_sports self (PList (map PStr ss)) w = (Returns self, w')
    /\ builders w' !! self = Some (PDict d')
    /\ Dict.lookup "sports" d'
       = Some (PList (map PStr (map PyStr.normalize ss)))
    /\ forall k, k <> "sports" -> Dict.lookup k d' = Dict.lookup k d.
Proof.
  intros Hself Hvalid.
  destruct (valid_sports_checks ss Hvalid) as (H1 & H2 & H3 & H4).
  eexists _, _. rewrite run_with_sports_strs, H1, H2, H3, H4.
  rewrite (bind_returns _ _ _ _ _ (run_config_setitem _ _ _ _ _ Hself)).
  split; [reflexivity|]. split; [apply with_config_lookup|].
  split; [apply dict_lookup_set_eq|].
  intros k Hk. by apply dict_lookup_set_ne.
Qed.

(** The theorem on a new builder and three sports that need normalizing. *)
Lemma with_sports_stores_normalized_witness :
  exists w' d',
    ConfigBuilder.with_sports 0 (PList (map PStr sample_sports)) w_new
    = (Returns 0, w')
    /\ builders w' !! 0 = Some (PDict d')
    /\ Dict.lookup "sports" d'
       = Some (PList (map PStr (map PyStr.normalize sample_sports)))
    /\ forall k, k <> "sports"
         -> Dict.lookup k d'
            = Dict.lookup k [("sports", PList []); ("retry_enabled", PBool true);
                             ("generation_mode", PStr "template")].
Proof.
  apply (with_sports_stores_normalized w_new 0 _ sample_sports).
  - reflexivity.
  - split; [simpl; lia|]. split; compute_done.
Defined.

(** C2, as stated, fails: a list of three integers is not a list of strings,
    and [with_sports] raises [AttributeError] on it, not a validation
    error. *)
Lemma with_sports_non_string_entry :
  ConfigBuilder.with_sports 0 three_integers w_new
  = (Raises AttributeError, w_new)
  /\ ~ (is_validation_error
          (fst (ConfigBuilder.with_sports 0 three_integers w_new)) = true
        <-> spec_rejects three_integers).
Proof.
  split; [vm_compute; reflexivity|].
  intros [_ H]. specialize (H I). vm_compute in H. discriminate H.
Qed.

(** C2, amended.  [with_sports] raises a validation error exactly when its
    argument is not a list, or is a list of fewer than three or more than five
    items, or is a list of three to five strings two of which are equal, or
    one of which is empty, once normalized.  When the length is wrong the
    message contains the length.  (A list of three to five items one of which
    is not a string is thus not rejected with a validation error.) *)
Theorem with_sports_validation_error_iff self sports w :
  (is_validation_error (fst (ConfigBuilder.with_sports self sports w)) = true
   <-> code_rejects sports)
  /\ (forall l, sports = PList l -> length l < 3 \/ 5 < length l ->
      exists msg,
        ConfigBuilder.with_sports self sports w
        = (Raises (ConfigValidationError msg), w)
        /\ PyStr.contains (PyStr.of_nat (length l)) msg = true).
Proof.
  split.
  - destruct sports as [| | | |l|]; try done.
    unfold code_rejects.
    destruct (decide (length l < 3)) as [Hlo|Hlo].
    { unfold ConfigBuilder.with_sports, ConfigBuilder.MIN_SPORTS.
      rewrite (proj2 (Nat.ltb_lt _ _) Hlo). simpl. tauto. }
    destruct (decide (5 < length l)) as [Hhi|Hhi].
    { unfold ConfigBuilder.with_sports, ConfigBuilder.MIN_SPORTS,
        ConfigBuilder.MAX_SPORTS.
      rewrite (proj2 (Nat.ltb_ge _ _)) by lia.
      rewrite (proj2 (Nat.ltb_lt _ _) Hhi). simpl. tauto. }
    destruct (strings_of l) as [ss|] eqn:Hss.
    + apply strings_of_Some in Hss as ->. rewrite length_map in Hlo, Hhi.
      rewrite run_with_sports_strs.
      rewrite (proj2 (Nat.ltb_ge _ _)) by lia.
      rewrite (proj2 (Nat.ltb_ge _ _)) by lia.
      rewrite ?length_map.
      destruct (length ss =? _) eqn:Hdup; cbn [negb].
      * rewrite <- (length_map PyStr.normalize ss) in Hdup.
        apply len_set_NoDup in Hdup.
        destruct (existsb _ _) eqn:Hemp; simpl.
        -- apply existsb_empty, Exists_normalize_empty in Hemp.
           split; [|done]. intros _. right; right. exists ss. tauto.
        -- unfold bind at 1.
           pose proof (config_setitem_no_validation_error self "sports"
             (PList (map PStr (map PyStr.normalize ss))) w) as Hno.
           destruct (config_setitem _ _ _ w) as [[[]|e] w']; simpl in Hno |- *.
           ++ split; [done|]. intros [?|[?|(ss' & [= <-] & [?|Hex])]];
                [lia|lia|done|].
              apply Exists_normalize_empty, existsb_empty in Hex. congruence.
           ++ rewrite Hno. split; [done|].
              intros [?|[?|(ss' & [= <-] & [?|Hex])]]; [lia|lia|done|].
              apply Exists_normalize_empty, existsb_empty in Hex. congruence.
      * simpl. split; [|done]. intros _. right; right. exists ss. split; [done|].
        left. intros Hnd. rewrite <- (length_map PyStr.normalize ss) in Hdup.
        apply len_set_NoDup in Hnd. congruence.
    + unfold ConfigBuilder.with_sports, ConfigBuilder.MIN_SPORTS,
        ConfigBuilder.MAX_SPORTS.
      rewrite (proj2 (Nat.ltb_ge _ _)) by lia.
      rewrite (proj2 (Nat.ltb_ge _ _)) by lia.
      unfold bind, lift. rewrite (comprehension_not_strs l Hss). simpl.
      split; [done|]. intros [?|[?|(ss' & [=] & _)]]; lia.
  - intros l -> Hlen. unfold ConfigBuilder.with_sports,
      ConfigBuilder.MIN_SPORTS, ConfigBuilder.MAX_SPORTS.
    destruct (length l <? 3) eqn:Hlo.
    + eexists. split; [reflexivity|]. apply too_few_msg_count.
    + apply Nat.ltb_ge in Hlo.
      rewrite (proj2 (Nat.ltb_lt _ _)) by lia.
      eexists. split; [reflexivity|]. apply too_many_msg_count.
Qed.

(** The theorem on a list of two sports: the message contains [2]. *)
Lemma with_sports_validation_error_iff_witness :
  exists msg,
    ConfigBuilder.with_sports 0 (PList [PStr "golf"; PStr "chess"]) w_new
    = (Raises (ConfigValidationError msg), w_new)
    /\ PyStr.contains (PyStr.of_nat 2) msg = true.
Proof.
  apply (proj2 (with_sports_validation_error_iff 0
                  (PList [PStr "golf"; PStr "chess"]) w_new)
           [PStr "golf"; PStr "chess"]).
  - reflexivity.
  - left. simpl. lia.
Defined.

(** C3.  On a document of the shape the data model gives it, [validate]
    raises a validation error if and only if the sports list is empty, or the
    mode is ["llm"] and there is no [llm] block, or the mode is ["llm"] and
    the provider of the block is missing or false, or the mode is ["llm"] and
    the model of the block is missing or false.  Otherwise it returns the
    document the builder holds.  Either way the world is as it was. *)
Theorem validate_raises_iff w self d :
  builders w !! self = Some (PDict d) ->
  doc_shape d ->
  (is_validation_error (fst (ConfigBuilder.validate self w)) = true
   <-> must_fail d)
  /\ (~ must_fail d ->
      ConfigBuilder.validate self w = (Returns (PDict d), w))
  /\ snd (ConfigBuilder.validate self w) = w.
Proof.
  intros Hself ([l Hsports] & [mode Hmode] & Hllm).
  rewrite (run_validate _ _ _ Hself). simpl fst; simpl snd.
  split; [|split; [|done]].
  - unfold check_document, must_fail, mode_is_llm, llm_field_falsy. simpl.
    rewrite Hsports, Hmode.
    destruct l as [|x l]; simpl; [split; [by left|done]|].
    destruct (py_eqb mode (PStr "llm")) eqn:Emode.
    + apply py_eqb_str in Emode as ->.
      unfold check_llm, Dict.mem. simpl.
      destruct (Dict.lookup "llm" d) as [v|] eqn:El; simpl.
      * destruct (Hllm v eq_refl) as [e ->]. rewrite !py_get_dict.
        destruct (py_truthy (dict_get e "provider")) eqn:Ep; simpl.
        -- destruct (py_truthy (dict_get e "model")) eqn:Em; simpl.
           ++ split; [done|].
              intros [[=]|[[_ [=]]|[[_ (e' & [= <-] & ?)]|[_ (e' & [= <-] & ?)]]]];
                congruence.
           ++ split; [|done]. intros _. right; right; right. eauto.
        -- split; [|done]. intros _. right; right; left. eauto.
      * split; [|done]. intros _. right; left. done.
    + simpl. split; [done|].
      intros [[=]|[[[= ->] _]|[[[= ->] _]|[[= ->] _]]]]; done.
  - intros Hok. unfold check_document. simpl. rewrite Hsports, Hmode.
    destruct l as [|x l]; simpl; [exfalso; apply Hok; by left|].
    destruct (py_eqb mode (PStr "llm")) eqn:Emode; [|done].
    apply py_eqb_str in Emode as ->.
    unfold check_llm, Dict.mem. simpl.
    destruct (Dict.lookup "llm" d) as [v|] eqn:El; simpl.
    + destruct (Hllm v eq_refl) as [e ->]. rewrite !py_get_dict.
      destruct (py_truthy (dict_get e "provider")) eqn:Ep; simpl.
      * destruct (py_truthy (dict_get e "model")) eqn:Em; simpl; [done|].
        exfalso. apply Hok. right; right; right.
        split; [done|]. exists e. done.
      * exfalso. apply Hok. right; right; left.
        split; [done|]. exists e. done.
    + exfalso. apply Hok. right; left. done.
Qed.

(** The theorem on a document in ["llm"] mode whose model is [None]. *)
Lemma validate_raises_iff_witness :
  (is_validation_error (fst (ConfigBuilder.validate 0 w_llm_no_model)) = true
   <-> must_fail llm_no_model)
  /\ (~ must_fail llm_no_model ->
      ConfigBuilder.validate 0 w_llm_no_model
      = (Returns (PDict llm_no_model), w_llm_no_model))
  /\ snd (ConfigBuilder.validate 0 w_llm_no_model) = w_llm_no_model.
Proof.
  apply (validate_raises_iff w_llm_no_model 0 llm_no_model).
  - reflexivity.
  - split; [by eexists|]. split; [by eexists|].
    intros v [= <-]. by eexists.
Defined.

(** C4.  The code breaks the claim.  [ConfigBuilder()] taken through
    [with_generation_mode("llm")] and [with_generation_mode("template")], two
    setter calls that succeed, holds the default [llm] block in ["template"]
    mode: the second call assigns the mode only, the block the first put in
    stays. *)
Lemma llm_block_outlives_llm_mode :
  exists self w d,
    reached any_call w_empty self w
    /\ builders w !! self = Some (PDict d)
    /\ Dict.lookup "llm" d = Some ConfigBuilder.DEFAULT_LLM_CONFIG
    /\ Dict.lookup "generation_mode" d = Some (PStr "template").
Proof.
  exists 0.
  eexists _, _. split; [|split; [|split]].
  - eapply (reached_call _ _ _ _ (WithGenerationMode "template"));
      [eapply (reached_call _ _ _ _ (WithGenerationMode "llm"));
         [apply reached_new; vm_compute; reflexivity
         |vm_compute; reflexivity|exact I|vm_compute; reflexivity]
      |vm_compute; reflexivity|exact I|vm_compute; reflexivity].
  - vm_compute. reflexivity.
  - reflexivity.
  - reflexivity.
Qed.

(** C5.  When [validate] accepts the document of a builder (a document whose
    dictionaries have distinct keys, as those of Python have), [save] writes
    it, [load] of the same path makes another builder, and [validate] on that
    builder accepts and returns a document equal to the one the first builder
    held, and still holds. *)
Theorem save_load_validate w self doc w' path :
  ConfigBuilder.validate self w = (Returns doc, w') ->
  wf_val doc ->
  exists w1 b w2,
    ConfigBuilder.save self path w = (Returns path, w1)
    /\ ConfigBuilder.load path w1 = (Returns b, w2)
    /\ ConfigBuilder.validate b w2 = (Returns doc, w2)
    /\ builders w2 !! b = Some doc
    /\ b <> self
    /\ builders w2 !! self = Some doc.
Proof.
  intros Hv Hwf.
  destruct (validate_returns _ _ _ _ Hv) as (d & -> & H & -> & Hc).
  eexists _, _, _. rewrite (run_save _ _ _ _ H Hc). split; [reflexivity|].
  unfold ConfigBuilder.load, bind at 1, read_file. simpl.
  rewrite lookup_insert_eq. unfold bind at 1, lift.
  rewrite (loads_dumps _ Hwf). rewrite run_from_dict. simpl.
  split; [reflexivity|].
  rewrite (run_validate _ d) by apply with_config_lookup.
  rewrite Hc. split; [reflexivity|]. split; [apply with_config_lookup|].
  assert (fresh (dom (builders w)) <> self) as Hne.
  { intros Heq. apply (is_fresh (dom (builders w))). rewrite Heq.
    apply elem_of_dom. by eexists. }
  split; [exact Hne|]. unfold with_config. simpl.
  by rewrite lookup_insert_ne.
Qed.

(** The theorem on a builder with three sports and the path [config.json]. *)
Lemma save_load_validate_witness :
  exists w1 b w2,
    ConfigBuilder.save 0 "config.json" w_ready = (Returns "config.json", w1)
    /\ ConfigBuilder.load "config.json" w1 = (Returns b, w2)
    /\ ConfigBuilder.validate b w2 = (Returns doc_ready, w2)
    /\ builders w2 !! b = Some doc_ready
    /\ b <> 0
    /\ builders w2 !! 0 = Some doc_ready.
Proof.
  apply (save_load_validate w_ready 0 doc_ready w_ready "config.json").
  - vm_compute. reflexivity.
  - simpl. repeat split. compute_done.
Defined.

(** C6.  On a new builder [with_generation_mode("llm")] puts in the block with
    provider ["together"] and a model whose name contains ["Llama"].  On any
    document, a second such call changes nothing, and a call made when the
    block is there writes the mode and leaves the block as it is; so a
    provider set by [with_llm_provider] is still there after it. *)
Theorem llm_mode_injects_default_once :
  (forall w,
     exists self w1 w2 d,
       ConfigBuilder.new w = (Returns self, w1)
       /\ ConfigBuilder.with_generation_mode self "llm" w1 = (Returns self, w2)
       /\ builders w2 !! self = Some (PDict d)
       /\ Dict.lookup "generation_mode" d = Some (PStr "llm")
       /\ exists block model,
            Dict.lookup "llm" d = Some (PDict block)
            /\ Dict.lookup "provider" block = Some (PStr "together")
            /\ Dict.lookup "model" block = Some (PStr model)
            /\ PyStr.contains "Llama" model = true)
  /\ (forall w self d r w1,
        builders w !! self = Some (PDict d) ->
        ConfigBuilder.with_generation_mode self "llm" w = (Returns r, w1) ->
        ConfigBuilder.with_generation_mode self "llm" w1 = (Returns self, w1))
  /\ (forall w self d block,
        builders w !! self = Some (PDict d) ->
        Dict.lookup "llm" d = Some block ->
        ConfigBuilder.with_generation_mode self "llm" w
        = (Returns self,
           with_config self
             (PDict (Dict.set "generation_mode" (PStr "llm") d)) w))
  /\ (forall w self d provider r w1,
        builders w !! self = Some (PDict d) ->
        ConfigBuilder.with_llm_provider self provider w = (Returns r, w1) ->
        exists w2 d2 block,
          ConfigBuilder.with_generation_mode self "llm" w1 = (Returns self, w2)
          /\ builders w2 !! self = Some (PDict d2)
          /\ Dict.lookup "llm" d2 = Some (PDict block)
          /\ Dict.lookup "provider" block = Some (PStr provider)).
Proof.
  split; [|split; [|split]].
  - intros w. eexists _, _, _, _. rewrite run_new. split; [reflexivity|].
    unfold ConfigBuilder.init_config.
    rewrite (run_with_generation_mode _ "llm" _ _
               (with_config_lookup _ _ _)). simpl.
    rewrite with_config_twice. split; [reflexivity|].
    split; [apply with_config_lookup|]. split; [reflexivity|].
    eexists _, _. repeat split; reflexivity.
  - intros w self d r w1 H.
    rewrite (run_with_generation_mode _ "llm" _ _ H). simpl.
    intros [= <- <-].
    rewrite (run_with_generation_mode _ "llm" _ _
               (with_config_lookup _ _ _)). simpl.
    rewrite with_config_twice.
    rewrite (dict_set_same "generation_mode" (PStr "llm") (ensure_llm _))
      by (rewrite lookup_ensure_llm_other by done; apply dict_lookup_set_eq).
    by rewrite ensure_llm_idem.
  - intros w self d block H Hb.
    rewrite (run_with_generation_mode _ "llm" _ _ H). simpl.
    rewrite (ensure_llm_present _ block); [done|].
    by rewrite dict_lookup_set_ne.
  - intros w self d provider r w1 H.
    rewrite (run_with_llm_provider _ provider _ _ H). simpl.
    destruct (_ || _); [|done].
    destruct (set_llm_field "provider" (PStr provider) d) as [d1|e] eqn:E;
      [|done].
    intros [= <- <-].
    destruct (set_llm_field_frame _ _ _ _ E) as (_ & e & _ & Hl & Hm).
    rewrite (run_with_generation_mode _ "llm" _ _
               (with_config_lookup _ _ _)). simpl.
    rewrite with_config_twice. eexists _, _, _. split; [reflexivity|].
    split; [apply with_config_lookup|].
    rewrite (ensure_llm_present _ (PDict (Dict.set "provider" (PStr provider) e)))
      by (by rewrite dict_lookup_set_ne).
    rewrite dict_lookup_set_ne by done. split; [exact Hl|]. apply dict_lookup_set_eq.
Qed.

(** The last part of the theorem on a new builder and ["huggingface"]. *)
Lemma llm_mode_injects_default_once_witness :
  exists w2 d2 block,
    ConfigBuilder.with_generation_mode 0 "llm" w_provider = (Returns 0, w2)
    /\ builders w2 !! 0 = Some (PDict d2)
    /\ Dict.lookup "llm" d2 = Some (PDict block)
    /\ Dict.lookup "provider" block = Some (PStr "huggingface").
Proof.
  eapply (proj2 (proj2 (proj2 llm_mode_injects_default_once))
            w_new 0 _ "huggingface" 0 w_provider).
  - reflexivity.
  - vm_compute. reflexivity.
Defined.

(** C7, as stated, fails: [validate] accepts a document with one sport,
    taken as it is by [from_dict]. *)
Lemma validate_accepts_one_sport :
  exists b w,
    ConfigBuilder.from_dict one_sport_doc w_empty = (Returns b, w)
    /\ ConfigBuilder.validate b w = (Returns one_sport_doc, w)
    /\ py_getitem one_sport_doc "sports" = Returns (PList [PStr "golf"])
    /\ ~ valid_sports ["golf"].
Proof.
  eexists _, _. split; [vm_compute; reflexivity|].
  split; [vm_compute; reflexivity|]. split; [reflexivity|].
  intros ([Hlo _] & _). simpl in Hlo. lia.
Qed.

(** C7, amended.  The document [validate] accepts has a sports value that is
    not empty, whatever builder holds it.  On a builder made by
    [ConfigBuilder()] and setter calls, it has three to five sports, distinct
    and none empty once normalized. *)
Theorem validated_sports_are_valid :
  (forall w self doc w',
     ConfigBuilder.validate self w = (Returns doc, w') ->
     exists d sports,
       doc = PDict d
       /\ Dict.lookup "sports" d = Some sports
       /\ py_truthy sports = true)
  /\ (forall w0 self w doc w',
        reached any_call w0 self w ->
        ConfigBuilder.validate self w = (Returns doc, w') ->
        exists d ss,
          doc = PDict d
          /\ Dict.lookup "sports" d = Some (PList (map PStr ss))
          /\ valid_sports ss).
Proof.
  split.
  - intros w self doc w' Hv.
    destruct (validate_returns _ _ _ _ Hv) as (d & -> & _ & _ & Hc).
    exists d. unfold check_document in Hc. simpl in Hc.
    destruct (Dict.lookup "sports" d) as [sports|]; [|done].
    exists sports. by destruct (py_truthy sports).
  - intros w0 self w doc w' Hr Hv.
    destruct (reached_invariant any_call
                (fun d => exists ss,
                   Dict.lookup "sports" d = Some (PList (map PStr ss))
                   /\ (ss = [] \/ valid_sports ss))
                w0 self w) as (d & Hd & ss & Hs & Hss); [| |done|].
    + intros d [= <-]. exists []. split; [done|]. by left.
    + intros op d d' _ (ss & Hs & Hss) Happ.
      destruct op as [sports|enabled|mode|provider|model]; simpl in Happ.
      * destruct (check_sports sports) as [ns|] eqn:E; [|done].
        injection Happ as <-. exists ns. rewrite dict_lookup_set_eq.
        split; [done|]. right. by apply (check_sports_valid sports).
      * injection Happ as <-. exists ss. by rewrite dict_lookup_set_ne.
      * exists ss. split; [|done].
        destruct (String.eqb mode "template");
          [|destruct (String.eqb mode "llm"); [|done]]; injection Happ as <-.
        -- by rewrite dict_lookup_set_ne.
        -- by rewrite lookup_ensure_llm_other, dict_lookup_set_ne.
      * destruct (_ || _); [|done]. exists ss. split; [|done].
        destruct (set_llm_field_frame _ _ _ _ Happ) as (Hk & _).
        by rewrite Hk.
      * exists ss. split; [|done].
        destruct (set_llm_field_frame _ _ _ _ Happ) as (Hk & _).
        by rewrite Hk.
    + rewrite (run_validate _ _ _ Hd) in Hv. injection Hv as Hv _.
      unfold check_document in Hv. simpl in Hv. rewrite Hs in Hv.
      destruct Hss as [->|Hvalid]; [done|].
      exists d, ss. split; [|done].
      destruct ss; simpl in Hv; [by destruct Hvalid as ([? _] & _)|].
      destruct (Dict.lookup "generation_mode" d); [|done].
      destruct (py_eqb _ _); [|congruence].
      destruct (check_llm d); congruence.
Qed.

(** The second part of the theorem on a new builder after [with_sports] on
    three sports. *)
Lemma validated_sports_are_valid_witness :
  exists d ss,
    doc_ready = PDict d
    /\ Dict.lookup "sports" d = Some (PList (map PStr ss))
    /\ valid_sports ss.
Proof.
  apply (proj2 validated_sports_are_valid w_empty 0 w_ready doc_ready w_ready).
  - eapply (reached_call _ _ _ _
              (WithSports (PList [PStr "Golf"; PStr " chess"; PStr "POLO "]))).
    + apply reached_new. vm_compute. reflexivity.
    + vm_compute. reflexivity.
    + exact I.
    + vm_compute. reflexivity.
  - vm_compute. reflexivity.
Defined.

(** C8.  A setter that raises leaves the world, and so the document, as it
    found it; so does [save] when it raises, and [validate] and [save] never
    change a document.  A setter that returns has written its own field and,
    besides, at most the [llm] block: a block that was there keeps every field
    but the one the setter is for, a block that was not there is either still
    missing or the default block with, at most, that one field changed. *)
Theorem operations_are_atomic self op w :
  (forall e w', call self op w = (Raises e, w') -> w' = w)
  /\ (forall path e w',
        ConfigBuilder.save self path w = (Raises e, w') -> w' = w)
  /\ (forall path, builders (snd (ConfigBuilder.save self path w)) = builders w)
  /\ snd (ConfigBuilder.validate self w) = w
  /\ (forall d r w',
        builders w !! self = Some (PDict d) ->
        call self op w = (Returns r, w') ->
        exists d',
          w' = with_config self (PDict d') w
          /\ (forall k, k <> written_key op -> k <> "llm" ->
                Dict.lookup k d' = Dict.lookup k d)
          /\ llm_frame op d d').
Proof.
  split; [intros e w'; apply call_raises|].
  split; [intros path e w'; apply save_raises|].
  split; [intros path; apply save_builders|].
  split; [apply validate_world|].
  intros d r w' H. rewrite (run_call _ _ _ _ H).
  destruct (apply_setter op d) as [d'|e] eqn:E; [|done].
  intros [= <- <-]. exists d'. split; [done|].
  by apply apply_setter_frame.
Qed.

(** The first part of the theorem on a call with a mode that does not
    exist. *)
Lemma operations_are_atomic_witness :
  snd (call 0 (WithGenerationMode "fast") w_ready) = w_ready.
Proof.
  apply (proj1 (operations_are_atomic 0 (WithGenerationMode "fast") w_ready)
           (ConfigValidationError
              "Invalid generation mode: fast. Must be one of: template, llm")).
  vm_compute. reflexivity.
Defined.

(** C9.  The keys reported are the keys of the candidate whose value differs
    from the base's (a key the base lacks counting as [None] there), in the
    candidate's order; each is mapped to the old and the new value; a key of
    the base alone is never reported; and nothing is reported when the two
    agree on every key of the candidate. *)
Theorem changes_are_the_differing_keys base cand :
  NoDup (Dict.keys cand) ->
  let result := compute_changes_from_default base cand in
  fst result = List.filter (differs base cand) (Dict.keys cand)
  /\ snd result = map (change_of base cand) (fst result)
  /\ (forall k, k ∈ fst result -> k ∈ Dict.keys cand)
  /\ ((forall k, k ∈ Dict.keys cand ->
         py_eqb (dict_get base k) (dict_item cand k) = true) ->
      result = ([], [])).
Proof.
  intros Hnd. cbv zeta. unfold compute_changes_from_default.
  rewrite changes_fold by done. simpl.
  split; [done|]. split; [done|]. split.
  - intros k Hk. apply list_elem_of_In, filter_In in Hk as [Hk _].
    by apply list_elem_of_In.
  - intros Hagree.
    assert (List.filter (differs base cand) (Dict.keys cand) = []) as ->; [|done].
    clear Hnd. revert Hagree. generalize (Dict.keys cand). intros ks.
    induction ks as [|k ks IH]; intros Hagree; simpl; [done|].
    unfold differs at 1. rewrite Hagree by left. simpl.
    apply IH. intros k' Hk'. apply Hagree. by right.
Qed.

(** The theorem on a candidate that changes the mode and adds a field. *)
Lemma changes_are_the_differing_keys_witness :
  NoDup (Dict.keys cand_doc)
  /\ compute_changes_from_default base_doc cand_doc
     = (["generation_mode"; "retry_enabled"],
        [("generation_mode", change_entry (PStr "template") (PStr "llm"));
         ("retry_enabled", change_entry PNone (PBool true))]).
Proof.
  assert (NoDup (Dict.keys cand_doc)) as Hnd by compute_done.
  split; [exact Hnd|].
  destruct (changes_are_the_differing_keys base_doc cand_doc Hnd)
    as (Hfst & Hsnd & _).
  rewrite (surjective_pairing (compute_changes_from_default base_doc cand_doc)).
  rewrite Hsnd, Hfst. reflexivity.
Defined.

(** C10.  In a script made for a mode other than ["llm"], ["template"] among
    them, no line calls the provider setter or the model setter; in a script
    made for ["llm"] mode exactly one line calls each, with the provider and
    the model put between the quotes as they were given. *)
Theorem generator_llm_calls sports provider model retry timestamp :
  (forall mode, mode <> "llm" ->
     List.filter is_provider_call
       (generator_lines sports mode provider model retry timestamp) = []
     /\ List.filter is_model_call
          (generator_lines sports mode provider model retry timestamp) = [])
  /\ List.filter is_provider_call
       (generator_lines sports "template" provider model retry timestamp) = []
  /\ List.filter is_model_call
       (generator_lines sports "template" provider model retry timestamp) = []
  /\ List.filter is_provider_call
       (generator_lines sports "llm" provider model retry timestamp)
     = ["builder.with_llm_provider(" +:+ q +:+ provider +:+ q +:+ ")"]
  /\ List.filter is_model_call
       (generator_lines sports "llm" provider model retry timestamp)
     = ["builder.with_llm_model(" +:+ q +:+ model +:+ q +:+ ")"].
Proof.
  assert (forall mode, mode <> "llm" ->
     List.filter is_provider_call
       (generator_lines sports mode provider model retry timestamp) = []
     /\ List.filter is_model_call
          (generator_lines sports mode provider model retry timestamp) = [])
    as Hother.
  { intros mode Hmode. unfold generator_lines.
    destruct (String.eqb mode "llm") eqn:E.
    { apply String.eqb_eq in E. done. }
    by destruct retry. }
  split; [done|]. split; [by apply Hother|]. split; [by apply Hother|].
  unfold generator_lines. simpl String.eqb. cbv iota.
  split.
  - destruct retry; reflexivity.
  - destruct retry; reflexivity.
Qed.

(** The first part of the theorem on ["template"] mode. *)
Lemma generator_llm_calls_witness :
  List.filter SkillHelpers.is_provider_call
    (SkillHelpers.generator_lines ["golf"; "chess"; "polo"] "template"
       "together" "m" true "20251115_120000") = []
  /\ List.filter SkillHelpers.is_model_call
       (SkillHelpers.generator_lines ["golf"; "chess"; "polo"] "template"
          "together" "m" true "20251115_120000") = [].
Proof.
  apply (proj1 (generator_llm_calls ["golf"; "chess"; "polo"] "together" "m"
                  true "20251115_120000") "template").
  discriminate.
Defined.

(* ================================================================== *)
(** * Further properties of the code *)
(* ================================================================== *)

(** The properties below are read off the code alone.  They cover the
    setters one by one and in sequence, loading, the text that is saved, the
    interactive program and the command line, and what the methods do to
    objects that are shared. *)

(** ** Setters: helper lemmas *)

Lemma check_document_set_retry v d :
  check_document (Dict.set "retry_enabled" v d)
  = match check_document d with
    | Returns _ => Returns (PDict (Dict.set "retry_enabled" v d))
    | Raises e => Raises e
    end.
Proof.
  unfold check_document, check_llm, py_getitem, Dict.mem.
  rewrite !dict_lookup_set_ne by done.
  destruct (Dict.lookup "sports" d) as [sports|]; [|done].
  destruct (negb (py_truthy sports)); [done|].
  destruct (Dict.lookup "generation_mode" d) as [mode|]; [|done].
  destruct (py_eqb mode (PStr "llm")); [|done].
  destruct (Dict.lookup "llm" d) as [llm|]; [|done]. simpl.
  destruct (py_get llm "provider") as [p|]; [|done].
  destruct (negb (py_truthy p)); [done|].
  destruct (py_get llm "model") as [m|]; [|done].
  by destruct (negb (py_truthy m)).
Qed.

Lemma existsb_eqb_elem (x : string) (l : list string) :
  existsb (String.eqb x) l = true <-> x ∈ l.
Proof.
  rewrite existsb_exists. split.
  - intros (y & Hin & E). apply String.eqb_eq in E as ->.
    by apply list_elem_of_In.
  - intros Hin. exists x. split; [by apply list_elem_of_In|].
    apply String.eqb_refl.
Qed.

Lemma contains_append_l (sub a s : string) :
  PyStr.contains sub s = true -> PyStr.contains sub (a +:+ s) = true.
Proof.
  intros H. induction a as [|x a IH]; [done|].
  change (String x a +:+ s) with (String x (a +:+ s)).
  simpl PyStr.contains. rewrite IH. apply orb_true_r.
Qed.

Lemma contains_refl (s : string) : PyStr.contains s s = true.
Proof.
  apply contains_prefix. rewrite <- (append_empty_r s) at 2.
  apply prefix_append.
Qed.

Lemma set_llm_field_no_validation_error f v d :
  is_validation_error (set_llm_field f v d) = false.
Proof.
  unfold set_llm_field.
  by destruct (Dict.lookup "llm" (ensure_llm d)) as [[]|].
Qed.

(** A setter raises a validation error on the strength of its argument
    alone: the document plays no part. *)
Lemma apply_setter_validation_error op d d' :
  is_validation_error (apply_setter op d)
  = is_validation_error (apply_setter op d').
Proof.
  destruct op as [sports|enabled|mode|provider|model]; simpl.
  - by destruct (check_sports sports) as [ns|[]].
  - done.
  - destruct (String.eqb mode "template"); [done|].
    by destruct (String.eqb mode "llm").
  - destruct (_ || _); [|done].
    by rewrite !set_llm_field_no_validation_error.
  - by rewrite !set_llm_field_no_validation_error.
Qed.

Lemma call_validation_error self op w :
  is_validation_error (fst (call self op w))
  = is_validation_error (apply_setter op []).
Proof.
  destruct (builders w !! self) as [c|] eqn:H.
  - destruct c as [|b|z|s|l|d].
    6: { rewrite (run_call _ _ _ _ H).
         rewrite (apply_setter_validation_error op [] d).
         by destruct (apply_setter op d). }
    all: destruct op as [sports|enabled|mode|provider|model]; simpl;
      try (run_prims; rewrite ?H; simpl; rewrite ?H; reflexivity).
    all: try (unfold ConfigBuilder.with_sports, check_sports,
                ConfigBuilder.MIN_SPORTS, ConfigBuilder.MAX_SPORTS;
              destruct sports as [| | | |l0|]; try reflexivity;
              destruct (length l0 <? 3); [reflexivity|];
              destruct (5 <? length l0); [reflexivity|];
              unfold bind at 1, lift;
              destruct (comprehension py_strip_lower l0) as [ns|[]];
                try reflexivity;
              destruct (negb _); [reflexivity|];
              destruct (existsb _ ns); [reflexivity|];
              run_prims; rewrite H; reflexivity).
    all: try (run_prims; destruct (String.eqb mode "template");
              [simpl; rewrite H; reflexivity|];
              destruct (String.eqb mode "llm"); simpl; rewrite ?H; reflexivity).
    all: try (run_prims; rewrite orb_false_r;
              destruct (_ || _); simpl; rewrite ?H; simpl; rewrite ?H;
              reflexivity).
    all: run_prims; rewrite ?orb_false_r;
      try (destruct (String.eqb provider "together"
                     || String.eqb provider "huggingface"); [|reflexivity]);
      simpl; rewrite H; simpl;
      match goal with
      | |- context [negb ?b] => destruct b
      end; simpl; rewrite H; reflexivity.
  - destruct op as [sports|enabled|mode|provider|model]; simpl.
    + unfold ConfigBuilder.with_sports, check_sports,
        ConfigBuilder.MIN_SPORTS, ConfigBuilder.MAX_SPORTS.
      destruct sports as [| | | |l0|]; try reflexivity.
      destruct (length l0 <? 3); [reflexivity|].
      destruct (5 <? length l0); [reflexivity|].
      unfold bind at 1, lift.
      destruct (comprehension py_strip_lower l0) as [ns|[]]; try reflexivity.
      destruct (negb _); [reflexivity|].
      destruct (existsb _ ns); [reflexivity|].
      run_prims. by rewrite H.
    + run_prims. by rewrite H.
    + run_prims. destruct (String.eqb mode "template");
        [simpl; by rewrite H|].
      destruct (String.eqb mode "llm"); simpl; by rewrite ?H.
    + run_prims. rewrite orb_false_r.
      destruct (_ || _); simpl; by rewrite ?H.
    + run_prims. by rewrite H.
Qed.

Lemma mode_valid_eqb mode :
  mode ∈ ConfigBuilder.VALID_GENERATION_MODES
  <-> String.eqb mode "template" || String.eqb mode "llm" = true.
Proof.
  rewrite <- existsb_eqb_elem. simpl. by rewrite orb_false_r.
Qed.

Lemma provider_valid_eqb provider :
  provider ∈ ConfigBuilder.VALID_LLM_PROVIDERS
  <-> String.eqb provider "together" || String.eqb provider "huggingface"
      = true.
Proof.
  rewrite <- existsb_eqb_elem. simpl. by rewrite orb_false_r.
Qed.

Lemma set_llm_field_cases f v d :
  match Dict.lookup "llm" d with
  | None =>
      exists e d',
        ConfigBuilder.DEFAULT_LLM_CONFIG = PDict e
        /\ set_llm_field f v d = Returns d'
        /\ Dict.lookup "llm" d' = Some (PDict (Dict.set f v e))
        /\ Dict.lookup "generation_mode" d' = Some (PStr "llm")
  | Some (PDict e) =>
      exists d',
        set_llm_field f v d = Returns d'
        /\ Dict.lookup "llm" d' = Some (PDict (Dict.set f v e))
        /\ Dict.lookup "generation_mode" d' = Some (PStr "llm")
  | Some _ => set_llm_field f v d = Raises TypeError
  end.
Proof.
  unfold set_llm_field. rewrite lookup_ensure_llm.
  destruct (Dict.lookup "llm" d) as [llm|] eqn:E; simpl.
  - destruct llm as [|b|z|s|l|e]; try done.
    eexists. split; [done|]. split; [|apply dict_lookup_set_eq].
    rewrite dict_lookup_set_ne by done. apply dict_lookup_set_eq.
  - eexists _, _. split; [done|]. split; [done|].
    split; [|apply dict_lookup_set_eq].
    rewrite dict_lookup_set_ne by done. apply dict_lookup_set_eq.
Qed.

Lemma llm_setter_effect_intro f v self d w :
  llm_setter_effect f v self d w
    match set_llm_field f v d with
    | Returns d' => (Returns self, with_config self (PDict d') w)
    | Raises e => (Raises e, w)
    end.
Proof.
  unfold llm_setter_effect. pose proof (set_llm_field_cases f v d) as H.
  destruct (Dict.lookup "llm" d) as [llm|].
  - destruct llm as [|b|z|s|l|e]; try (by rewrite H).
    destruct H as (d' & -> & H). by exists d'.
  - destruct H as (e & d' & He & -> & H). by exists e, d'.
Qed.

(** A setter that returns was called on a builder whose document is a
    dictionary. *)
Lemma call_returns_dict self op w r w' :
  call self op w = (Returns r, w') ->
  exists d, builders w !! self = Some (PDict d).
Proof.
  destruct (builders w !! self) as [c|] eqn:H.
  - destruct c as [|b|z|s|l|d]; [| | | | |by exists d].
    all: destruct op as [sports|enabled|mode|provider|model]; simpl;
      try (run_prims; rewrite ?H; simpl; rewrite ?H; discriminate).
    all: try (unfold ConfigBuilder.with_sports;
              destruct sports as [| | | |l0|]; try discriminate;
              destruct (length l0 <? _); [discriminate|];
              destruct (_ <? length l0); [discriminate|];
              unfold bind at 1, lift;
              destruct (comprehension py_strip_lower l0) as [ns|[]];
                try discriminate;
              destruct (negb _); [discriminate|];
              destruct (existsb _ ns); [discriminate|];
              run_prims; rewrite H; discriminate).
    all: try (run_prims; destruct (negb _); [discriminate|];
              rewrite ?H; simpl; rewrite ?H; discriminate).
    all: run_prims; try (destruct (negb (_ || _)); [discriminate|]);
      rewrite H; simpl;
      match goal with
      | |- context [negb ?b] => destruct b
      end; simpl; rewrite H; discriminate.
  - destruct op as [sports|enabled|mode|provider|model]; simpl.
    + unfold ConfigBuilder.with_sports.
      destruct sports as [| | | |l0|]; try discriminate.
      destruct (length l0 <? _); [discriminate|].
      destruct (_ <? length l0); [discriminate|].
      unfold bind at 1, lift.
      destruct (comprehension py_strip_lower l0) as [ns|[]]; try discriminate.
      destruct (negb _); [discriminate|].
      destruct (existsb _ ns); [discriminate|].
      run_prims. by rewrite H.
    + run_prims. by rewrite H.
    + run_prims. destruct (negb _); [discriminate|]. by rewrite H.
    + run_prims. destruct (negb _); [discriminate|]. by rewrite H.
    + run_prims. by rewrite H.
Qed.

Lemma dict_set_comm k1 k2 v1 v2 d :
  k1 <> k2 ->
  is_Some (Dict.lookup k1 d) ->
  Dict.set k1 v1 (Dict.set k2 v2 d) = Dict.set k2 v2 (Dict.set k1 v1 d).
Proof.
  intros Hne. induction d as [|[k v] d IH]; simpl.
  - by intros [? [=]].
  - destruct (String.eqb k1 k) eqn:E1.
    + apply String.eqb_eq in E1 as <-. intros _.
      destruct (String.eqb k2 k1) eqn:E2.
      { apply String.eqb_eq in E2. congruence. }
      simpl. by rewrite String.eqb_refl, E2.
    + intros Hs. destruct (String.eqb k2 k) eqn:E2; simpl.
      * destruct (String.eqb k1 k2) eqn:E3;
          [apply String.eqb_eq in E3; congruence|].
        by rewrite ?E1, ?E2.
      * by rewrite E1, E2, IH.
Qed.

Lemma lookup_set_is_Some k k' v d :
  is_Some (Dict.lookup k d) -> is_Some (Dict.lookup k (Dict.set k' v d)).
Proof.
  intros H. destruct (decide (k' = k)) as [->|Hne].
  - by rewrite dict_lookup_set_eq.
  - by rewrite dict_lookup_set_ne.
Qed.

Lemma dict_set_set k v v' d :
  Dict.set k v (Dict.set k v' d) = Dict.set k v d.
Proof.
  induction d as [|[k0 v0] d IH]; simpl.
  - by rewrite String.eqb_refl.
  - destruct (String.eqb k k0) eqn:E; simpl.
    + by rewrite String.eqb_refl.
    + by rewrite E, IH.
Qed.

(** Two calls of LLM setters in a row, as one update of the document. *)
Lemma set_llm_field_twice f v f' v' d e :
  default ConfigBuilder.DEFAULT_LLM_CONFIG (Dict.lookup "llm" d) = PDict e ->
  exists d1,
    set_llm_field f v d = Returns d1
    /\ set_llm_field f' v' d1
       = Returns (Dict.set "generation_mode" (PStr "llm")
                    (Dict.set "llm" (PDict (Dict.set f' v' (Dict.set f v e)))
                       (ensure_llm d))).
Proof.
  intros He. eexists. split.
  - unfold set_llm_field. by rewrite lookup_ensure_llm, He.
  - unfold set_llm_field at 1.
    rewrite (ensure_llm_present _ (PDict (Dict.set f v e))).
    2: { rewrite dict_lookup_set_ne by done. apply dict_lookup_set_eq. }
    rewrite dict_lookup_set_ne by done. rewrite dict_lookup_set_eq.
    f_equal.
    rewrite (dict_set_comm "llm" "generation_mode").
    + by rewrite !dict_set_set.
    + done.
    + rewrite dict_lookup_set_eq. by eexists.
Qed.

Lemma set_llm_field_raises f v d :
  (forall e,
     default ConfigBuilder.DEFAULT_LLM_CONFIG (Dict.lookup "llm" d)
     <> PDict e) ->
  set_llm_field f v d = Raises TypeError.
Proof.
  intros H. unfold set_llm_field. rewrite lookup_ensure_llm.
  destruct (default _ _) as [| | | | |e]; try done. by destruct (H e).
Qed.

Lemma built_shape_init d : ConfigBuilder.init_config = PDict d -> built_shape d.
Proof.
  intros [= <-]. split; [|split].
  - exists []. split; [done|]. by left.
  - by left.
  - intros v [=].
Qed.

Lemma built_shape_llm_field f v d d' :
  built_shape d ->
  set_llm_field f v d = Returns d' ->
  (forall p m,
     exists p' m',
       Dict.set f v [("provider", PStr p); ("model", PStr m)]
       = [("provider", PStr p'); ("model", PStr m')]
       /\ (p ∈ ConfigBuilder.VALID_LLM_PROVIDERS ->
           p' ∈ ConfigBuilder.VALID_LLM_PROVIDERS)) ->
  built_shape d'.
Proof.
  intros (Hs & Hm & Hl) E Hset.
  destruct (set_llm_field_frame _ _ _ _ E) as (Hk & e & He & Hl' & Hm').
  split; [|split].
  - by rewrite Hk.
  - right. split; [done|]. by rewrite Hl'.
  - intros v0. rewrite Hl'. intros [= <-].
    assert (exists p m,
              e = [("provider", PStr p); ("model", PStr m)]
              /\ p ∈ ConfigBuilder.VALID_LLM_PROVIDERS) as (p & m & -> & Hp).
    { destruct (Dict.lookup "llm" d) as [llm|]; simpl in He.
      - destruct (Hl llm eq_refl) as (p & m & -> & Hp).
        injection He as <-. by exists p, m.
      - injection He as <-. eexists _, _. split; [done|].
        apply provider_valid_eqb. done. }
    destruct (Hset p m) as (p' & m' & -> & Hp'). exists p', m'. auto.
Qed.

Lemma built_shape_step op d d' :
  built_shape d -> apply_setter op d = Returns d' -> built_shape d'.
Proof.
  intros HP. pose proof HP as (Hs & Hm & Hl).
  destruct op as [sports|enabled|mode|provider|model]; simpl.
  - destruct (check_sports sports) as [ns|] eqn:E; [|done]. intros [= <-].
    split; [|split].
    + exists ns. rewrite dict_lookup_set_eq. split; [done|]. right.
      by apply (check_sports_valid sports).
    + by rewrite !dict_lookup_set_ne.
    + intros v. by rewrite dict_lookup_set_ne; [apply Hl|].
  - intros [= <-]. split; [|split].
    + by rewrite dict_lookup_set_ne.
    + by rewrite !dict_lookup_set_ne.
    + intros v. by rewrite dict_lookup_set_ne; [apply Hl|].
  - destruct (String.eqb mode "template") eqn:Et.
    + apply String.eqb_eq in Et as ->. intros [= <-]. split; [|split].
      * by rewrite dict_lookup_set_ne.
      * left. apply dict_lookup_set_eq.
      * intros v. by rewrite dict_lookup_set_ne; [apply Hl|].
    + destruct (String.eqb mode "llm") eqn:El; [|done].
      apply String.eqb_eq in El as ->. intros [= <-]. split; [|split].
      * by rewrite lookup_ensure_llm_other, dict_lookup_set_ne.
      * right. split.
        -- rewrite lookup_ensure_llm_other by done. apply dict_lookup_set_eq.
        -- by rewrite lookup_ensure_llm.
      * intros v. rewrite lookup_ensure_llm, dict_lookup_set_ne by done.
        intros [= <-].
        destruct (Dict.lookup "llm" d) as [llm|]; simpl; [by apply Hl|].
        eexists _, _. split; [done|]. by apply provider_valid_eqb.
  - destruct (_ || _) eqn:Ev; [|done]. intros E.
    apply (built_shape_llm_field _ _ _ _ HP E).
    intros p m. exists provider, m. split; [done|].
    intros _. by apply provider_valid_eqb.
  - intros E. apply (built_shape_llm_field _ _ _ _ HP E).
    intros p m. exists p, model. done.
Qed.

Lemma reached_built_shape w0 self w :
  reached any_call w0 self w ->
  exists d, builders w !! self = Some (PDict d) /\ built_shape d.
Proof.
  apply reached_invariant.
  - apply built_shape_init.
  - intros op d d' _. apply built_shape_step.
Qed.

Lemma check_sports_normal sports ns :
  check_sports sports = Returns ns -> map PyStr.normalize ns = ns.
Proof.
  unfold check_sports. destruct sports as [| | | |l|]; try done.
  destruct (length l <? 3); [done|]. destruct (5 <? length l); [done|].
  destruct (strings_of l) as [ss|] eqn:Hss.
  - apply strings_of_Some in Hss as ->. rewrite comprehension_strs.
    destruct (negb _); [done|]. destruct (existsb _ _); [done|].
    intros [= <-]. apply map_normalize_idem.
  - by rewrite (comprehension_not_strs l Hss).
Qed.

Lemma ensure_llm_set_comm k v d :
  k <> "llm" ->
  is_Some (Dict.lookup k d) ->
  ensure_llm (Dict.set k v d) = Dict.set k v (ensure_llm d).
Proof.
  intros Hk Hs. unfold ensure_llm, Dict.mem.
  rewrite dict_lookup_set_ne by done.
  destruct (Dict.lookup "llm" d); [done|]. symmetry. by apply dict_set_comm.
Qed.

Lemma set_llm_field_set_comm f v k x d :
  k <> "llm" -> k <> "generation_mode" ->
  is_Some (Dict.lookup k d) ->
  set_llm_field f v (Dict.set k x d)
  = match set_llm_field f v d with
    | Returns d' => Returns (Dict.set k x d')
    | Raises e => Raises e
    end.
Proof.
  intros Hl Hm Hs. unfold set_llm_field.
  rewrite ensure_llm_set_comm, dict_lookup_set_ne by done.
  destruct (Dict.lookup "llm" (ensure_llm d)) as [[| | | | |e]|] eqn:E;
    try done.
  f_equal.
  assert (is_Some (Dict.lookup k (ensure_llm d))) as Hs'.
  { by rewrite lookup_ensure_llm_other. }
  rewrite (dict_set_comm k "generation_mode");
    [|done|by apply lookup_set_is_Some].
  by rewrite (dict_set_comm k "llm").
Qed.

(** A field written first shows through a later setter of another field. *)
Lemma apply_setter_set_comm op k x d :
  k <> written_key op -> k <> "llm" -> k <> "generation_mode" ->
  is_Some (Dict.lookup k d) ->
  apply_setter op (Dict.set k x d)
  = match apply_setter op d with
    | Returns d' => Returns (Dict.set k x d')
    | Raises e => Raises e
    end.
Proof.
  intros Hk Hl Hm Hs.
  destruct op as [sports|enabled|mode|provider|model]; simpl in *.
  - destruct (check_sports sports); [|done]. f_equal.
    symmetry. by apply dict_set_comm.
  - f_equal. symmetry. by apply dict_set_comm.
  - destruct (String.eqb mode "template").
    + f_equal. symmetry. by apply dict_set_comm.
    + destruct (String.eqb mode "llm"); [|done]. f_equal.
      rewrite <- (dict_set_comm k "generation_mode") by done.
      apply ensure_llm_set_comm; [done|by apply lookup_set_is_Some].
  - destruct (_ || _); [|done]. by apply set_llm_field_set_comm.
  - by apply set_llm_field_set_comm.
Qed.

Lemma apply_setter_idem op d d' :
  apply_setter op d = Returns d' -> apply_setter op d' = Returns d'.
Proof.
  destruct op as [sports|enabled|mode|provider|model]; simpl.
  - destruct (check_sports sports) as [ns|]; [|done].
    intros [= <-]. by rewrite dict_set_set.
  - intros [= <-]. by rewrite dict_set_set.
  - destruct (String.eqb mode "template").
    + intros [= <-]. by rewrite dict_set_set.
    + destruct (String.eqb mode "llm"); [|done]. intros [= <-]. f_equal.
      rewrite <- ensure_llm_set_comm.
      * by rewrite dict_set_set, ensure_llm_idem.
      * done.
      * by rewrite dict_lookup_set_eq.
  - destruct (_ || _); [|done]. intros E.
    destruct (default ConfigBuilder.DEFAULT_LLM_CONFIG (Dict.lookup "llm" d))
      as [| | | | |e] eqn:He;
      try (rewrite set_llm_field_raises in E by (by rewrite He); done).
    destruct (set_llm_field_twice "provider" (PStr provider)
                "provider" (PStr provider) d e He) as (d1 & E1 & E2).
    rewrite E in E1. injection E1 as <-. rewrite E2. f_equal.
    rewrite dict_set_set. revert E. unfold set_llm_field.
    rewrite lookup_ensure_llm, He. by intros [= <-].
  - intros E.
    destruct (default ConfigBuilder.DEFAULT_LLM_CONFIG (Dict.lookup "llm" d))
      as [| | | | |e] eqn:He;
      try (rewrite set_llm_field_raises in E by (by rewrite He); done).
    destruct (set_llm_field_twice "model" (PStr model)
                "model" (PStr model) d e He) as (d1 & E1 & E2).
    rewrite E in E1. injection E1 as <-. rewrite E2. f_equal.
    rewrite dict_set_set. revert E. unfold set_llm_field.
    rewrite lookup_ensure_llm, He. by intros [= <-].
Qed.

Lemma lookup_NoDup k x (d : Dict.t) :
  NoDup (map fst d) -> (k, x) ∈ d -> Dict.lookup k d = Some x.
Proof.
  induction d as [|[k' x'] d IH]; simpl.
  - intros _ H. by apply elem_of_nil in H.
  - intros Hnd Hin. apply NoDup_cons in Hnd as [Hk Hnd].
    apply elem_of_cons in Hin as [[= <- <-]|Hin].
    + by rewrite String.eqb_refl.
    + destruct (String.eqb k k') eqn:E.
      * apply String.eqb_eq in E as <-. exfalso. apply Hk.
        apply list_elem_of_fmap. by exists (k, x).
      * by apply IH.
Qed.

(** [v == v], for a value whose dictionaries have distinct keys. *)
Lemma py_eqb_refl v : wf_val v -> py_eqb v v = true.
Proof.
  induction v as [|b|z|s|l IH|d IH] using pyval_nested_ind; intros Hwf.
  - done.
  - by destruct b.
  - apply Z.eqb_refl.
  - apply String.eqb_refl.
  - apply wf_val_list in Hwf. simpl.
    induction l as [|x l IHl]; [done|].
    apply Forall_cons in IH as [IHx IH]. apply Forall_cons in Hwf as [Hx Hwf].
    rewrite IHx by done. by apply IHl.
  - apply wf_val_dict in Hwf as [Hnd Hwf]. simpl. rewrite Nat.eqb_refl.
    simpl.
    assert (forall d', d' ⊆ d ->
              (fix all (items : list (string * pyval)) : bool :=
                 match items with
                 | [] => true
                 | (k, x) :: rest =>
                     match Dict.lookup k d with
                     | Some y => py_eqb x y
                     | None => false
                     end && all rest
                 end) d' = true) as Hall; [|by apply Hall].
    intros d'. induction d' as [|[k x] d' IHd']; intros Hsub; [done|].
    assert ((k, x) ∈ d) as Hin by (apply Hsub; left).
    rewrite (lookup_NoDup _ _ _ Hnd Hin).
    rewrite Forall_forall in IH, Hwf.
    pose proof (IH _ Hin (Hwf _ Hin)) as Hx. simpl in Hx. rewrite Hx.
    simpl. apply IHd'.
    intros y Hy. apply Hsub. by right.
Qed.

Lemma lookup_wf k v (d : Dict.t) :
  wf_val (PDict d) -> Dict.lookup k d = Some v -> wf_val v.
Proof.
  intros Hwf%wf_val_dict. destruct Hwf as [_ Hwf].
  induction d as [|[k' x] d IH]; simpl; [done|].
  apply Forall_cons in Hwf as [Hx Hwf].
  destruct (String.eqb k k'); [by intros [= <-]|by apply IH].
Qed.

Lemma changes_fold_elem base cand ks acc k :
  k ∈ fst (fold_left (changes_step base cand) ks acc) ->
  k ∈ fst acc \/ differs base cand k = true.
Proof.
  revert acc. induction ks as [|k0 ks IH]; intros acc; simpl; [by left|].
  intros Hin. apply IH in Hin as [Hin|Hin]; [|by right].
  unfold changes_step in Hin. fold (differs base cand k0) in Hin.
  destruct (differs base cand k0) eqn:E; [|by left].
  simpl in Hin. apply elem_of_app in Hin as [Hin|Hin]; [by left|].
  apply list_elem_of_singleton in Hin as ->. by right.
Qed.

(** ** The setters, one by one *)

(** X1.  [with_retry] on a builder whose document is a dictionary never
    fails: it returns the builder, stores the flag and leaves every other
    field alone.  The flag plays no part in validation: [validate] raises
    afterwards what it raised before, or returns the new document. *)
Theorem with_retry_keeps_validity w self d enabled :
  builders w !! self = Some (PDict d) ->
  exists d' w',
    ConfigBuilder.with_retry self enabled w = (Returns self, w')
    /\ builders w' !! self = Some (PDict d')
    /\ Dict.lookup "retry_enabled" d' = Some (PBool enabled)
    /\ (forall k, k <> "retry_enabled" -> Dict.lookup k d' = Dict.lookup k d)
    /\ fst (ConfigBuilder.validate self w')
       = match fst (ConfigBuilder.validate self w) with
         | Returns _ => Returns (PDict d')
         | Raises e => Raises e
         end.
Proof.
  intros H. eexists _, _.
  split; [apply (run_call self (WithRetry enabled) d w H)|].
  split; [apply with_config_lookup|].
  split; [apply dict_lookup_set_eq|].
  split; [intros k Hk; by apply dict_lookup_set_ne|].
  rewrite (run_validate _ _ _ (with_config_lookup _ _ _)),
    (run_validate _ _ _ H). simpl. apply check_document_set_retry.
Qed.

(** The theorem on a builder with three sports, retry switched off. *)
Lemma with_retry_keeps_validity_witness :
  exists d' w',
    ConfigBuilder.with_retry 0 false w_ready = (Returns 0, w')
    /\ builders w' !! 0 = Some (PDict d')
    /\ Dict.lookup "retry_enabled" d' = Some (PBool false)
    /\ (forall k, k <> "retry_enabled" ->
          Dict.lookup k d' = Dict.lookup k ready_items)
    /\ fst (ConfigBuilder.validate 0 w')
       = match fst (ConfigBuilder.validate 0 w_ready) with
         | Returns _ => Returns (PDict d')
         | Raises e => Raises e
         end.
Proof.
  apply (with_retry_keeps_validity w_ready 0 ready_items false).
  reflexivity.
Defined.

(** X2.  [with_generation_mode] raises a validation error exactly for a
    mode that is neither ["template"] nor ["llm"], on any builder; the
    message then names the mode given and the two modes accepted, and nothing
    has changed.  With one of the two modes, on a document that is a
    dictionary, the call returns the builder and the mode is stored. *)
Theorem with_generation_mode_rejects_unknown_modes self mode w :
  (is_validation_error
     (fst (ConfigBuilder.with_generation_mode self mode w)) = true
   <-> mode ∉ ConfigBuilder.VALID_GENERATION_MODES)
  /\ (mode ∉ ConfigBuilder.VALID_GENERATION_MODES ->
      exists msg,
        ConfigBuilder.with_generation_mode self mode w
        = (Raises (ConfigValidationError msg), w)
        /\ PyStr.contains mode msg = true
        /\ PyStr.contains "template, llm" msg = true)
  /\ (forall d,
        builders w !! self = Some (PDict d) ->
        mode ∈ ConfigBuilder.VALID_GENERATION_MODES ->
        exists d',
          ConfigBuilder.with_generation_mode self mode w
          = (Returns self, with_config self (PDict d') w)
          /\ Dict.lookup "generation_mode" d' = Some (PStr mode)).
Proof.
  split; [|split].
  - change (ConfigBuilder.with_generation_mode self mode w)
      with (call self (WithGenerationMode mode) w).
    rewrite call_validation_error.
    rewrite mode_valid_eqb. simpl.
    destruct (String.eqb mode "template"); simpl; [split; [done|tauto]|].
    destruct (String.eqb mode "llm"); simpl; [split; [done|tauto]|].
    split; [discriminate|done].
  - intros Hni. unfold ConfigBuilder.with_generation_mode.
    destruct (existsb _ _) eqn:E; [by apply existsb_eqb_elem in E|].
    simpl negb. cbv iota. eexists. split; [reflexivity|]. split.
    + apply contains_middle.
    + do 4 apply contains_append_l. reflexivity.
  - intros d H Hin. rewrite (run_with_generation_mode _ _ _ _ H). simpl.
    apply mode_valid_eqb in Hin.
    destruct (String.eqb mode "template") eqn:Et.
    + eexists. split; [done|]. apply dict_lookup_set_eq.
    + simpl in Hin. rewrite Hin. eexists. split; [done|].
      rewrite lookup_ensure_llm_other by done. apply dict_lookup_set_eq.
Qed.

(** X3.  [with_llm_provider] raises a validation error exactly for a
    provider that is neither ["together"] nor ["huggingface"], on any builder;
    the message names the provider given and the two accepted, and nothing
    has changed.  With an accepted provider, on a document that is a
    dictionary: without an [llm] block the default block is put in with the
    provider replaced; a block that is a dictionary gets the provider; in
    both cases the mode becomes ["llm"]; a block that is not a dictionary
    makes the call raise [TypeError], nothing changed. *)
Theorem with_llm_provider_checks_then_writes self provider w :
  (is_validation_error
     (fst (ConfigBuilder.with_llm_provider self provider w)) = true
   <-> provider ∉ ConfigBuilder.VALID_LLM_PROVIDERS)
  /\ (provider ∉ ConfigBuilder.VALID_LLM_PROVIDERS ->
      exists msg,
        ConfigBuilder.with_llm_provider self provider w
        = (Raises (ConfigValidationError msg), w)
        /\ PyStr.contains provider msg = true
        /\ PyStr.contains "together, huggingface" msg = true)
  /\ (forall d,
        builders w !! self = Some (PDict d) ->
        provider ∈ ConfigBuilder.VALID_LLM_PROVIDERS ->
        llm_setter_effect "provider" (PStr provider) self d w
          (ConfigBuilder.with_llm_provider self provider w)).
Proof.
  split; [|split].
  - change (ConfigBuilder.with_llm_provider self provider w)
      with (call self (WithLlmProvider provider) w).
    rewrite call_validation_error, provider_valid_eqb. cbn [apply_setter].
    destruct (_ || _).
    + rewrite set_llm_field_no_validation_error. split; [done|tauto].
    + split; [discriminate|done].
  - intros Hni. unfold ConfigBuilder.with_llm_provider.
    destruct (existsb _ _) eqn:E; [by apply existsb_eqb_elem in E|].
    simpl negb. cbv iota. eexists. split; [reflexivity|]. split.
    + apply contains_middle.
    + do 4 apply contains_append_l. reflexivity.
  - intros d H Hin. rewrite (run_with_llm_provider _ _ _ _ H). simpl.
    apply provider_valid_eqb in Hin. rewrite Hin.
    apply llm_setter_effect_intro.
Qed.

(** X4.  [with_llm_model] never raises a validation error, whatever the
    model and the builder.  On a document that is a dictionary it does to the
    ["model"] field what [with_llm_provider] does to ["provider"]. *)
Theorem with_llm_model_accepts_any_string self model w :
  is_validation_error (fst (ConfigBuilder.with_llm_model self model w)) = false
  /\ (forall d,
        builders w !! self = Some (PDict d) ->
        llm_setter_effect "model" (PStr model) self d w
          (ConfigBuilder.with_llm_model self model w)).
Proof.
  split.
  - change (ConfigBuilder.with_llm_model self model w)
      with (call self (WithLlmModel model) w).
    rewrite call_validation_error. cbn [apply_setter].
    apply set_llm_field_no_validation_error.
  - intros d H.
    change (ConfigBuilder.with_llm_model self model w)
      with (call self (WithLlmModel model) w).
    rewrite (run_call _ _ _ _ H). simpl.
    apply llm_setter_effect_intro.
Qed.

(** ** The setters together *)

(** X5.  [with_llm_model] accepts the empty string, [validate] does not:
    on a builder that has sports and whose [llm] block is missing or has a
    provider, [validate] after [with_llm_model(model)] raises ["LLM model is
    required for LLM mode"] when [model] is empty and returns the document
    otherwise. *)
Theorem model_decides_validation w self d model :
  builders w !! self = Some (PDict d) ->
  (exists sports,
     Dict.lookup "sports" d = Some sports /\ py_truthy sports = true) ->
  (Dict.lookup "llm" d = None
   \/ exists e, Dict.lookup "llm" d = Some (PDict e)
                /\ py_truthy (dict_get e "provider") = true) ->
  exists d',
    let w' := with_config self (PDict d') w in
    ConfigBuilder.with_llm_model self model w = (Returns self, w')
    /\ ConfigBuilder.validate self w'
       = (if String.eqb model ""
          then Raises (ConfigValidationError
                         "LLM model is required for LLM mode")
          else Returns (PDict d'),
          w').
Proof.
  intros H (sports & Hs & Hts) Hllm.
  change (ConfigBuilder.with_llm_model self model w)
    with (call self (WithLlmModel model) w).
  rewrite (run_call _ _ _ _ H). cbn [apply_setter].
  assert (exists e,
            default ConfigBuilder.DEFAULT_LLM_CONFIG (Dict.lookup "llm" d)
            = PDict e
            /\ py_truthy (dict_get e "provider") = true) as (e & He & Hp).
  { destruct Hllm as [->|(e & -> & Hp)]; eexists; split; done. }
  destruct (set_llm_field "model" (PStr model) d) as [d'|err] eqn:E.
  2: { exfalso. revert E. unfold set_llm_field.
       rewrite lookup_ensure_llm, He. done. }
  exists d'. simpl. split; [done|].
  rewrite (run_validate _ _ _ (with_config_lookup _ _ _)). f_equal.
  destruct (set_llm_field_frame _ _ _ _ E) as (Hk & e' & He' & Hl & Hm).
  rewrite He in He'. injection He' as <-.
  unfold check_document, check_llm, py_getitem, Dict.mem.
  rewrite (Hk "sports"), Hs, Hts, Hm, Hl by done. simpl.
  rewrite dict_lookup_set_ne by done.
  unfold dict_get in Hp.
  destruct (Dict.lookup "provider" e) as [p|]; simpl in Hp; [|done].
  rewrite Hp. simpl. rewrite dict_lookup_set_eq. simpl.
  by destruct (String.eqb model "").
Qed.

(** The theorem on a builder with three sports and the empty model. *)
Lemma model_decides_validation_witness :
  exists d',
    let w' := with_config 0 (PDict d') w_ready in
    ConfigBuilder.with_llm_model 0 "" w_ready = (Returns 0, w')
    /\ ConfigBuilder.validate 0 w'
       = (Raises (ConfigValidationError "LLM model is required for LLM mode"),
          w').
Proof.
  apply (model_decides_validation w_ready 0 ready_items "").
  - reflexivity.
  - eexists. split; reflexivity.
  - left. reflexivity.
Defined.

(** X6.  The provider and the model may be set in either order: on a
    document that is a dictionary, with an accepted provider, the two
    sequences of calls give the same result and leave the same world.  (A
    block that has neither field yet is excluded: the two orders would list
    its fields differently.) *)
Theorem llm_setters_commute w self d provider model :
  builders w !! self = Some (PDict d) ->
  provider ∈ ConfigBuilder.VALID_LLM_PROVIDERS ->
  (forall e, Dict.lookup "llm" d = Some (PDict e) ->
     is_Some (Dict.lookup "provider" e) \/ is_Some (Dict.lookup "model" e)) ->
  (b <- ConfigBuilder.with_llm_provider self provider ;;
   ConfigBuilder.with_llm_model b model) w
  = (b <- ConfigBuilder.with_llm_model self model ;;
     ConfigBuilder.with_llm_provider b provider) w.
Proof.
  intros H Hin Hblock. apply provider_valid_eqb in Hin.
  unfold bind.
  change (ConfigBuilder.with_llm_provider self provider w)
    with (call self (WithLlmProvider provider) w).
  change (ConfigBuilder.with_llm_model self model w)
    with (call self (WithLlmModel model) w).
  rewrite !(run_call _ _ _ _ H). cbn [apply_setter]. rewrite Hin.
  destruct (default ConfigBuilder.DEFAULT_LLM_CONFIG (Dict.lookup "llm" d))
    as [|b|z|s|l|e] eqn:He.
  1-5: rewrite !set_llm_field_raises; [done|by rewrite He..].
  destruct (set_llm_field_twice "provider" (PStr provider)
              "model" (PStr model) d e He) as (d1 & -> & H1).
  destruct (set_llm_field_twice "model" (PStr model)
              "provider" (PStr provider) d e He) as (d2 & -> & H2).
  change (ConfigBuilder.with_llm_model self model ?x)
    with (call self (WithLlmModel model) x).
  change (ConfigBuilder.with_llm_provider self provider ?x)
    with (call self (WithLlmProvider provider) x).
  rewrite !(run_call _ _ _ _ (with_config_lookup _ _ _)). cbn [apply_setter].
  rewrite Hin, H1, H2, !with_config_twice.
  assert (Dict.set "model" (PStr model)
            (Dict.set "provider" (PStr provider) e)
          = Dict.set "provider" (PStr provider)
              (Dict.set "model" (PStr model) e)) as ->; [|done].
  destruct (Dict.lookup "llm" d) as [llm|] eqn:El; simpl in He.
  - subst llm. destruct (Hblock e eq_refl) as [Hp|Hm].
    + symmetry. by apply dict_set_comm.
    + by apply dict_set_comm.
  - by injection He as <-.
Qed.

(** The theorem on a new builder. *)
Lemma llm_setters_commute_witness :
  (b <- ConfigBuilder.with_llm_provider 0 "huggingface" ;;
   ConfigBuilder.with_llm_model b "m") w_new
  = (b <- ConfigBuilder.with_llm_model 0 "m" ;;
     ConfigBuilder.with_llm_provider b "huggingface") w_new.
Proof.
  apply (llm_setters_commute w_new 0 new_items "huggingface" "m").
  - reflexivity.
  - apply provider_valid_eqb. reflexivity.
  - intros e H. discriminate H.
Defined.

(** X7.  On a builder made by [ConfigBuilder()] and setter calls,
    [validate] returns the document, or raises ["Sports list is required"]
    when no sports were set, or raises ["LLM model is required for LLM mode"]
    when the model was set to the empty string.  It raises nothing else: the
    setters never leave ["llm"] mode without a block, nor a block without a
    provider. *)
Theorem validate_after_setters w0 self w :
  reached any_call w0 self w ->
  exists d,
    builders w !! self = Some (PDict d)
    /\ (ConfigBuilder.validate self w = (Returns (PDict d), w)
        \/ (Dict.lookup "sports" d = Some (PList [])
            /\ ConfigBuilder.validate self w
               = (Raises (ConfigValidationError "Sports list is required"),
                  w))
        \/ ((exists e,
               Dict.lookup "llm" d = Some (PDict e)
               /\ Dict.lookup "model" e = Some (PStr ""))
            /\ ConfigBuilder.validate self w
               = (Raises (ConfigValidationError
                            "LLM model is required for LLM mode"),
                  w))).
Proof.
  intros Hr. destruct (reached_built_shape _ _ _ Hr) as (d & Hd & HP).
  exists d. split; [done|]. rewrite (run_validate _ _ _ Hd).
  destruct HP as ((ss & Hs & Hss) & Hm & Hl).
  unfold check_document, check_llm, py_getitem, Dict.mem. rewrite Hs.
  destruct Hss as [->|Hv]; [right; left; done|].
  destruct ss as [|s ss];
    [destruct Hv as ([Hlo _] & _); simpl in Hlo; lia|]. simpl.
  destruct Hm as [->|[-> [llm Hllm]]]; [by left|]. simpl.
  rewrite Hllm. simpl.
  destruct (Hl llm Hllm) as (p & m & -> & Hp). simpl.
  assert (negb (String.eqb p "") = true) as ->.
  { apply provider_valid_eqb in Hp. by destruct p. }
  simpl. destruct (String.eqb m "") eqn:Em; simpl.
  - apply String.eqb_eq in Em as ->. right. right. split; [|done].
    by eexists.
  - by left.
Qed.

(** The theorem on a new builder. *)
Lemma validate_after_setters_witness :
  exists d,
    builders w_new !! 0 = Some (PDict d)
    /\ (ConfigBuilder.validate 0 w_new = (Returns (PDict d), w_new)
        \/ (Dict.lookup "sports" d = Some (PList [])
            /\ ConfigBuilder.validate 0 w_new
               = (Raises (ConfigValidationError "Sports list is required"),
                  w_new))
        \/ ((exists e,
               Dict.lookup "llm" d = Some (PDict e)
               /\ Dict.lookup "model" e = Some (PStr ""))
            /\ ConfigBuilder.validate 0 w_new
               = (Raises (ConfigValidationError
                            "LLM model is required for LLM mode"),
                  w_new))).
Proof.
  apply (validate_after_setters w_empty 0 w_new).
  apply reached_new. vm_compute. reflexivity.
Defined.

(** X8.  The message of [with_sports] for each cause: ["Sports must be a
    list"] for a value that is not a list; for three to five strings,
    ["Sports list contains duplicates"] when two are equal once normalized,
    also when some are empty, and ["Sports list contains empty values"] only
    when they are pairwise distinct and one is empty.  Nothing changes. *)
Theorem with_sports_error_messages self w :
  (forall sports,
     (forall l, sports <> PList l) ->
     ConfigBuilder.with_sports self sports w
     = (Raises (ConfigValidationError "Sports must be a list"), w))
  /\ (forall ss,
        3 <= length ss <= 5 ->
        ~ NoDup (map PyStr.normalize ss) ->
        ConfigBuilder.with_sports self (PList (map PStr ss)) w
        = (Raises (ConfigValidationError "Sports list contains duplicates"),
           w))
  /\ (forall ss,
        3 <= length ss <= 5 ->
        NoDup (map PyStr.normalize ss) ->
        Exists (fun s => PyStr.normalize s = EmptyString) ss ->
        ConfigBuilder.with_sports self (PList (map PStr ss)) w
        = (Raises (ConfigValidationError "Sports list contains empty values"),
           w)).
Proof.
  split; [|split].
  - intros sports Hnl. destruct sports as [| | | |l|]; try done.
    by destruct (Hnl l).
  - intros ss [Hlo Hhi] Hdup. rewrite run_with_sports_strs.
    destruct (length ss <? 3) eqn:E1; [apply Nat.ltb_lt in E1; lia|].
    destruct (5 <? length ss) eqn:E2; [apply Nat.ltb_lt in E2; lia|].
    destruct (length ss =? _) eqn:E3; [|done].
    rewrite <- (length_map PyStr.normalize ss) in E3.
    by apply len_set_NoDup in E3.
  - intros ss [Hlo Hhi] Hnd Hemp. rewrite run_with_sports_strs.
    destruct (length ss <? 3) eqn:E1; [apply Nat.ltb_lt in E1; lia|].
    destruct (5 <? length ss) eqn:E2; [apply Nat.ltb_lt in E2; lia|].
    apply len_set_NoDup in Hnd. rewrite length_map in Hnd. rewrite Hnd.
    cbn [negb].
    apply Exists_normalize_empty, existsb_empty in Hemp. by rewrite Hemp.
Qed.

(** X9.  The list [with_sports] has stored is in normal form: given back
    to [with_sports] it is accepted, and the world stays as it is. *)
Theorem with_sports_stored_list_is_accepted self sports w r w' :
  ConfigBuilder.with_sports self sports w = (Returns r, w') ->
  exists d' ns,
    builders w' !! self = Some (PDict d')
    /\ Dict.lookup "sports" d' = Some (PList (map PStr ns))
    /\ ConfigBuilder.with_sports self (PList (map PStr ns)) w'
       = (Returns self, w').
Proof.
  intros Hc.
  destruct (call_returns_dict self (WithSports sports) _ _ _ Hc) as (d & Hd).
  change (ConfigBuilder.with_sports self sports w)
    with (call self (WithSports sports) w) in Hc.
  rewrite (run_call _ _ _ _ Hd) in Hc. cbn [apply_setter] in Hc.
  destruct (check_sports sports) as [ns|] eqn:E; [|done].
  injection Hc as <- <-. eexists _, ns.
  split; [apply with_config_lookup|]. split; [apply dict_lookup_set_eq|].
  pose proof (check_sports_valid _ _ E) as Hv.
  pose proof (check_sports_normal _ _ E) as Hn.
  rewrite run_with_sports_strs.
  destruct (valid_sports_checks ns Hv) as (-> & -> & -> & ->).
  rewrite Hn.
  rewrite (bind_returns _ _ _ _ _
             (run_config_setitem _ _ _ _ _ (with_config_lookup _ _ _))).
  unfold ret. rewrite with_config_twice, dict_set_set. done.
Qed.

(** The theorem after [with_sports] on a new builder. *)
Lemma with_sports_stored_list_is_accepted_witness :
  exists d' ns,
    builders w_ready !! 0 = Some (PDict d')
    /\ Dict.lookup "sports" d' = Some (PList (map PStr ns))
    /\ ConfigBuilder.with_sports 0 (PList (map PStr ns)) w_ready
       = (Returns 0, w_ready).
Proof.
  apply (with_sports_stored_list_is_accepted 0
           (PList [PStr "Golf"; PStr " chess"; PStr "POLO "]) w_new 0 w_ready).
  vm_compute. reflexivity.
Defined.

(** X10.  [with_sports] and [with_retry] (the setters [a] that do not write
    the mode) may come before or after a setter [b] of another field: on a
    document that has the field of [a], when [a] then [b] succeed, so do [b]
    then [a], and the world at the end is the same. *)
Theorem sports_and_retry_in_any_order w self d a b r1 w1 r2 w2 :
  builders w !! self = Some (PDict d) ->
  written_key a <> "generation_mode" ->
  written_key b <> written_key a ->
  is_Some (Dict.lookup (written_key a) d) ->
  call self a w = (Returns r1, w1) ->
  call self b w1 = (Returns r2, w2) ->
  exists w1',
    call self b w = (Returns self, w1')
    /\ call self a w1' = (Returns self, w2).
Proof.
  intros Hd Ha Hab Hs Hca Hcb.
  rewrite (run_call _ _ _ _ Hd) in Hca.
  assert (exists x, forall d0,
            apply_setter a d0 = Returns (Dict.set (written_key a) x d0))
    as (x & Hx).
  { destruct a as [sports|enabled|mode|provider|model]; simpl in *;
      try done.
    - destruct (check_sports sports) as [ns|]; [|done]. by eexists.
    - by eexists. }
  rewrite Hx in Hca. injection Hca as <- <-.
  rewrite (run_call _ _ _ _ (with_config_lookup _ _ _)) in Hcb.
  assert (written_key a <> "llm") as Hl.
  { by destruct a. }
  rewrite apply_setter_set_comm in Hcb by done.
  rewrite (run_call _ _ _ _ Hd).
  destruct (apply_setter b d) as [d1|] eqn:Eb; [|done].
  injection Hcb as <- <-. eexists. split; [done|].
  rewrite (run_call _ _ _ _ (with_config_lookup _ _ _)), Hx.
  by rewrite !with_config_twice.
Qed.

(** The theorem for [with_retry(False)] and [with_generation_mode("llm")] on a
    new builder. *)
Lemma sports_and_retry_in_any_order_witness :
  exists w1',
    call 0 (WithGenerationMode "llm") w_new = (Returns 0, w1')
    /\ call 0 (WithRetry false) w1'
       = (Returns 0,
          snd (call 0 (WithGenerationMode "llm")
                 (snd (call 0 (WithRetry false) w_new)))).
Proof.
  apply (sports_and_retry_in_any_order w_new 0 new_items
           (WithRetry false) (WithGenerationMode "llm")
           0 (snd (call 0 (WithRetry false) w_new)) 0).
  - reflexivity.
  - discriminate.
  - discriminate.
  - eexists. reflexivity.
  - vm_compute. reflexivity.
  - vm_compute. reflexivity.
Defined.

(** X11.  A setter call that succeeded may be made again: with the same
    argument it succeeds, returns the builder and changes nothing. *)
Theorem setters_are_idempotent self op w r w' :
  call self op w = (Returns r, w') ->
  call self op w' = (Returns self, w').
Proof.
  intros Hc. destruct (call_returns_dict _ _ _ _ _ Hc) as (d & Hd).
  rewrite (run_call _ _ _ _ Hd) in Hc.
  destruct (apply_setter op d) as [d'|] eqn:E; [|done].
  injection Hc as <- <-.
  rewrite (run_call _ _ _ _ (with_config_lookup _ _ _)).
  rewrite (apply_setter_idem _ _ _ E). by rewrite with_config_twice.
Qed.

(** The theorem for [with_llm_provider] on a new builder. *)
Lemma setters_are_idempotent_witness :
  call 0 (WithLlmProvider "huggingface") w_provider = (Returns 0, w_provider).
Proof.
  apply (setters_are_idempotent 0 (WithLlmProvider "huggingface") w_new 0
           w_provider).
  vm_compute. reflexivity.
Defined.

(** X12.  Compared by [compute_changes_from_default] with the document
    before a successful setter call, the document after it differs in the
    field the setter writes and in the [llm] block, nowhere else (the keys of
    a dictionary being distinct). *)
Theorem setter_changes_are_its_own w self d op r w' :
  builders w !! self = Some (PDict d) ->
  wf_val (PDict d) ->
  call self op w = (Returns r, w') ->
  exists d',
    builders w' !! self = Some (PDict d')
    /\ forall k,
         k ∈ fst (compute_changes_from_default d d') ->
         k = written_key op \/ k = "llm".
Proof.
  intros Hd Hwf Hc. rewrite (run_call _ _ _ _ Hd) in Hc.
  destruct (apply_setter op d) as [d'|] eqn:E; [|done].
  injection Hc as <- <-. exists d'. split; [apply with_config_lookup|].
  intros k Hk. unfold compute_changes_from_default in Hk.
  apply changes_fold_elem in Hk as [Hk|Hk]; [by apply elem_of_nil in Hk|].
  destruct (decide (k = written_key op)) as [|Hn1]; [by left|].
  destruct (decide (k = "llm")) as [|Hn2]; [by right|].
  exfalso. destruct (apply_setter_frame _ _ _ E) as [Hf _].
  unfold differs, dict_get, dict_item in Hk. rewrite (Hf k Hn1 Hn2) in Hk.
  destruct (Dict.lookup k d) as [v|] eqn:El; simpl in Hk; [|done].
  by rewrite (py_eqb_refl v (lookup_wf _ _ _ Hwf El)) in Hk.
Qed.

(** The theorem for [with_llm_provider] on a new builder. *)
Lemma setter_changes_are_its_own_witness :
  exists d',
    builders w_provider !! 0 = Some (PDict d')
    /\ forall k,
         k ∈ fst (compute_changes_from_default
                    [("sports", PList []);
                     ("retry_enabled", PBool true);
                     ("generation_mode", PStr "template")] d') ->
         k = written_key (WithLlmProvider "huggingface") \/ k = "llm".
Proof.
  apply (setter_changes_are_its_own w_new 0 _
           (WithLlmProvider "huggingface") 0 w_provider).
  - reflexivity.
  - simpl. repeat split. compute_done.
  - vm_compute. reflexivity.
Defined.



(** ** Loading *)

Lemma loads_raises text e : Json.loads text = Raises e -> e = JSONDecodeError.
Proof.
  unfold Json.loads. destruct (parse_value _ _) as [[v r]|]; [|congruence].
  destruct (skip_ws r); congruence.
Qed.

Lemma fresh_builder_unused w : builders w !! fresh (dom (builders w)) = None.
Proof. apply not_elem_of_dom, is_fresh. Qed.

Lemma run_load path text w :
  files w !! path = Some text ->
  ConfigBuilder.load path w
  = match Json.loads text with
    | Returns data => ConfigBuilder.from_dict data w
    | Raises e => (Raises e, w)
    end.
Proof.
  intros H. unfold ConfigBuilder.load, bind at 1, read_file. rewrite H.
  unfold bind, lift. by destruct (Json.loads text).
Qed.

Lemma run_from_dict_list l w :
  let b := fresh (dom (builders w)) in
  ConfigBuilder.from_dict (PList l) w = (Returns b, with_config b (PList l) w).
Proof.
  unfold ConfigBuilder.from_dict, bind. rewrite run_new. simpl.
  unfold set_config, ret. simpl. unfold with_config. simpl.
  by rewrite insert_insert_eq.
Qed.

Lemma load_no_validation_error path w :
  is_validation_error (fst (ConfigBuilder.load path w)) = false.
Proof.
  destruct (files w !! path) as [text|] eqn:H.
  - rewrite (run_load _ _ _ H).
    destruct (Json.loads text) as [data|e] eqn:E.
    + by destruct data.
    + by rewrite (loads_raises _ _ E).
  - unfold ConfigBuilder.load, bind, read_file. by rewrite H.
Qed.

Lemma run_load_default path w :
  (files w !! path = None ->
   exists msg,
     ConfigBuilder.load_default path w = (Raises (FileNotFoundError msg), w))
  /\ (is_Some (files w !! path) ->
      ConfigBuilder.load_default path w = ConfigBuilder.load path w).
Proof.
  split.
  - intros H. unfold ConfigBuilder.load_default, bind, path_exists.
    rewrite bool_decide_eq_false_2 by (rewrite H; by intros [? [=]]).
    cbn [negb]. by eexists.
  - intros Hs. unfold ConfigBuilder.load_default, bind at 1, path_exists.
    by rewrite bool_decide_eq_true_2.
Qed.

Lemma dict_set_keys_NoDup k v (d : Dict.t) :
  NoDup (map fst d) -> NoDup (map fst (Dict.set k v d)).
Proof.
  induction d as [|[k' x] d IH]; simpl.
  - intros _. apply NoDup_singleton.
  - intros Hnd. apply NoDup_cons in Hnd as [Hk Hnd].
    destruct (String.eqb k k') eqn:E.
    + apply String.eqb_eq in E as ->. simpl. by apply NoDup_cons.
    + simpl. apply NoDup_cons. split; [|by apply IH].
      intros Hin. apply Hk.
      apply list_elem_of_fmap in Hin as ([k0 x0] & -> & Hin).
      simpl. apply list_elem_of_fmap.
      assert (k0 <> k) as Hne.
      { intros ->. by rewrite String.eqb_refl in E. }
      clear -Hin Hne. induction d as [|[k1 x1] d IHd]; simpl in Hin.
      * apply list_elem_of_singleton in Hin. congruence.
      * destruct (String.eqb k k1) eqn:E1.
        -- apply elem_of_cons in Hin as [[= -> ->]|Hin]; [done|].
           exists (k0, x0). split; [done|]. by right.
        -- apply elem_of_cons in Hin as [[= -> ->]|Hin].
           ++ exists (k1, x1). split; [done|]. by left.
           ++ destruct (IHd Hin) as (y & Hy & Hyin).
              exists y. split; [done|]. by right.
Qed.

Lemma dict_set_Forall (P : string * pyval -> Prop) k v (d : Dict.t) :
  Forall P d -> P (k, v) -> Forall P (Dict.set k v d).
Proof.
  intros Hd Hv. induction d as [|[k' x] d IH]; simpl.
  - by constructor.
  - apply Forall_cons in Hd as [Hx Hd].
    destruct (String.eqb k k'); constructor; auto.
Qed.

Lemma dict_set_wf k v (d : Dict.t) :
  wf_val (PDict d) -> wf_val v -> wf_val (PDict (Dict.set k v d)).
Proof.
  rewrite !wf_val_dict. intros [Hnd Hd] Hv. split.
  - by apply dict_set_keys_NoDup.
  - by apply dict_set_Forall.
Qed.

Lemma parse_items_wf pv n s vs r :
  (forall s v r, pv s = Some (v, r) -> wf_val v) ->
  parse_items pv n s = Some (vs, r) -> Forall wf_val vs.
Proof.
  intros Hpv. revert s vs r. induction n as [|n IH]; intros s vs r; [done|].
  simpl. destruct (pv s) as [[v s1]|] eqn:E; [|done].
  destruct (skip_ws s1) as [|c s2]; [done|].
  destruct (Ascii.eqb c ",").
  - destruct (parse_items pv n (skip_ws s2)) as [[vs' s3]|] eqn:E'; [|done].
    intros [= <- <-]. constructor; [by apply (Hpv _ _ _ E)|].
    by apply (IH _ _ _ E').
  - destruct (Ascii.eqb c "]"); [|done]. intros [= <- <-].
    constructor; [by apply (Hpv _ _ _ E)|constructor].
Qed.

Lemma parse_members_wf pv n s ms r :
  (forall s v r, pv s = Some (v, r) -> wf_val v) ->
  parse_members pv n s = Some (ms, r) ->
  Forall (fun kv => wf_val (snd kv)) ms.
Proof.
  intros Hpv. revert s ms r. induction n as [|n IH]; intros s ms r; [done|].
  simpl. destruct s as [|q s0]; [done|].
  destruct (negb (Ascii.eqb q quote)); [done|].
  destruct (parse_str s0) as [[key s1]|]; [|done].
  destruct (skip_ws s1) as [|c s2]; [done|].
  destruct (negb (Ascii.eqb c ":")); [done|].
  destruct (pv (skip_ws s2)) as [[v s3]|] eqn:E; [|done].
  destruct (skip_ws s3) as [|c' s4]; [done|].
  destruct (Ascii.eqb c' ",").
  - destruct (parse_members pv n (skip_ws s4)) as [[ms' s5]|] eqn:E'; [|done].
    intros [= <- <-]. constructor; [by apply (Hpv _ _ _ E)|].
    by apply (IH _ _ _ E').
  - destruct (Ascii.eqb c' "}"); [|done]. intros [= <- <-].
    constructor; [by apply (Hpv _ _ _ E)|constructor].
Qed.

Lemma dict_of_members_wf ms :
  Forall (fun kv => wf_val (snd kv)) ms -> wf_val (PDict (dict_of_members ms)).
Proof.
  unfold dict_of_members.
  assert (forall acc,
            wf_val (PDict acc) ->
            Forall (fun kv => wf_val (snd kv)) ms ->
            wf_val (PDict (fold_left
                             (fun d kv => Dict.set (fst kv) (snd kv) d)
                             ms acc))) as H.
  { induction ms as [|[k v] ms IH]; intros acc Hacc Hms; [done|].
    apply Forall_cons in Hms as [Hv Hms]. simpl.
    apply IH; [|done]. by apply dict_set_wf. }
  intros Hms. apply H; [|done]. simpl. split; [constructor|done].
Qed.

Lemma parse_value_wf fuel :
  forall s v r, parse_value fuel s = Some (v, r) -> wf_val v.
Proof.
  induction fuel as [|fuel IH]; intros s v r; [done|].
  simpl. destruct s as [|c s']; [done|].
  destruct (Ascii.eqb c quote).
  { destruct (parse_str s') as [[t r']|]; [|done]. by intros [= <- <-]. }
  destruct (Ascii.eqb c "[").
  { destruct (skip_ws s') as [|c1 r1] eqn:Es; [done|].
    destruct (Ascii.eqb c1 "]"); [intros [= <- <-]; exact I|].
    destruct (parse_items _ _ _) as [[vs r']|] eqn:E; [|done].
    intros [= <- <-]. apply wf_val_list.
    by apply (parse_items_wf _ _ _ _ _ IH E). }
  destruct (Ascii.eqb c "{").
  { destruct (skip_ws s') as [|c1 r1] eqn:Es; [done|].
    destruct (Ascii.eqb c1 "}");
      [intros [= <- <-]; split; [constructor|exact I]|].
    destruct (parse_members _ _ _) as [[ms r']|] eqn:E; [|done].
    intros [= <- <-]. apply dict_of_members_wf.
    by apply (parse_members_wf _ _ _ _ _ IH E). }
  do 3 match goal with
       | |- match ?x with Some _ => _ | None => _ end = _ -> _ =>
           destruct x; [by intros [= <- <-]|]
       end.
  unfold parse_number.
  match goal with
  | |- (let '(_, _) := ?x in _) = _ -> _ => destruct x as [neg s1]
  end.
  destruct (parse_nat s1) as [[n r0]|]; [|done].
  destruct (float_follows r0); [done|]. by intros [= <- <-].
Qed.

Lemma loads_wf text v : Json.loads text = Returns v -> wf_val v.
Proof.
  unfold Json.loads.
  destruct (parse_value _ _) as [[v0 r]|] eqn:E; [|done].
  destruct (skip_ws r); [|done]. intros [= <-].
  by apply (parse_value_wf _ _ _ _ E).
Qed.

Lemma apply_setter_wf op d d' :
  wf_val (PDict d) -> apply_setter op d = Returns d' -> wf_val (PDict d').
Proof.
  intros Hwf.
  assert (wf_val ConfigBuilder.DEFAULT_LLM_CONFIG) as Hdef.
  { simpl. repeat split. compute_done. }
  assert (wf_val (PDict (ensure_llm d))) as Hens.
  { unfold ensure_llm. destruct (Dict.mem "llm" d); [done|].
    by apply dict_set_wf. }
  assert (forall f s d1,
            set_llm_field f (PStr s) d = Returns d1 -> wf_val (PDict d1))
    as Hfield.
  { intros f s d1. unfold set_llm_field.
    destruct (Dict.lookup "llm" (ensure_llm d)) as [[| | | | |e]|] eqn:E;
      try done.
    intros [= <-]. apply dict_set_wf; [|done]. apply dict_set_wf; [done|].
    apply dict_set_wf; [|done]. by apply (lookup_wf _ _ _ Hens E). }
  destruct op as [sports|enabled|mode|provider|model]; simpl.
  - destruct (check_sports sports) as [ns|]; [|done]. intros [= <-].
    apply dict_set_wf; [done|]. apply wf_val_list.
    apply Forall_forall. intros x Hx.
    by apply list_elem_of_fmap in Hx as (s & -> & _).
  - intros [= <-]. by apply dict_set_wf.
  - destruct (String.eqb mode "template").
    + intros [= <-]. by apply dict_set_wf.
    + destruct (String.eqb mode "llm"); [|done]. intros [= <-].
      unfold ensure_llm. destruct (Dict.mem "llm" _).
      * by apply dict_set_wf.
      * apply dict_set_wf; [|done]. by apply dict_set_wf.
  - destruct (_ || _); [|done]. apply Hfield.
  - apply Hfield.
Qed.

Lemma obtained_wf w0 self w :
  obtained w0 self w -> exists c, builders w !! self = Some c /\ wf_val c.
Proof.
  induction 1 as [self w Hnew|path self w Hload|self w op r w' Ho IH Hc].
  - rewrite run_new in Hnew. injection Hnew as <- <-.
    eexists. split; [apply with_config_lookup|].
    simpl. repeat split. compute_done.
  - destruct (files w0 !! path) as [text|] eqn:Hf.
    2: { unfold ConfigBuilder.load, bind, read_file in Hload.
         by rewrite Hf in Hload. }
    rewrite (run_load _ _ _ Hf) in Hload.
    destruct (Json.loads text) as [data|] eqn:E; [|done].
    pose proof (loads_wf _ _ E) as Hwf.
    destruct data as [|b|z|s|l|d]; try done.
    + rewrite run_from_dict_list in Hload. injection Hload as <- <-.
      eexists. split; [apply with_config_lookup|done].
    + rewrite run_from_dict in Hload. injection Hload as <- <-.
      eexists. split; [apply with_config_lookup|done].
  - destruct IH as (c & Hcfg & Hwf).
    destruct (call_returns_dict _ _ _ _ _ Hc) as (d & Hd).
    rewrite Hd in Hcfg. injection Hcfg as <-.
    rewrite (run_call _ _ _ _ Hd) in Hc.
    destruct (apply_setter op d) as [d'|] eqn:E; [|done].
    injection Hc as <- <-. eexists. split; [apply with_config_lookup|].
    by apply (apply_setter_wf op d).
Qed.

(** X13.  [load]: a missing file raises [FileNotFoundError] and a text that
    is not JSON raises [JSONDecodeError], the world unchanged in both cases;
    a JSON object or array, whatever it holds, becomes the document of a new
    builder; any other JSON value raises [AttributeError].  [load] never
    raises a validation error. *)
Theorem load_wraps_without_validating path w :
  (files w !! path = None ->
   exists msg, ConfigBuilder.load path w = (Raises (FileNotFoundError msg), w))
  /\ (forall text,
        files w !! path = Some text ->
        (forall data, Json.loads text <> Returns data) ->
        ConfigBuilder.load path w = (Raises JSONDecodeError, w))
  /\ (forall text data,
        files w !! path = Some text ->
        Json.loads text = Returns data ->
        match data with
        | PDict _ | PList _ =>
            exists b,
              builders w !! b = None
              /\ ConfigBuilder.load path w = (Returns b, with_config b data w)
        | _ => fst (ConfigBuilder.load path w) = Raises AttributeError
        end)
  /\ is_validation_error (fst (ConfigBuilder.load path w)) = false.
Proof.
  split; [|split; [|split]].
  - intros H. exists path. unfold ConfigBuilder.load, bind, read_file.
    by rewrite H.
  - intros text H Hbad. rewrite (run_load _ _ _ H).
    destruct (Json.loads text) as [data|e] eqn:E; [by destruct (Hbad data)|].
    by rewrite (loads_raises _ _ E).
  - intros text data H E. rewrite (run_load _ _ _ H), E.
    destruct data as [|b|z|s|l|d]; try reflexivity.
    + eexists. split; [apply fresh_builder_unused|apply run_from_dict_list].
    + eexists. split; [apply fresh_builder_unused|apply run_from_dict].
  - apply load_no_validation_error.
Qed.

(** X14.  [load_default]: when the file is missing, [FileNotFoundError] is
    raised with a message that names the path and says that the repository
    may be corrupted, and the world is unchanged; when it is there,
    [load_default] is [load].  It never raises a validation error: the
    default is not validated. *)
Theorem load_default_missing_or_load path w :
  (files w !! path = None ->
   exists msg,
     ConfigBuilder.load_default path w = (Raises (FileNotFoundError msg), w)
     /\ PyStr.contains path msg = true
     /\ PyStr.contains "Repository may be corrupted" msg = true)
  /\ (is_Some (files w !! path) ->
      ConfigBuilder.load_default path w = ConfigBuilder.load path w)
  /\ is_validation_error (fst (ConfigBuilder.load_default path w)) = false.
Proof.
  assert (is_Some (files w !! path) ->
          ConfigBuilder.load_default path w = ConfigBuilder.load path w) as Hl.
  { intros Hs. unfold ConfigBuilder.load_default, bind at 1, path_exists.
    by rewrite bool_decide_eq_true_2. }
  split; [|split; [done|]].
  - intros H. unfold ConfigBuilder.load_default, bind, path_exists.
    rewrite bool_decide_eq_false_2 by (rewrite H; by intros [? [=]]).
    cbn [negb]. eexists. split; [reflexivity|]. split.
    + apply contains_middle.
    + apply contains_append_l, contains_append_l.
      change (String newline ?s) with (String newline "" +:+ s).
      apply contains_append_l, contains_prefix. reflexivity.
  - destruct (files w !! path) as [text|] eqn:H.
    + rewrite Hl by done.
      apply load_no_validation_error.
    + unfold ConfigBuilder.load_default, bind, path_exists.
      by rewrite bool_decide_eq_false_2 by (rewrite H; by intros [? [=]]).
Qed.

(** X15.  A document that [validate] accepts, on a builder made by
    [ConfigBuilder()] or by [load] and taken through setter calls, is written
    by [save] so that [load] reads the same document back, which [validate]
    accepts again: the methods never make a document whose text would read
    back differently. *)
Theorem saved_documents_reload w0 self w doc w' path :
  obtained w0 self w ->
  ConfigBuilder.validate self w = (Returns doc, w') ->
  exists w1 b w2,
    ConfigBuilder.save self path w = (Returns path, w1)
    /\ ConfigBuilder.load path w1 = (Returns b, w2)
    /\ builders w2 !! b = Some doc
    /\ ConfigBuilder.validate b w2 = (Returns doc, w2).
Proof.
  intros Ho Hv. destruct (obtained_wf _ _ _ Ho) as (c & Hc & Hwf).
  destruct (validate_returns _ _ _ _ Hv) as (d & -> & H & -> & Hcd).
  rewrite H in Hc. injection Hc as <-.
  eexists _, _, _. rewrite (run_save _ _ _ _ H Hcd). split; [reflexivity|].
  rewrite (run_load _ (Json.dumps (PDict d))) by apply lookup_insert_eq.
  rewrite (loads_dumps _ Hwf), run_from_dict. split; [reflexivity|].
  split; [apply with_config_lookup|].
  rewrite (run_validate _ d) by apply with_config_lookup. by rewrite Hcd.
Qed.

(** The theorem on a builder with three sports. *)
Lemma saved_documents_reload_witness :
  exists w1 b w2,
    ConfigBuilder.save 0 "config.json" w_ready = (Returns "config.json", w1)
    /\ ConfigBuilder.load "config.json" w1 = (Returns b, w2)
    /\ builders w2 !! b = Some doc_ready
    /\ ConfigBuilder.validate b w2 = (Returns doc_ready, w2).
Proof.
  apply (saved_documents_reload w_empty 0 w_ready doc_ready w_ready
           "config.json").
  - eapply (obtained_call _ _ _
              (WithSports (PList [PStr "Golf"; PStr " chess"; PStr "POLO "]))).
    + apply obtained_new. vm_compute. reflexivity.
    + vm_compute. reflexivity.
  - vm_compute. reflexivity.
Defined.

(** ** The text [save] writes *)

Lemma plain_text_append a b :
  plain_text (a +:+ b) = plain_text a && plain_text b.
Proof.
  induction a as [|c a IH]; [done|].
  change (String c a +:+ b) with (String c (a +:+ b)). simpl.
  by rewrite IH, andb_assoc.
Qed.

Lemma plain_text_escape_char c k :
  plain_text (escape_char c k) = plain_text k.
Proof. by_cases_on_char c. Qed.

Lemma plain_text_escape s k : plain_text (escape s k) = plain_text k.
Proof.
  induction s as [|c s IH]; simpl; [done|].
  by rewrite plain_text_escape_char.
Qed.

Lemma plain_text_encode_str s k : plain_text (encode_str s k) = plain_text k.
Proof. unfold encode_str. simpl. by rewrite plain_text_escape. Qed.

Lemma plain_text_uint u : plain_text (NilEmpty.string_of_uint u) = true.
Proof. induction u; simpl; done. Qed.

Lemma plain_text_encode_int z k : plain_text (encode_int z k) = plain_text k.
Proof.
  destruct z; simpl; [done|..];
    by rewrite plain_text_append, plain_text_uint.
Qed.

Lemma plain_text_indent n k : plain_text (indent n k) = plain_text k.
Proof. induction n as [|n IH]; simpl; done. Qed.

Lemma plain_text_newline_indent n k :
  plain_text (newline_indent n k) = plain_text k.
Proof. unfold newline_indent. simpl. apply plain_text_indent. Qed.

Lemma plain_text_encode v :
  forall lvl k, plain_text (encode lvl v k) = plain_text k.
Proof.
  induction v as [|b|z|s|l IH|d IH] using pyval_nested_ind; intros lvl k.
  - done.
  - by destruct b.
  - apply plain_text_encode_int.
  - apply plain_text_encode_str.
  - destruct l as [|x l]; [done|].
    change (encode lvl (PList (x :: l)) k)
      with (String "[" (newline_indent (S lvl)
              (encode (S lvl) x (encode_items (encode (S lvl)) lvl l k)))).
    apply Forall_cons in IH as [IHx IHl].
    change (plain_text (String "[" ?s)) with (plain_text s).
    rewrite plain_text_newline_indent, IHx. clear IHx.
    induction l as [|y l IHl']; simpl encode_items.
    + by rewrite plain_text_newline_indent.
    + apply Forall_cons in IHl as [IHy IHl].
      change (plain_text (String "," ?s)) with (plain_text s).
      rewrite plain_text_newline_indent, IHy. by apply IHl'.
  - destruct d as [|[key x] d]; [done|].
    change (encode lvl (PDict ((key, x) :: d)) k)
      with (String "{" (newline_indent (S lvl)
              (encode_str key (String ":" (String " "
                 (encode (S lvl) x
                    (encode_members (encode (S lvl)) lvl d k))))))).
    apply Forall_cons in IH as [IHx IHd]. simpl in IHx.
    change (plain_text (String "{" ?s)) with (plain_text s).
    rewrite plain_text_newline_indent, plain_text_encode_str.
    change (plain_text (String ":" (String " " ?s))) with (plain_text s).
    rewrite IHx. clear IHx.
    induction d as [|[key' y] d IHd']; simpl encode_members.
    + by rewrite plain_text_newline_indent.
    + apply Forall_cons in IHd as [IHy IHd]. simpl in IHy.
      change (plain_text (String "," ?s)) with (plain_text s).
      rewrite plain_text_newline_indent. unfold encode_member.
      rewrite plain_text_encode_str. simpl fst. simpl snd.
      change (plain_text (String ":" (String " " ?s))) with (plain_text s).
      rewrite IHy. by apply IHd'.
Qed.

(** X16.  The file [save] writes holds printable ASCII characters and line
    feeds only, whatever the strings of the document: [json.dump] escapes
    everything else. *)
Theorem save_writes_plain_ascii self path w r w' :
  ConfigBuilder.save self path w = (Returns r, w') ->
  exists text, files w' !! path = Some text /\ plain_text text = true.
Proof.
  unfold ConfigBuilder.save, bind at 1.
  destruct (ConfigBuilder.validate self w) as [[doc|e] w1]; [|done].
  unfold bind, write_file, ret. intros [= <- <-]. simpl.
  eexists. split; [apply lookup_insert_eq|].
  unfold dumps. by rewrite plain_text_encode.
Qed.

(** The theorem on a builder with three sports. *)
Lemma save_writes_plain_ascii_witness :
  exists text,
    files (snd (ConfigBuilder.save 0 "config.json" w_ready)) !! "config.json"
    = Some text
    /\ plain_text text = true.
Proof.
  apply (save_writes_plain_ascii 0 "config.json" w_ready "config.json").
  vm_compute. reflexivity.
Defined.

(** ** The interactive program and the command line *)

(** [create_config_interactive] once two lines have been read: what is left
    is a sequence of calls on the builder, and one more line in LLM mode. *)
Lemma run_interactive l1 l2 rest out w :
  exists out2 out3,
    create_config_interactive (Console (l1 :: l2 :: rest) out) w
    = match ConfigBuilder.load_default "config.default.json" w with
      | (Raises e, w1) => (Failed e, Console rest out2, w1)
      | (Returns b, w1) =>
          match ConfigBuilder.with_sports b (typed_sports l1) w1 with
          | (Raises e, w2) => (Failed e, Console rest out2, w2)
          | (Returns _, w2) =>
              if String.eqb (PyStr.strip l2) "2" then
                match ConfigBuilder.with_generation_mode b "llm" w2 with
                | (Raises e, w3) => (Failed e, Console rest out2, w3)
                | (Returns _, w3) =>
                    match rest with
                    | [] => (EOFError, Console [] out3, w3)
                    | l3 :: rest' =>
                        match ConfigBuilder.with_llm_provider
                                b (chosen_provider l3) w3 with
                        | (Raises e, w4) => (Failed e, Console rest' out3, w4)
                        | (Returns _, w4) => (Done b, Console rest' out3, w4)
                        end
                    end
                end
              else (Done b, Console rest out2, w2)
          end
      end.
Proof.
  eexists _, _.
  unfold create_config_interactive, io_bind, print, input, run, io_ret,
    typed_sports, chosen_provider.
  cbn [stdin stdout].
  destruct (ConfigBuilder.load_default "config.default.json" w)
    as [[b|e] w1]; [|reflexivity].
  destruct (ConfigBuilder.with_sports b _ w1) as [[r|e] w2]; [|reflexivity].
  destruct (String.eqb (PyStr.strip l2) "2");
    cbn [negb String.eqb Ascii.eqb Bool.eqb]; [|reflexivity].
  destruct (ConfigBuilder.with_generation_mode b "llm" w2) as [[r'|e] w3];
    [|reflexivity].
  cbn [stdin stdout].
  destruct rest as [|l3 rest']; [reflexivity|].
  destruct (ConfigBuilder.with_llm_provider b _ w3) as [[r''|e] w4];
    reflexivity.
Qed.

Lemma call_files self op w : files (snd (call self op w)) = files w.
Proof.
  destruct (call self op w) as [[r|e] w'] eqn:E; simpl.
  - destruct (call_returns_dict _ _ _ _ _ E) as (d & Hd).
    rewrite (run_call _ _ _ _ Hd) in E.
    destruct (apply_setter op d); [|done]. by injection E as <- <-.
  - by rewrite (call_raises _ _ _ _ _ E).
Qed.

Lemma from_dict_files data w :
  files (snd (ConfigBuilder.from_dict data w)) = files w.
Proof.
  unfold ConfigBuilder.from_dict, bind. rewrite run_new.
  unfold lift, set_config, ret. by destruct (py_copy data).
Qed.

Lemma load_files path w : files (snd (ConfigBuilder.load path w)) = files w.
Proof.
  destruct (files w !! path) as [text|] eqn:H.
  - rewrite (run_load _ _ _ H).
    destruct (Json.loads text); [apply from_dict_files|done].
  - unfold ConfigBuilder.load, bind, read_file. by rewrite H.
Qed.

Lemma load_default_files path w :
  files (snd (ConfigBuilder.load_default path w)) = files w.
Proof.
  unfold ConfigBuilder.load_default, bind at 1, path_exists.
  destruct (bool_decide _); [apply load_files|done].
Qed.

Lemma load_default_no_validation_error path w :
  is_validation_error (fst (ConfigBuilder.load_default path w)) = false.
Proof.
  unfold ConfigBuilder.load_default, bind at 1, path_exists.
  destruct (bool_decide _); [apply load_no_validation_error|done].
Qed.

(** A validation error of [with_sports] is that of the checks, on any
    builder. *)
Lemma with_sports_validation_error self sports w msg w' :
  ConfigBuilder.with_sports self sports w
  = (Raises (ConfigValidationError msg), w') ->
  check_sports sports = Raises (ConfigValidationError msg).
Proof.
  unfold ConfigBuilder.with_sports, check_sports, ConfigBuilder.MIN_SPORTS,
    ConfigBuilder.MAX_SPORTS, raise.
  destruct sports as [| | | |l|]; try congruence.
  destruct (length l <? 3); [congruence|].
  destruct (5 <? length l); [congruence|].
  unfold bind at 1, lift.
  destruct (comprehension py_strip_lower l) as [ns|e]; [|congruence].
  destruct (negb _); [congruence|].
  destruct (existsb _ ns); [congruence|].
  intros E. exfalso.
  pose proof (config_setitem_no_validation_error self "sports"
                (PList (map PStr ns)) w) as Hs.
  unfold bind in E.
  destruct (config_setitem self "sports" (PList (map PStr ns)) w)
    as [[[]|e] w1]; [unfold ret in E; discriminate|].
  simpl in Hs. injection E as -> _. done.
Qed.

Lemma check_sports_raises self sports w e :
  check_sports sports = Raises e ->
  ConfigBuilder.with_sports self sports w = (Raises e, w).
Proof.
  unfold ConfigBuilder.with_sports, check_sports, ConfigBuilder.MIN_SPORTS,
    ConfigBuilder.MAX_SPORTS, raise.
  destruct sports as [| | | |l|]; try congruence.
  destruct (length l <? 3); [congruence|].
  destruct (5 <? length l); [congruence|].
  unfold bind at 1, lift.
  destruct (comprehension py_strip_lower l) as [ns|e0]; [|congruence].
  destruct (negb _); [congruence|].
  destruct (existsb _ ns); [congruence|]. done.
Qed.

Lemma chosen_provider_valid line :
  chosen_provider line ∈ ConfigBuilder.VALID_LLM_PROVIDERS.
Proof.
  apply provider_valid_eqb. unfold chosen_provider.
  destruct (String.eqb (PyStr.strip line) "2"); reflexivity.
Qed.

Lemma with_llm_provider_valid_no_error self provider w :
  provider ∈ ConfigBuilder.VALID_LLM_PROVIDERS ->
  is_validation_error
    (fst (ConfigBuilder.with_llm_provider self provider w)) = false.
Proof.
  intros Hin. apply provider_valid_eqb in Hin.
  change (ConfigBuilder.with_llm_provider self provider w)
    with (call self (WithLlmProvider provider) w).
  rewrite call_validation_error. cbn [apply_setter]. rewrite Hin.
  apply set_llm_field_no_validation_error.
Qed.

Lemma check_sports_strs_valid ss :
  valid_sports ss ->
  check_sports (PList (map PStr ss)) = Returns (map PyStr.normalize ss).
Proof.
  intros Hv. unfold check_sports. rewrite length_map, comprehension_strs.
  destruct (valid_sports_checks ss Hv) as (-> & -> & H3 & ->).
  rewrite length_map. by rewrite H3.
Qed.

Lemma interactive_files c w :
  files (snd (create_config_interactive c w)) = files w.
Proof.
  destruct c as [[|l1 [|l2 rest]] out]; [done|done|].
  destruct (run_interactive l1 l2 rest out w) as (out2 & out3 & ->).
  pose proof (load_default_files "config.default.json" w) as Hl.
  destruct (ConfigBuilder.load_default "config.default.json" w)
    as [[b|e] w1]; simpl in Hl; [|done].
  pose proof (call_files b (WithSports (typed_sports l1)) w1) as Hs.
  cbn [call] in Hs.
  destruct (ConfigBuilder.with_sports b (typed_sports l1) w1)
    as [[r|e] w2]; simpl in Hs; [|simpl; congruence].
  destruct (String.eqb (PyStr.strip l2) "2"); [|simpl; congruence].
  pose proof (call_files b (WithGenerationMode "llm") w2) as Hm.
  cbn [call] in Hm.
  destruct (ConfigBuilder.with_generation_mode b "llm" w2)
    as [[r'|e] w3]; simpl in Hm; [|simpl; congruence].
  destruct rest as [|l3 rest']; [simpl; congruence|].
  pose proof (call_files b (WithLlmProvider (chosen_provider l3)) w3) as Hp.
  cbn [call] in Hp.
  destruct (ConfigBuilder.with_llm_provider b (chosen_provider l3) w3)
    as [[r''|e] w4]; simpl in Hp |- *; congruence.
Qed.

(** A successful setter keeps a valid sports list valid. *)
Lemma call_keeps_sports self op w r w' :
  (exists d ss,
     builders w !! self = Some (PDict d)
     /\ Dict.lookup "sports" d = Some (PList (map PStr ss))
     /\ valid_sports ss) ->
  written_key op <> "sports" ->
  call self op w = (Returns r, w') ->
  exists d ss,
    builders w' !! self = Some (PDict d)
    /\ Dict.lookup "sports" d = Some (PList (map PStr ss))
    /\ valid_sports ss.
Proof.
  intros (d & ss & Hd & Hs & Hv) Hk. rewrite (run_call _ _ _ _ Hd).
  destruct (apply_setter op d) as [d'|] eqn:E; [|done].
  intros [= <- <-]. exists d', ss. split; [apply with_config_lookup|].
  split; [|done].
  destruct (apply_setter_frame _ _ _ E) as [Hf _]. by rewrite Hf.
Qed.

Lemma with_sports_stores_valid self sports w r w' :
  ConfigBuilder.with_sports self sports w = (Returns r, w') ->
  exists d ss,
    builders w' !! self = Some (PDict d)
    /\ Dict.lookup "sports" d = Some (PList (map PStr ss))
    /\ valid_sports ss.
Proof.
  intros Hc.
  destruct (call_returns_dict self (WithSports sports) _ _ _ Hc) as (d & Hd).
  change (ConfigBuilder.with_sports self sports w)
    with (call self (WithSports sports) w) in Hc.
  rewrite (run_call _ _ _ _ Hd) in Hc. cbn [apply_setter] in Hc.
  destruct (check_sports sports) as [ns|] eqn:E; [|done].
  injection Hc as <- <-. eexists _, ns.
  split; [apply with_config_lookup|]. split; [apply dict_lookup_set_eq|].
  by apply (check_sports_valid sports).
Qed.

Lemma interactive_done c w b c' w' :
  create_config_interactive c w = (Done b, c', w') ->
  exists d ss,
    builders w' !! b = Some (PDict d)
    /\ Dict.lookup "sports" d = Some (PList (map PStr ss))
    /\ valid_sports ss.
Proof.
  destruct c as [[|l1 [|l2 rest]] out]; [done|done|].
  destruct (run_interactive l1 l2 rest out w) as (out2 & out3 & ->).
  destruct (ConfigBuilder.load_default "config.default.json" w)
    as [[b0|e] w1]; [|done].
  destruct (ConfigBuilder.with_sports b0 (typed_sports l1) w1)
    as [[r|e] w2] eqn:Es; [|done].
  pose proof (with_sports_stores_valid _ _ _ _ _ Es) as H2.
  destruct (String.eqb (PyStr.strip l2) "2").
  2: { intros [= <- _ <-]. done. }
  destruct (ConfigBuilder.with_generation_mode b0 "llm" w2)
    as [[r'|e] w3] eqn:Em; [|done].
  pose proof (call_keeps_sports b0 (WithGenerationMode "llm") _ _ _ H2
                ltac:(done) Em) as H3.
  destruct rest as [|l3 rest']; [done|].
  destruct (ConfigBuilder.with_llm_provider b0 (chosen_provider l3) w3)
    as [[r''|e] w4] eqn:Ep; [|done].
  pose proof (call_keeps_sports b0 (WithLlmProvider (chosen_provider l3))
                _ _ _ H3 ltac:(done) Ep) as H4.
  intros [= <- _ <-]. done.
Qed.

(** X17.  Of all that is typed, only the sports can be refused: when
    [create_config_interactive] ends with a validation error, a first line
    was read and the error is the one [with_sports] raises for the sports of
    that line, on any builder.  The answers for the mode and the provider are
    never refused. *)
Theorem interactive_refuses_only_sports c w msg c' w' :
  create_config_interactive c w
  = (Failed (ConfigValidationError msg), c', w') ->
  exists line rest,
    stdin c = line :: rest
    /\ forall self w0,
         ConfigBuilder.with_sports self (typed_sports line) w0
         = (Raises (ConfigValidationError msg), w0).
Proof.
  destruct c as [[|l1 [|l2 rest]] out]; [done|done|].
  destruct (run_interactive l1 l2 rest out w) as (out2 & out3 & ->).
  pose proof (load_default_no_validation_error "config.default.json" w) as Hl.
  destruct (ConfigBuilder.load_default "config.default.json" w)
    as [[b|e] w1]; [|intros [= -> _ _]; done].
  clear Hl. intros E. exists l1, (l2 :: rest). split; [done|].
  intros self w0. apply check_sports_raises.
  destruct (ConfigBuilder.with_sports b (typed_sports l1) w1)
    as [[r|e] w2] eqn:Es.
  2: { injection E as -> _ _.
       by apply (with_sports_validation_error _ _ _ _ _ Es). }
  exfalso. destruct (String.eqb (PyStr.strip l2) "2"); [|done].
  pose proof (call_validation_error b (WithGenerationMode "llm") w2) as Hm.
  simpl in Hm.
  destruct (ConfigBuilder.with_generation_mode b "llm" w2) as [[r'|e] w3].
  2: { injection E as -> _ _. done. }
  destruct rest as [|l3 rest']; [done|].
  pose proof (with_llm_provider_valid_no_error b (chosen_provider l3) w3
                (chosen_provider_valid l3)) as Hp.
  destruct (ConfigBuilder.with_llm_provider b (chosen_provider l3) w3)
    as [[r''|e] w4]; [done|].
  injection E as -> _ _. done.
Qed.

(** The theorem on a line of two sports. *)
Lemma interactive_refuses_only_sports_witness :
  exists line rest,
    stdin (Console ["golf, chess"; "1"] "") = line :: rest
    /\ forall self w0,
         ConfigBuilder.with_sports self (typed_sports line) w0
         = (Raises (ConfigValidationError (ConfigBuilder.too_few_msg 2)), w0).
Proof.
  eapply (interactive_refuses_only_sports
            (Console ["golf, chess"; "1"] "") w_installed).
  vm_compute. reflexivity.
Defined.

(** X18.  [create_config_interactive] when the default file holds a JSON
    object and the sports typed are valid.  With any answer but ["2"] for the
    mode, the new builder holds the default document with the sports
    replaced: the mode and the [llm] block are those of the default file,
    whatever they are.  With ["2"], a third line is read, any answer but
    ["2"] stands for ["together"], and the document ends in ["llm"] mode with
    the provider chosen. *)
Theorem interactive_builds_on_the_default w text d0 l1 l2 rest out :
  files w !! "config.default.json" = Some text ->
  Json.loads text = Returns (PDict d0) ->
  valid_sports (map PyStr.strip (str_split "," (PyStr.strip l1))) ->
  let b := fresh (dom (builders w)) in
  let sports :=
    PList (map PStr (map PyStr.normalize
                       (map PyStr.strip (str_split "," (PyStr.strip l1))))) in
  (PyStr.strip l2 <> "2" ->
   exists out',
     create_config_interactive (Console (l1 :: l2 :: rest) out) w
     = (Done b, Console rest out',
        with_config b (PDict (Dict.set "sports" sports d0)) w))
  /\ (PyStr.strip l2 = "2" ->
      forall l3 rest',
        rest = l3 :: rest' ->
        (forall v, Dict.lookup "llm" d0 = Some v -> exists e, v = PDict e) ->
        exists out' d',
          create_config_interactive (Console (l1 :: l2 :: rest) out) w
          = (Done b, Console rest' out', with_config b (PDict d') w)
          /\ Dict.lookup "sports" d' = Some sports
          /\ Dict.lookup "generation_mode" d' = Some (PStr "llm")
          /\ exists e,
               Dict.lookup "llm" d' = Some (PDict e)
               /\ Dict.lookup "provider" e
                  = Some (PStr (chosen_provider l3))).
Proof.
  intros Hf Ht Hv b sports.
  destruct (run_interactive l1 l2 rest out w) as (out2 & out3 & ->).
  destruct (run_load_default "config.default.json" w)
    as [_ Hl].
  rewrite Hl by (by rewrite Hf). rewrite (run_load _ _ _ Hf), Ht.
  rewrite run_from_dict. fold b.
  change (ConfigBuilder.with_sports b ?s ?x) with (call b (WithSports s) x).
  rewrite (run_call _ _ _ _ (with_config_lookup _ _ _)). cbn [apply_setter].
  unfold typed_sports. rewrite (check_sports_strs_valid _ Hv).
  rewrite with_config_twice. fold sports.
  split.
  - intros Hne. apply String.eqb_neq in Hne. rewrite Hne. by eexists.
  - intros He l3 rest' -> Hllm. apply String.eqb_eq in He. rewrite He.
    change (ConfigBuilder.with_generation_mode b ?s ?x)
      with (call b (WithGenerationMode s) x).
    rewrite (run_call _ _ _ _ (with_config_lookup _ _ _)). cbn [apply_setter].
    simpl String.eqb. cbv iota. rewrite with_config_twice.
    change (ConfigBuilder.with_llm_provider b ?s ?x)
      with (call b (WithLlmProvider s) x).
    rewrite (run_call _ _ _ _ (with_config_lookup _ _ _)). cbn [apply_setter].
    pose proof (chosen_provider_valid l3) as Hp.
    apply provider_valid_eqb in Hp. rewrite Hp.
    set (d1 := ensure_llm
                 (Dict.set "generation_mode" (PStr "llm")
                    (Dict.set "sports" sports d0))).
    destruct (set_llm_field "provider" (PStr (chosen_provider l3)) d1)
      as [d'|e] eqn:E.
    + rewrite with_config_twice. eexists _, d'. split; [done|].
      destruct (set_llm_field_frame _ _ _ _ E) as (Hk & e & _ & Hl' & Hm).
      split.
      * rewrite Hk by done. unfold d1.
        rewrite lookup_ensure_llm_other, dict_lookup_set_ne by done.
        apply dict_lookup_set_eq.
      * split; [done|]. exists (Dict.set "provider"
                                  (PStr (chosen_provider l3)) e).
        split; [done|]. apply dict_lookup_set_eq.
    + exfalso. revert E. unfold set_llm_field, d1.
      rewrite ensure_llm_idem, lookup_ensure_llm.
      rewrite !dict_lookup_set_ne by done.
      destruct (Dict.lookup "llm" d0) as [v|] eqn:E0; simpl; [|done].
      by destruct (Hllm v eq_refl) as (e' & ->).
Qed.

(** The theorem on the default file of the tests and three sports. *)
Lemma interactive_builds_on_the_default_witness :
  let b := fresh (dom (builders w_installed)) in
  let sports :=
    PList (map PStr (map PyStr.normalize
                       (map PyStr.strip
                          (str_split ","
                             (PyStr.strip " Golf, chess ,POLO"))))) in
  (PyStr.strip "1" <> "2" ->
   exists out',
     create_config_interactive
       (Console [" Golf, chess ,POLO"; "1"] "") w_installed
     = (Done b, Console [] out',
        with_config b (PDict (Dict.set "sports" sports new_items))
          w_installed))
  /\ (PyStr.strip "1" = "2" ->
      forall l3 rest',
        [] = l3 :: rest' ->
        (forall v, Dict.lookup "llm" new_items = Some v ->
           exists e, v = PDict e) ->
        exists out' d',
          create_config_interactive
            (Console [" Golf, chess ,POLO"; "1"] "") w_installed
          = (Done b, Console rest' out', with_config b (PDict d') w_installed)
          /\ Dict.lookup "sports" d' = Some sports
          /\ Dict.lookup "generation_mode" d' = Some (PStr "llm")
          /\ exists e,
               Dict.lookup "llm" d' = Some (PDict e)
               /\ Dict.lookup "provider" e
                  = Some (PStr (chosen_provider l3))).
Proof.
  apply (interactive_builds_on_the_default w_installed
           (Json.dumps ConfigBuilder.init_config) new_items
           " Golf, chess ,POLO" "1" [] "").
  - reflexivity.
  - vm_compute. reflexivity.
  - split; [vm_compute; lia|]. split; compute_done.
Defined.

(** X19.  The command line.  Without [interactive] as its first argument
    nothing is read and nothing changes.  With it, no validation error
    escapes: it is turned into exit status 1.  [config.json] is written only
    when the program ends normally, and it then holds a document whose
    sports are three to five, distinct and none empty; in every other case
    no file has changed. *)
Theorem main_writes_only_valid_configs argv c w e c' w' :
  main argv c w = (e, c', w') ->
  (forall msg, e <> Failed (ConfigValidationError msg))
  /\ (forall code, e = SystemExit code -> code = 1%Z)
  /\ (e <> Done tt -> files w' = files w)
  /\ ((1 <? length argv) && String.eqb (nth 1 argv "") "interactive" = false ->
      e = Done tt /\ w' = w /\ stdin c' = stdin c)
  /\ ((1 <? length argv) && String.eqb (nth 1 argv "") "interactive" = true ->
      e = Done tt ->
      exists d ss,
        files w' = <["config.json" := Json.dumps (PDict d)]> (files w)
        /\ Dict.lookup "sports" d = Some (PList (map PStr ss))
        /\ valid_sports ss).
Proof.
  unfold main.
  destruct ((1 <? length argv) && String.eqb (nth 1 argv "") "interactive").
  2: { intros [= <- <- <-]. repeat split; try done. }
  unfold try_except, io_bind at 1.
  pose proof (interactive_files c w) as Hf.
  destruct (create_config_interactive c w) as [[[b|e0| |code] c1] w1] eqn:Ec;
    simpl in Hf.
  - pose proof (interactive_done _ _ _ _ _ Ec) as (d & ss & Hd & Hs & Hv).
    unfold io_bind at 1, run.
    destruct (ConfigBuilder.save b "config.json" w1) as [[path|e1] w2] eqn:Es.
    + unfold ConfigBuilder.save, bind at 1 in Es.
      rewrite (run_validate _ _ _ Hd) in Es.
      destruct (check_document d) as [doc|] eqn:Ed; [|done].
      apply check_document_returns in Ed as ->.
      unfold bind, write_file, ret in Es. injection Es as <- <-.
      unfold print. intros [= <- <- <-]. simpl.
      repeat split; try done.
      intros _ _. exists d, ss. by rewrite Hf.
    + pose proof (save_raises _ _ _ _ _ Es) as ->.
      destruct e1 as [msg| | | | | |];
        intros [= <- <- <-]; repeat split; try done; congruence.
  - destruct e0 as [msg| | | | | |];
      intros [= <- <- <-]; repeat split; try done; congruence.
  - intros [= <- <- <-]. repeat split; try done.
  - exfalso. revert Ec. clear.
    destruct c as [[|l1 [|l2 rest]] out]; [done|done|].
    destruct (run_interactive l1 l2 rest out w) as (out2 & out3 & ->).
    destruct (ConfigBuilder.load_default "config.default.json" w)
      as [[b0|e] w1']; [|done].
    destruct (ConfigBuilder.with_sports b0 (typed_sports l1) w1')
      as [[r|e] w2]; [|done].
    destruct (String.eqb (PyStr.strip l2) "2"); [|done].
    destruct (ConfigBuilder.with_generation_mode b0 "llm" w2)
      as [[r'|e] w3]; [|done].
    destruct rest as [|l3 rest']; [done|].
    by destruct (ConfigBuilder.with_llm_provider b0 (chosen_provider l3) w3)
      as [[r''|e] w4].
Qed.

(** The theorem on a session that ends normally. *)
Lemma main_writes_only_valid_configs_witness :
  (forall msg, fst (fst session) <> Failed (ConfigValidationError msg))
  /\ (forall code, fst (fst session) = SystemExit code -> code = 1%Z)
  /\ (fst (fst session) <> Done tt -> files (snd session) = files w_installed)
  /\ ((1 <? length session_argv)
      && String.eqb (nth 1 session_argv "") "interactive" = false ->
      fst (fst session) = Done tt
      /\ snd session = w_installed
      /\ stdin (snd (fst session)) = stdin session_console)
  /\ ((1 <? length session_argv)
      && String.eqb (nth 1 session_argv "") "interactive" = true ->
      fst (fst session) = Done tt ->
      exists d ss,
        files (snd session)
        = <["config.json" := Json.dumps (PDict d)]> (files w_installed)
        /\ Dict.lookup "sports" d = Some (PList (map PStr ss))
        /\ valid_sports ss).
Proof.
  apply (main_writes_only_valid_configs session_argv session_console
           w_installed (fst (fst session)) (snd (fst session)) (snd session)).
  vm_compute. reflexivity.
Defined.

(** ** Objects by reference *)

Lemma heap_update_eq a o s : Shared.heap (Shared.update a o s) !! a = Some o.
Proof. apply lookup_insert_eq. Qed.

Lemma heap_update_ne a o s x :
  a <> x -> Shared.heap (Shared.update a o s) !! x = Shared.heap s !! x.
Proof. intros H. by apply lookup_insert_ne. Qed.

Lemma shared_run_get_config self v s :
  Shared.configs s !! self = Some v ->
  Shared.get_config self s = (Returns v, s).
Proof. intros H. unfold Shared.get_config. by rewrite H. Qed.

Lemma shared_run_getitem a d k s :
  Shared.heap s !! a = Some (Shared.ODict d) ->
  Shared.getitem (Shared.VRef a) k s
  = (match Shared.lookup k d with
     | Some v => Returns v
     | None => Raises (KeyError k)
     end, s).
Proof.
  intros H. unfold Shared.getitem, Shared.bind, Shared.object_of.
  rewrite H. by destruct (Shared.lookup k d).
Qed.

Lemma shared_run_setitem a d k v s :
  Shared.heap s !! a = Some (Shared.ODict d) ->
  Shared.setitem (Shared.VRef a) k v s
  = (Returns tt, Shared.update a (Shared.ODict (Shared.set k v d)) s).
Proof.
  intros H. unfold Shared.setitem, Shared.bind, Shared.object_of.
  by rewrite H.
Qed.

Lemma shared_run_contains a d k s :
  Shared.heap s !! a = Some (Shared.ODict d) ->
  Shared.contains k (Shared.VRef a) s
  = (Returns (match Shared.lookup k d with Some _ => true | None => false end),
     s).
Proof.
  intros H. unfold Shared.contains, Shared.bind, Shared.object_of.
  by rewrite H.
Qed.

Lemma shared_run_copy a o s :
  Shared.heap s !! a = Some o ->
  Shared.copy (Shared.VRef a) s
  = (Returns (Shared.VRef (fresh (dom (Shared.heap s)))),
     Shared.update (fresh (dom (Shared.heap s))) o s).
Proof.
  intros H. unfold Shared.copy, Shared.bind, Shared.object_of.
  by rewrite H.
Qed.

Lemma shared_fresh_unused s :
  Shared.heap s !! fresh (dom (Shared.heap s)) = None.
Proof. apply not_elem_of_dom, is_fresh. Qed.

Lemma shared_fresh_ne s a o :
  Shared.heap s !! a = Some o -> fresh (dom (Shared.heap s)) <> a.
Proof. intros H E. rewrite <- E, shared_fresh_unused in H. done. Qed.

Lemma shared_lookup_set_eq k v d : Shared.lookup k (Shared.set k v d) = Some v.
Proof.
  induction d as [|[k' v'] d IH]; simpl.
  - by rewrite String.eqb_refl.
  - destruct (String.eqb k k') eqn:E; simpl.
    + by rewrite String.eqb_refl.
    + by rewrite E.
Qed.

Lemma shared_lookup_set_ne k k' v d :
  k <> k' -> Shared.lookup k' (Shared.set k v d) = Shared.lookup k' d.
Proof.
  intros Hne. induction d as [|[k0 v0] d IH]; simpl.
  - destruct (String.eqb k' k) eqn:E; [|done].
    apply String.eqb_eq in E. congruence.
  - destruct (String.eqb k k0) eqn:E; simpl.
    + apply String.eqb_eq in E. subst k0.
      destruct (String.eqb k' k) eqn:E'; [|done].
      apply String.eqb_eq in E'. congruence.
    + by rewrite IH.
Qed.

(** [self.config[k] = v] on a builder whose document is the dictionary at
    [c]. *)
Lemma shared_run_config_setitem self c d k v s :
  Shared.configs s !! self = Some (Shared.VRef c) ->
  Shared.heap s !! c = Some (Shared.ODict d) ->
  Shared.config_setitem self k v s
  = (Returns tt, Shared.update c (Shared.ODict (Shared.set k v d)) s).
Proof.
  intros Hc Hd. unfold Shared.config_setitem, Shared.bind.
  rewrite (shared_run_get_config _ _ _ Hc).
  apply (shared_run_setitem _ _ _ _ _ Hd).
Qed.

Lemma shared_run_config_contains self c d k s :
  Shared.configs s !! self = Some (Shared.VRef c) ->
  Shared.heap s !! c = Some (Shared.ODict d) ->
  Shared.config_contains self k s
  = (Returns (match Shared.lookup k d with Some _ => true | None => false end),
     s).
Proof.
  intros Hc Hd. unfold Shared.config_contains, Shared.bind.
  rewrite (shared_run_get_config _ _ _ Hc).
  apply (shared_run_contains _ _ _ _ Hd).
Qed.

Lemma shared_run_config_setitem2 self c d l e k v s :
  Shared.configs s !! self = Some (Shared.VRef c) ->
  Shared.heap s !! c = Some (Shared.ODict d) ->
  Shared.lookup "llm" d = Some (Shared.VRef l) ->
  Shared.heap s !! l = Some (Shared.ODict e) ->
  Shared.config_setitem2 self "llm" k v s
  = (Returns tt, Shared.update l (Shared.ODict (Shared.set k v e)) s).
Proof.
  intros Hc Hd Hl He. unfold Shared.config_setitem2, Shared.bind.
  rewrite (shared_run_get_config _ _ _ Hc).
  rewrite (shared_run_getitem _ _ _ _ Hd), Hl.
  apply (shared_run_setitem _ _ _ _ _ He).
Qed.

(** The end of both LLM setters when the block is the dictionary at [l],
    another object than the document. *)
Lemma shared_run_llm_field self c d l e k v s :
  Shared.configs s !! self = Some (Shared.VRef c) ->
  Shared.heap s !! c = Some (Shared.ODict d) ->
  Shared.lookup "llm" d = Some (Shared.VRef l) ->
  Shared.heap s !! l = Some (Shared.ODict e) ->
  l <> c ->
  Shared.bind (Shared.config_setitem2 self "llm" k v)
    (fun _ =>
       Shared.bind
         (Shared.config_setitem self "generation_mode" (Shared.VStr "llm"))
         (fun _ => Shared.ret self)) s
  = (Returns self,
     Shared.update c
       (Shared.ODict (Shared.set "generation_mode" (Shared.VStr "llm") d))
       (Shared.update l (Shared.ODict (Shared.set k v e)) s)).
Proof.
  intros Hc Hd Hl He Hne. unfold Shared.bind at 1.
  rewrite (shared_run_config_setitem2 _ _ _ _ _ _ _ _ Hc Hd Hl He).
  unfold Shared.bind.
  rewrite (shared_run_config_setitem self c d).
  - done.
  - done.
  - by rewrite heap_update_ne.
Qed.

Lemma extends_refl s : extends s s.
Proof. by intros x o. Qed.

Lemma extends_trans s1 s2 s3 : extends s1 s2 -> extends s2 s3 -> extends s1 s3.
Proof. intros H1 H2 x o Hx. by apply H2, H1. Qed.

Lemma extends_alloc o s :
  extends s (Shared.update (fresh (dom (Shared.heap s))) o s).
Proof.
  intros x o' Hx. rewrite heap_update_ne; [done|].
  by apply (shared_fresh_ne _ _ o').
Qed.

(** [ConfigBuilder()]: a new builder, a new empty list and a new dictionary. *)
Lemma shared_run_new s :
  exists l c s',
    Shared.new s = (Returns (fresh (dom (Shared.configs s))), s')
    /\ Shared.configs s'
       = <[fresh (dom (Shared.configs s)) := Shared.VRef c]> (Shared.configs s)
    /\ Shared.heap s' !! c = Some (Shared.ODict (init_items l))
    /\ Shared.heap s' !! l = Some (Shared.OList [])
    /\ Shared.heap s !! c = None
    /\ Shared.heap s !! l = None
    /\ extends s s'.
Proof.
  unfold Shared.new, Shared.bind, Shared.new_builder, Shared.alloc,
    Shared.set_config, Shared.ret. simpl.
  set (l := fresh (dom (Shared.heap s))).
  set (s1 := Shared.update l (Shared.OList []) s).
  change (<[l := Shared.OList []]> (Shared.heap s)) with (Shared.heap s1).
  set (c := fresh (dom (Shared.heap s1))).
  assert (extends s s1) as H1 by apply extends_alloc.
  assert (Shared.heap s1 !! l = Some (Shared.OList [])) as Hl
    by apply heap_update_eq.
  exists l, c. eexists. split; [reflexivity|]. simpl.
  split; [done|]. split; [apply lookup_insert_eq|].
  split.
  - rewrite lookup_insert_ne; [done|]. by apply (shared_fresh_ne s1 _ _ Hl).
  - split.
    + destruct (Shared.heap s !! c) as [o|] eqn:E; [|done].
      apply H1 in E. pose proof (shared_fresh_unused s1) as Hf.
      fold c in Hf. congruence.
    + split; [apply shared_fresh_unused|].
      apply (extends_trans _ s1); [done|]. apply (extends_alloc _ s1).
Qed.

(** [from_dict] on a list or a dictionary: a new builder whose document is a
    new object with the items of the one given; every object there was is as
    it was. *)
Lemma shared_run_from_dict a o s :
  Shared.heap s !! a = Some o ->
  exists c s',
    Shared.from_dict (Shared.VRef a) s
    = (Returns (fresh (dom (Shared.configs s))), s')
    /\ Shared.configs s' !! fresh (dom (Shared.configs s))
       = Some (Shared.VRef c)
    /\ Shared.heap s' !! c = Some o
    /\ Shared.heap s !! c = None
    /\ extends s s'.
Proof.
  intros Ha. unfold Shared.from_dict, Shared.bind at 1.
  destruct (shared_run_new s)
    as (l0 & c0 & s1 & -> & Hcfg & _ & _ & _ & _ & H1).
  unfold Shared.bind at 1. rewrite (shared_run_copy a o) by (by apply H1).
  unfold Shared.bind, Shared.set_config, Shared.ret. simpl.
  eexists _, _. split; [reflexivity|]. simpl.
  split; [apply lookup_insert_eq|]. split; [apply lookup_insert_eq|].
  split.
  - destruct (Shared.heap s !! fresh (dom (Shared.heap s1))) as [o'|] eqn:E;
      [|done].
    apply H1 in E. by rewrite shared_fresh_unused in E.
  - apply (extends_trans _ s1); [done|]. apply extends_alloc.
Qed.

Lemma shared_run_with_llm_provider self c d l e provider s :
  Shared.configs s !! self = Some (Shared.VRef c) ->
  Shared.heap s !! c = Some (Shared.ODict d) ->
  Shared.lookup "llm" d = Some (Shared.VRef l) ->
  Shared.heap s !! l = Some (Shared.ODict e) ->
  l <> c ->
  provider ∈ ConfigBuilder.VALID_LLM_PROVIDERS ->
  Shared.with_llm_provider self provider s
  = (Returns self,
     Shared.update c
       (Shared.ODict (Shared.set "generation_mode" (Shared.VStr "llm") d))
       (Shared.update l
          (Shared.ODict (Shared.set "provider" (Shared.VStr provider) e)) s)).
Proof.
  intros Hc Hd Hl He Hne Hin. unfold Shared.with_llm_provider.
  apply existsb_eqb_elem in Hin. rewrite Hin. cbn [negb].
  unfold Shared.bind at 1.
  rewrite (shared_run_config_contains _ _ _ _ _ Hc Hd), Hl. cbn [negb].
  unfold Shared.bind at 1, Shared.ret at 1.
  by apply shared_run_llm_field.
Qed.

Lemma step_ok_setitem c d k v s :
  Shared.heap s !! c = Some (Shared.ODict d) ->
  block_ok s c d ->
  k <> "llm" ->
  step_ok c d s (Shared.update c (Shared.ODict (Shared.set k v d)) s).
Proof.
  intros Hd Hb Hk. split; [done|]. split.
  - intros x o Hx Hxc _. by rewrite heap_update_ne.
  - eexists. split; [apply heap_update_eq|].
    intros v0. rewrite shared_lookup_set_ne by done. intros Hv.
    destruct (Hb v0 Hv) as (l & e & -> & Hlc & He).
    exists l, e. split; [done|]. split; [done|].
    split; [by rewrite heap_update_ne|by left].
Qed.

(** The end of both LLM setters, from a store where the block is there. *)
Lemma step_ok_llm_field self c d0 d k v s0 s r s' :
  Shared.configs s !! self = Some (Shared.VRef c) ->
  Shared.heap s !! c = Some (Shared.ODict d) ->
  (exists l e,
     Shared.lookup "llm" d = Some (Shared.VRef l) /\ l <> c
     /\ Shared.heap s !! l = Some (Shared.ODict e)
     /\ (Shared.lookup "llm" d0 = Some (Shared.VRef l)
         \/ Shared.heap s0 !! l = None)) ->
  Shared.configs s = Shared.configs s0 ->
  touches_own c d0 s0 s ->
  Shared.bind (Shared.config_setitem2 self "llm" k v)
    (fun _ =>
       Shared.bind
         (Shared.config_setitem self "generation_mode" (Shared.VStr "llm"))
         (fun _ => Shared.ret self)) s
  = (Returns r, s') ->
  step_ok c d0 s0 s'.
Proof.
  intros Hc Hd (l & e & Hl & Hlc & He & Hold) Hcfg Hto.
  rewrite (shared_run_llm_field _ _ _ _ _ _ _ _ Hc Hd Hl He Hlc).
  intros [= _ <-]. split; [done|]. split.
  - intros x o Hx Hxc Hxl.
    assert (l <> x) as Hlx.
    { intros ->. destruct Hold as [Ho|Ho]; [done|congruence]. }
    rewrite !heap_update_ne by done. by apply Hto.
  - eexists. split; [apply heap_update_eq|].
    intros v0. rewrite shared_lookup_set_ne by done. rewrite Hl.
    intros [= <-]. eexists l, _. split; [done|]. split; [done|].
    split.
    + rewrite heap_update_ne by done. apply heap_update_eq.
    + destruct Hold as [Ho|Ho]; [by left|by right].
Qed.

(** The default block is copied into a document [dc] that has none. *)
Lemma shared_run_inject self c dc o0 s :
  Shared.configs s !! self = Some (Shared.VRef c) ->
  Shared.heap s !! c = Some (Shared.ODict dc) ->
  Shared.heap s !! Shared.DEFAULT_LLM_CONFIG = Some o0 ->
  Shared.bind (Shared.copy (Shared.VRef Shared.DEFAULT_LLM_CONFIG))
    (fun block => Shared.config_setitem self "llm" block) s
  = (Returns tt,
     Shared.update c
       (Shared.ODict
          (Shared.set "llm" (Shared.VRef (fresh (dom (Shared.heap s)))) dc))
       (Shared.update (fresh (dom (Shared.heap s))) o0 s)).
Proof.
  intros Hc Hd H0. unfold Shared.bind.
  rewrite (shared_run_copy _ _ _ H0).
  apply shared_run_config_setitem; [done|].
  rewrite heap_update_ne; [done|]. by apply (shared_fresh_ne _ _ _ Hd).
Qed.

Lemma step_ok_inject c d dc o0 s0 s :
  Shared.heap s !! c = Some (Shared.ODict dc) ->
  Shared.lookup "llm" dc = None ->
  Shared.configs s = Shared.configs s0 ->
  touches_own c d s0 s ->
  (forall x, Shared.heap s !! x = None -> Shared.heap s0 !! x = None) ->
  let l := fresh (dom (Shared.heap s)) in
  let s' := Shared.update c
              (Shared.ODict (Shared.set "llm" (Shared.VRef l) dc))
              (Shared.update l o0 s) in
  Shared.configs s' = Shared.configs s0
  /\ touches_own c d s0 s'
  /\ l <> c
  /\ Shared.heap s' !! c
     = Some (Shared.ODict (Shared.set "llm" (Shared.VRef l) dc))
  /\ Shared.heap s' !! l = Some o0
  /\ Shared.heap s0 !! l = None.
Proof.
  intros Hd Hn Hcfg Hto Hnone l s'.
  assert (l <> c) as Hlc by (by apply (shared_fresh_ne _ _ _ Hd)).
  assert (Shared.heap s0 !! l = None) as Hl0.
  { apply Hnone, shared_fresh_unused. }
  split; [done|]. split.
  - intros x o Hx Hxc Hxl. unfold s'.
    rewrite !heap_update_ne; [by apply Hto|congruence|done].
  - split; [done|]. split; [apply heap_update_eq|]. split; [|done].
    unfold s'. rewrite heap_update_ne by done. apply heap_update_eq.
Qed.

(** The LLM setters after the check of the argument. *)
Lemma step_ok_llm_setter self c d e0 k v s r s' :
  Shared.configs s !! self = Some (Shared.VRef c) ->
  Shared.heap s !! c = Some (Shared.ODict d) ->
  block_ok s c d ->
  Shared.heap s !! Shared.DEFAULT_LLM_CONFIG = Some (Shared.ODict e0) ->
  Shared.bind (Shared.config_contains self "llm")
    (fun has_llm =>
       Shared.bind
         (if negb has_llm then
            Shared.bind (Shared.copy (Shared.VRef Shared.DEFAULT_LLM_CONFIG))
              (fun block => Shared.config_setitem self "llm" block)
          else Shared.ret tt)
         (fun _ =>
            Shared.bind (Shared.config_setitem2 self "llm" k v)
              (fun _ =>
                 Shared.bind
                   (Shared.config_setitem self "generation_mode"
                      (Shared.VStr "llm"))
                   (fun _ => Shared.ret self)))) s
  = (Returns r, s') ->
  step_ok c d s s'.
Proof.
  intros Hc Hd Hb H0. unfold Shared.bind at 1.
  rewrite (shared_run_config_contains _ _ _ _ _ Hc Hd).
  destruct (Shared.lookup "llm" d) as [v0|] eqn:El; cbn [negb].
  - unfold Shared.bind at 1, Shared.ret at 1.
    destruct (Hb v0 El) as (l & e & -> & Hlc & He).
    apply (step_ok_llm_field self c d d k v s s r s'); try done.
    + exists l, e. split; [by rewrite El|]. split; [done|]. split; [done|].
      left. by rewrite El.
    + intros x o Hx _ _. done.
  - unfold Shared.bind at 1.
    rewrite (shared_run_inject _ _ _ _ _ Hc Hd H0).
    destruct (step_ok_inject c d d (Shared.ODict e0) s s Hd El eq_refl)
      as (Hcfg & Hto & Hlc & Hd' & Hl' & Hl0).
    { intros x o Hx _ _. done. }
    { done. }
    intros Hrun.
    apply (step_ok_llm_field self c d _ k v s _ r s'
             ltac:(by rewrite Hcfg) Hd'); try done.
    exists (fresh (dom (Shared.heap s))), e0.
    split; [apply shared_lookup_set_eq|]. split; [done|].
    split; [done|]. by right.
Qed.

(** A successful setter call on a builder whose document is a dictionary
    with a proper block, or none. *)
Lemma shared_call_step self c d e0 op s r s' :
  Shared.configs s !! self = Some (Shared.VRef c) ->
  Shared.heap s !! c = Some (Shared.ODict d) ->
  block_ok s c d ->
  Shared.heap s !! Shared.DEFAULT_LLM_CONFIG = Some (Shared.ODict e0) ->
  Shared.DEFAULT_LLM_CONFIG <> c ->
  Shared.call self op s = (Returns r, s') ->
  step_ok c d s s'.
Proof.
  intros Hc Hd Hb H0 H0c.
  destruct op as [sports|enabled|mode|provider|model]; simpl.
  - unfold Shared.with_sports, Shared.bind at 1, Shared.object_of.
    destruct sports as [| | | |a0]; try discriminate.
    destruct (Shared.heap s !! a0) as [[l0|d0]|]; try discriminate.
    destruct (length l0 <? _); [discriminate|].
    destruct (_ <? length l0); [discriminate|].
    unfold Shared.bind at 1, Shared.lift.
    destruct (comprehension Shared.strip_lower l0) as [names|e];
      [|discriminate].
    unfold Shared.bind at 1, Shared.alloc.
    destruct (negb _); [discriminate|].
    destruct (existsb _ names); [discriminate|].
    set (l := fresh (dom (Shared.heap s))).
    change (Shared.Store (<[l := ?o]> (Shared.heap s)) (Shared.configs s))
      with (Shared.update l o s).
    unfold Shared.bind.
    assert (l <> c) as Hlc by (by apply (shared_fresh_ne _ _ _ Hd)).
    rewrite (shared_run_config_setitem self c d)
      by (done || by rewrite heap_update_ne).
    intros [= _ <-]. split; [done|]. split.
    + intros x o Hx Hxc _. rewrite !heap_update_ne; [done| |done].
      by apply (shared_fresh_ne _ _ _ Hx).
    + eexists. split; [apply heap_update_eq|].
      intros v0. rewrite shared_lookup_set_ne by done. intros Hv.
      destruct (Hb v0 Hv) as (l1 & e & -> & Hl1 & He).
      exists l1, e. split; [done|]. split; [done|]. split; [|by left].
      rewrite !heap_update_ne; [done| |done].
      by apply (shared_fresh_ne _ _ _ He).
  - unfold Shared.with_retry, Shared.bind.
    rewrite (shared_run_config_setitem _ _ _ _ _ _ Hc Hd).
    intros [= _ <-]. by apply step_ok_setitem.
  - unfold Shared.with_generation_mode.
    destruct (negb _); [discriminate|].
    unfold Shared.bind at 1.
    rewrite (shared_run_config_setitem _ _ _ _ _ _ Hc Hd).
    set (d1 := Shared.set "generation_mode" (Shared.VStr mode) d).
    set (s1 := Shared.update c (Shared.ODict d1) s).
    assert (step_ok c d s s1) as H1 by (by apply step_ok_setitem).
    destruct (String.eqb mode "llm").
    2: { unfold Shared.bind, Shared.ret. by intros [= _ <-]. }
    assert (Shared.heap s1 !! c = Some (Shared.ODict d1)) as Hd1
      by apply heap_update_eq.
    unfold Shared.bind at 1, Shared.bind at 1.
    rewrite (shared_run_config_contains self c d1) by done.
    assert (Shared.lookup "llm" d1 = Shared.lookup "llm" d) as Hl1
      by (by apply shared_lookup_set_ne).
    rewrite Hl1.
    destruct (Shared.lookup "llm" d) as [v0|] eqn:El; cbn [negb].
    { unfold Shared.ret. by intros [= _ <-]. }
    rewrite (shared_run_inject self c d1 (Shared.ODict e0)) by
      (done || by (unfold s1; rewrite heap_update_ne)).
    unfold Shared.ret. intros [= _ <-].
    destruct H1 as (Hcfg1 & Hto1 & _).
    destruct (step_ok_inject c d d1 (Shared.ODict e0) s s1 Hd1
                ltac:(by rewrite Hl1) Hcfg1 Hto1)
      as (Hcfg & Hto & Hlc & Hd' & Hl' & Hl0).
    { intros x Hx. destruct (decide (c = x)) as [<-|Hne].
      - unfold s1 in Hx. by rewrite heap_update_eq in Hx.
      - unfold s1 in Hx. by rewrite heap_update_ne in Hx. }
    split; [done|]. split; [done|].
    eexists. split; [exact Hd'|].
    intros v0. rewrite shared_lookup_set_eq. intros [= <-].
    eexists _, e0. split; [done|]. split; [done|]. split; [done|].
    by right.
  - unfold Shared.with_llm_provider.
    destruct (negb _); [discriminate|].
    by apply (step_ok_llm_setter self c d e0).
  - unfold Shared.with_llm_model.
    by apply (step_ok_llm_setter self c d e0).
Qed.

Lemma reads_only_bind {A B} (m : Shared.H A) (f : A -> Shared.H B) :
  reads_only m -> (forall a, reads_only (f a)) -> reads_only (Shared.bind m f).
Proof.
  intros Hm Hf s. unfold Shared.bind. specialize (Hm s).
  destruct (m s) as [[a|e] s1]; simpl in Hm; subst s1; [apply Hf|done].
Qed.

Lemma reads_only_object_of v : reads_only (Shared.object_of v).
Proof.
  intros s. unfold Shared.object_of. destruct v; try done.
  by destruct (Shared.heap s !! a).
Qed.

Lemma reads_only_get_config self : reads_only (Shared.get_config self).
Proof.
  intros s. unfold Shared.get_config. by destruct (Shared.configs s !! self).
Qed.

Lemma reads_only_getitem c k : reads_only (Shared.getitem c k).
Proof.
  apply reads_only_bind; [apply reads_only_object_of|].
  intros [[a [l|d]]|]; try done. intros s. by destruct (Shared.lookup k d).
Qed.

Lemma reads_only_contains k c : reads_only (Shared.contains k c).
Proof.
  apply reads_only_bind; [apply reads_only_object_of|].
  intros [[a [l|d]]|]; try done. by destruct c.
Qed.

Lemma reads_only_get c k : reads_only (Shared.get c k).
Proof.
  apply reads_only_bind; [apply reads_only_object_of|].
  by intros [[a [l|d]]|].
Qed.

Lemma reads_only_truthy v : reads_only (Shared.truthy v).
Proof.
  apply reads_only_bind; [apply reads_only_object_of|].
  by intros [[a [l|d]]|].
Qed.

Lemma reads_only_validate self : reads_only (Shared.validate self).
Proof.
  unfold Shared.validate, Shared.config_getitem, Shared.config_contains.
  repeat first
    [ apply reads_only_get_config | apply reads_only_getitem
    | apply reads_only_contains | apply reads_only_get
    | apply reads_only_truthy
    | apply reads_only_bind; [|intros ?]
    | match goal with
      | |- reads_only (if ?b then _ else _) => destruct b
      end
    | done ].
Qed.

Lemma shared_bind_returns {A B} (m : Shared.H A) (f : A -> Shared.H B) s b s' :
  Shared.bind m f s = (Returns b, s') ->
  exists a s1, m s = (Returns a, s1) /\ f a s1 = (Returns b, s').
Proof.
  unfold Shared.bind. destruct (m s) as [[a|e] s1]; [|done]. by exists a, s1.
Qed.

Lemma shared_validate_returns self s doc s1 :
  Shared.validate self s = (Returns doc, s1) ->
  s1 = s /\ Shared.configs s !! self = Some doc.
Proof.
  intros Hv. pose proof (reads_only_validate self s) as Hs.
  rewrite Hv in Hs. simpl in Hs. subst s1. split; [done|].
  unfold Shared.validate in Hv.
  apply shared_bind_returns in Hv as (sports & s1 & _ & Hv).
  apply shared_bind_returns in Hv as (filled & s2 & _ & Hv).
  destruct (negb filled); [done|].
  apply shared_bind_returns in Hv as (mode & s3 & _ & Hv).
  apply shared_bind_returns in Hv as ([] & s4 & _ & Hv).
  pose proof (reads_only_get_config self s4) as Hs4. rewrite Hv in Hs4.
  simpl in Hs4. subst s4. unfold Shared.get_config in Hv.
  destruct (Shared.configs s !! self); congruence.
Qed.

(** X20.  [from_dict] copies the top level only.  After [from_dict(data)]
    and [with_llm_provider] on the builder it returns, the dictionary [data]
    still has the fields it had, its mode too, but the [llm] block it holds
    has the new provider: the builder and [data] share that block. *)
Theorem from_dict_shares_the_llm_block s a d l e provider :
  Shared.heap s !! a = Some (Shared.ODict d) ->
  Shared.lookup "llm" d = Some (Shared.VRef l) ->
  Shared.heap s !! l = Some (Shared.ODict e) ->
  a <> l ->
  provider ∈ ConfigBuilder.VALID_LLM_PROVIDERS ->
  exists b c s1 s2,
    Shared.from_dict (Shared.VRef a) s = (Returns b, s1)
    /\ Shared.with_llm_provider b provider s1 = (Returns b, s2)
    /\ Shared.configs s2 !! b = Some (Shared.VRef c)
    /\ c <> a
    /\ Shared.heap s2 !! c
       = Some (Shared.ODict
                 (Shared.set "generation_mode" (Shared.VStr "llm") d))
    /\ Shared.heap s2 !! a = Some (Shared.ODict d)
    /\ Shared.heap s2 !! l
       = Some (Shared.ODict
                 (Shared.set "provider" (Shared.VStr provider) e)).
Proof.
  intros Ha Hl He Hal Hin.
  destruct (shared_run_from_dict a _ s Ha)
    as (c & s1 & Hfd & Hc & Hd & Hnew & Hext).
  assert (c <> a) as Hca by (intros ->; congruence).
  assert (l <> c) as Hlc by (intros ->; congruence).
  eexists _, c, s1, _. split; [exact Hfd|].
  split.
  { apply (shared_run_with_llm_provider _ c d l e); try done. by apply Hext. }
  split; [done|]. split; [done|].
  split; [apply heap_update_eq|]. split.
  - rewrite !heap_update_ne by done. by apply Hext.
  - rewrite heap_update_ne by done. apply heap_update_eq.
Qed.

(** The theorem on a dictionary whose block is [DEFAULT_LLM_CONFIG] itself:
    the class attribute ends with the provider ["huggingface"]. *)
Lemma from_dict_shares_the_llm_block_witness :
  exists b c s1 s2,
    Shared.from_dict (Shared.VRef 1) store_data = (Returns b, s1)
    /\ Shared.with_llm_provider b "huggingface" s1 = (Returns b, s2)
    /\ Shared.configs s2 !! b = Some (Shared.VRef c)
    /\ c <> 1
    /\ Shared.heap s2 !! c
       = Some (Shared.ODict
                 (Shared.set "generation_mode" (Shared.VStr "llm")
                    [("generation_mode", Shared.VStr "template");
                     ("llm", Shared.VRef Shared.DEFAULT_LLM_CONFIG)]))
    /\ Shared.heap s2 !! 1
       = Some (Shared.ODict
                 [("generation_mode", Shared.VStr "template");
                  ("llm", Shared.VRef Shared.DEFAULT_LLM_CONFIG)])
    /\ Shared.heap s2 !! Shared.DEFAULT_LLM_CONFIG
       = Some (Shared.ODict
                 (Shared.set "provider" (Shared.VStr "huggingface")
                    Shared.default_llm_items)).
Proof.
  apply (from_dict_shares_the_llm_block store_data 1 _
           Shared.DEFAULT_LLM_CONFIG Shared.default_llm_items "huggingface").
  - reflexivity.
  - reflexivity.
  - reflexivity.
  - discriminate.
  - apply provider_valid_eqb. reflexivity.
Defined.

(** X21.  A setter that succeeds changes two objects at most: the
    dictionary of its builder and the [llm] block that dictionary holds.
    Every other list and dictionary is as it was, and no builder has got
    another document. *)
Theorem setter_touches_only_its_own_objects self c d e0 op s r s' :
  Shared.configs s !! self = Some (Shared.VRef c) ->
  Shared.heap s !! c = Some (Shared.ODict d) ->
  block_ok s c d ->
  Shared.heap s !! Shared.DEFAULT_LLM_CONFIG = Some (Shared.ODict e0) ->
  Shared.DEFAULT_LLM_CONFIG <> c ->
  Shared.call self op s = (Returns r, s') ->
  Shared.configs s' = Shared.configs s
  /\ forall x o,
       Shared.heap s !! x = Some o ->
       x <> c ->
       Shared.lookup "llm" d <> Some (Shared.VRef x) ->
       Shared.heap s' !! x = Some o.
Proof.
  intros Hc Hd Hb H0 H0c Hcall.
  destruct (shared_call_step _ _ _ _ _ _ _ _ Hc Hd Hb H0 H0c Hcall)
    as (Hcfg & Hto & _).
  split; [done|]. exact Hto.
Qed.

(** The theorem for [with_llm_provider] on a new builder. *)
Lemma setter_touches_only_its_own_objects_witness :
  Shared.configs (snd (Shared.call 0 (Shared.SetLlmProvider "huggingface")
                         store_new))
  = Shared.configs store_new
  /\ forall x o,
       Shared.heap store_new !! x = Some o ->
       x <> 2 ->
       Shared.lookup "llm" (init_items 1) <> Some (Shared.VRef x) ->
       Shared.heap (snd (Shared.call 0 (Shared.SetLlmProvider "huggingface")
                           store_new)) !! x
       = Some o.
Proof.
  apply (setter_touches_only_its_own_objects 0 2 (init_items 1)
           Shared.default_llm_items (Shared.SetLlmProvider "huggingface")
           store_new 0).
  - reflexivity.
  - reflexivity.
  - intros v H. discriminate H.
  - reflexivity.
  - discriminate.
  - vm_compute. reflexivity.
Defined.

(** X22.  A builder made by [ConfigBuilder()] and setter calls works on
    objects of its own: its document and its [llm] block are dictionaries made
    after the builder was asked for, and every object there was before, the
    class attribute [DEFAULT_LLM_CONFIG] among them, is as it was. *)
Theorem built_builders_own_their_objects s0 self s e0 :
  Shared.heap s0 !! Shared.DEFAULT_LLM_CONFIG = Some (Shared.ODict e0) ->
  Shared.reached s0 self s ->
  (exists c d,
     Shared.configs s !! self = Some (Shared.VRef c)
     /\ Shared.heap s !! c = Some (Shared.ODict d)
     /\ Shared.heap s0 !! c = None
     /\ forall v, Shared.lookup "llm" d = Some v ->
          exists l e,
            v = Shared.VRef l /\ l <> c
            /\ Shared.heap s !! l = Some (Shared.ODict e)
            /\ Shared.heap s0 !! l = None)
  /\ forall x o, Shared.heap s0 !! x = Some o -> Shared.heap s !! x = Some o.
Proof.
  intros H0 Hr. induction Hr as [self s Hnew|self s op r s' Hr IH Hcall].
  - destruct (shared_run_new s0)
      as (l & c & s1 & E & Hcfg & Hc & Hl & Hc0 & _ & Hext).
    rewrite E in Hnew. injection Hnew as <- <-. split; [|exact Hext].
    exists c, (init_items l). split; [rewrite Hcfg; apply lookup_insert_eq|].
    split; [done|]. split; [done|]. by intros v [=].
  - destruct IH as ((c & d & Hc & Hd & Hc0 & Hb) & Hext).
    assert (Shared.DEFAULT_LLM_CONFIG <> c) as H0c by (intros E; congruence).
    assert (block_ok s c d) as Hbo.
    { intros v Hv. destruct (Hb v Hv) as (l & e & -> & Hlc & He & _).
      by exists l, e. }
    destruct (shared_call_step _ _ _ _ _ _ _ _ Hc Hd Hbo (Hext _ _ H0) H0c
                Hcall) as (Hcfg & Hto & d' & Hd' & Hb').
    split.
    + exists c, d'. split; [by rewrite Hcfg|]. split; [done|].
      split; [done|]. intros v Hv.
      destruct (Hb' v Hv) as (l & e & -> & Hlc & He & Hold).
      exists l, e. split; [done|]. split; [done|]. split; [done|].
      destruct Hold as [Ho|Ho].
      * by destruct (Hb _ Ho) as (l1 & e1 & [= <-] & _ & _ & Hl0).
      * destruct (Shared.heap s0 !! l) as [o|] eqn:E; [|done].
        apply Hext in E. congruence.
    + intros x o Hx. apply Hto; [by apply Hext|congruence|].
      intros Hl. destruct (Hb _ Hl) as (l1 & e1 & [= <-] & _ & _ & Hl0).
      congruence.
Qed.

(** The theorem on a new builder. *)
Lemma built_builders_own_their_objects_witness :
  (exists c d,
     Shared.configs store_new !! 0 = Some (Shared.VRef c)
     /\ Shared.heap store_new !! c = Some (Shared.ODict d)
     /\ Shared.heap Shared.store0 !! c = None
     /\ forall v, Shared.lookup "llm" d = Some v ->
          exists l e,
            v = Shared.VRef l /\ l <> c
            /\ Shared.heap store_new !! l = Some (Shared.ODict e)
            /\ Shared.heap Shared.store0 !! l = None)
  /\ forall x o,
       Shared.heap Shared.store0 !! x = Some o ->
       Shared.heap store_new !! x = Some o.
Proof.
  apply (built_builders_own_their_objects Shared.store0 0 store_new
           Shared.default_llm_items).
  - reflexivity.
  - apply Shared.reached_by_new. vm_compute. reflexivity.
Defined.

(** X23.  What [validate] returns is the [config] attribute of the builder,
    the object itself and not a copy, and the store is unchanged: a
    [with_retry] called afterwards shows in the document returned. *)
Theorem validate_returns_the_live_document self s doc s1 enabled r s2 :
  Shared.validate self s = (Returns doc, s1) ->
  Shared.with_retry self enabled s1 = (Returns r, s2) ->
  s1 = s
  /\ Shared.configs s !! self = Some doc
  /\ Shared.getitem doc "retry_enabled" s2
     = (Returns (Shared.VBool enabled), s2).
Proof.
  intros Hv Hr. destruct (shared_validate_returns _ _ _ _ Hv) as (-> & Hc).
  split; [done|]. split; [done|].
  unfold Shared.with_retry, Shared.config_setitem in Hr.
  apply shared_bind_returns in Hr as ([] & s3 & Hr & Hret).
  unfold Shared.ret in Hret. injection Hret as _ ->.
  apply shared_bind_returns in Hr as (c & s4 & Hg & Hr).
  rewrite (shared_run_get_config _ _ _ Hc) in Hg. injection Hg as <- <-.
  unfold Shared.setitem in Hr.
  apply shared_bind_returns in Hr as (o & s5 & Ho & Hr).
  unfold Shared.object_of in Ho.
  destruct doc as [| | | |a]; try by injection Ho as <- <-.
  destruct (Shared.heap s !! a) as [[l|d]|] eqn:Ea; try done;
    injection Ho as <- <-; [done|].
  unfold Shared.put in Hr. injection Hr as <-.
  rewrite (shared_run_getitem a (Shared.set "retry_enabled"
                                   (Shared.VBool enabled) d)).
  - by rewrite shared_lookup_set_eq.
  - apply lookup_insert_eq.
Qed.

(** The theorem on a builder with three sports. *)
Lemma validate_returns_the_live_document_witness :
  store_ready = store_ready
  /\ Shared.configs store_ready !! 0 = Some (Shared.VRef 3)
  /\ Shared.getitem (Shared.VRef 3) "retry_enabled"
       (snd (Shared.with_retry 0 false store_ready))
     = (Returns (Shared.VBool false),
        snd (Shared.with_retry 0 false store_ready)).
Proof.
  apply (validate_returns_the_live_document 0 store_ready (Shared.VRef 3)
           store_ready false 0).
  - vm_compute. reflexivity.
  - vm_compute. reflexivity.
Defined.

(** ** Sessions and stores, run *)

Example test_interactive_session :
  fst (fst session) = Done tt
  /\ stdin (snd (fst session)) = []
  /\ stdout (snd (fst session))
     = "Sports Poetry Configuration Builder" +:+ nl
       +:+ "========================================" +:+ nl
       +:+ nl +:+ "Enter 3-5 sports (comma-separated):" +:+ nl
       +:+ "> "
       +:+ nl +:+ "Generation mode:" +:+ nl
       +:+ "  1. template (fast, deterministic)" +:+ nl
       +:+ "  2. llm (creative, requires API key)" +:+ nl
       +:+ "> "
       +:+ nl +:+ "✓ Config saved to: config.json" +:+ nl
  /\ files (snd session) !! "config.json" = Some (Json.dumps doc_ready).
Proof. vm_compute. repeat split; reflexivity. Qed.

Example test_interactive_too_few_sports :
  fst (fst (main session_argv (Console ["golf, chess"; "2"] "") w_installed))
  = SystemExit 1
  /\ files (snd (main session_argv (Console ["golf, chess"; "2"] "")
                   w_installed))
     = files w_installed.
Proof. vm_compute. split; reflexivity. Qed.

Example test_interactive_llm_huggingface :
  exists b c w,
    create_config_interactive
      (Console ["golf,chess,polo"; " 2 "; "2"; "left"] "") w_installed
    = (Done b, c, w)
    /\ stdin c = ["left"]
    /\ builders w !! b
       = Some (PDict
                 [("sports", PList [PStr "golf"; PStr "chess"; PStr "polo"]);
                  ("retry_enabled", PBool true);
                  ("generation_mode", PStr "llm");
                  ("llm",
                   PDict
                     [("provider", PStr "huggingface");
                      ("model",
                       PStr "meta-llama/Llama-3.3-70B-Instruct-Turbo-Free")])]).
Proof. eexists _, _, _. vm_compute. repeat split; reflexivity. Qed.

Example test_interactive_end_of_input :
  create_config_interactive (Console ["golf,chess,polo"] "x") w_installed
  = (EOFError,
     Console [] ("x" +:+ "Sports Poetry Configuration Builder" +:+ nl
                 +:+ "========================================" +:+ nl
                 +:+ nl +:+ "Enter 3-5 sports (comma-separated):" +:+ nl
                 +:+ "> "
                 +:+ nl +:+ "Generation mode:" +:+ nl
                 +:+ "  1. template (fast, deterministic)" +:+ nl
                 +:+ "  2. llm (creative, requires API key)" +:+ nl
                 +:+ "> "),
     w_installed).
Proof. vm_compute. reflexivity. Qed.

Example test_usage :
  exists out,
    main ["config_builder.py"] session_console w_installed
    = (Done tt, Console (stdin session_console) out, w_installed).
Proof. eexists. vm_compute. reflexivity. Qed.

Example shared_test_default_config :
  exists l,
    fst (Shared.config_getitem 0 "sports" store_new)
    = Returns (Shared.VRef l)
    /\ Shared.heap store_new !! l = Some (Shared.OList [])
    /\ fst (Shared.config_getitem 0 "retry_enabled" store_new)
       = Returns (Shared.VBool true)
    /\ fst (Shared.config_getitem 0 "generation_mode" store_new)
       = Returns (Shared.VStr "template")
    /\ fst (Shared.config_contains 0 "llm" store_new) = Returns false.
Proof. eexists. vm_compute. repeat split; reflexivity. Qed.

Example shared_test_with_llm_provider_huggingface :
  let s := snd (Shared.with_llm_provider 0 "huggingface" store_new) in
  fst (Shared.bind (Shared.config_getitem 0 "llm")
         (fun block => Shared.getitem block "provider") s)
  = Returns (Shared.VStr "huggingface")
  /\ fst (Shared.config_getitem 0 "generation_mode" s)
     = Returns (Shared.VStr "llm")
  /\ Shared.heap s !! Shared.DEFAULT_LLM_CONFIG
     = Some (Shared.ODict Shared.default_llm_items).
Proof. vm_compute. repeat split; reflexivity. Qed.

Example shared_test_with_sports :
  exists l,
    fst (Shared.config_getitem 0 "sports" store_ready)
    = Returns (Shared.VRef l)
    /\ l <> 1
    /\ Shared.heap store_ready !! l
       = Some (Shared.OList [Shared.VStr "golf"; Shared.VStr "chess";
                             Shared.VStr "polo"])
    /\ Shared.heap store_ready !! 1 = Shared.heap store_sports !! 1.
Proof. eexists. vm_compute. repeat split; (reflexivity || discriminate). Qed.
